(** * EduTutorAi: quiz parser, grader and analytics

    Shallow embedding of
      - [src/services/huggingface_service.py] (class [HuggingFaceService]):
        the response parser, the fallback quiz and the generation entry point;
      - [src/utils/quiz_parser.py] (class [QuizParser]): the grader, the
        grades and feedback, the topic and difficulty analytics and the
        study recommendations;
      - [src/pages/2_Take_Quiz.py]: the option labels of the quiz page, the
        answer key read back from them and the grade of the results page.

    Conventions of the embedding.
      - A Python [str] is a Rocq [string] read as ASCII text: case mapping
        and white space follow Python on code points below 128; other
        characters are caseless and are not white space.
      - A Python [dict] with string keys is an association list in insertion
        order ([pydict]); the answer map [Dict[int, str]] is a [gmap Z].
      - A Python [float] is an IEEE-754 binary64 value ([spec_float] with
        precision 53 and maximal exponent 1024), rounded to nearest even.
      - Code inside [try ... except Exception] runs in the [result] monad;
        the handler is the [Raise] branch of the caller. *)

From Stdlib Require Import ZArith List Ascii String Bool Lia DecimalString.
From Stdlib Require Import Floats.SpecFloat.
From stdpp Require Import base gmap list strings.

Local Open Scope Z_scope.

(** ** Python strings *)

Module PyStr.

Definition newline : ascii := ascii_of_nat 10.

(** [str.isspace] on one ASCII character: TAB..CR, FS..US and SPACE. *)
Definition is_space (c : ascii) : bool :=
  let n := nat_of_ascii c in
  ((9 <=? n)%nat && (n <=? 13)%nat)
  || ((28 <=? n)%nat && (n <=? 32)%nat).

Definition upper_char (c : ascii) : ascii :=
  let n := nat_of_ascii c in
  if ((97 <=? n)%nat && (n <=? 122)%nat) then ascii_of_nat (n - 32) else c.

(** [s.upper()] *)
Fixpoint upper (s : string) : string :=
  match s with
  | EmptyString => EmptyString
  | String c s' => String (upper_char c) (upper s')
  end.

Fixpoint lstrip (s : string) : string :=
  match s with
  | EmptyString => EmptyString
  | String c s' => if is_space c then lstrip s' else s
  end.

Fixpoint rstrip (s : string) : string :=
  match s with
  | EmptyString => EmptyString
  | String c s' =>
      match rstrip s' with
      | EmptyString => if is_space c then EmptyString else String c EmptyString
      | r => String c r
      end
  end.

(** [s.strip()] *)
Definition strip (s : string) : string := rstrip (lstrip s).

(** [s.startswith(p)] *)
Definition startswith (p s : string) : bool := String.prefix p s.

(** [s.split('\n')]: never empty, a trailing newline gives a last [''] *)
Fixpoint split_lines (s : string) : list string :=
  match s with
  | EmptyString => [EmptyString]
  | String c s' =>
      if Ascii.eqb c newline then EmptyString :: split_lines s'
      else match split_lines s' with
           | l :: ls => String c l :: ls
           | [] => [String c EmptyString]
           end
  end.

(** [s.replace(old, '')] for a non-empty [old]: every occurrence found by
    a left-to-right scan is dropped; [skip] counts the characters of the
    occurrence that are still to be dropped. *)
Fixpoint remove_from (old : string) (skip : nat) (s : string) : string :=
  match s with
  | EmptyString => EmptyString
  | String c s' =>
      match skip with
      | S k => remove_from old k s'
      | O =>
          if String.prefix old s
          then remove_from old (String.length old - 1) s'
          else String c (remove_from old O s')
      end
  end.

Definition remove (old s : string) : string :=
  match old with
  | EmptyString => s
  | _ => remove_from old O s
  end.

(** [s[n:]] for [n >= 0] *)
Fixpoint drop (n : nat) (s : string) : string :=
  match n, s with
  | S k, String _ s' => drop k s'
  | _, _ => s
  end.

(** [s[0]] of a non-empty string, as a one-character string *)
Definition first_char (s : string) : string :=
  match s with
  | EmptyString => EmptyString
  | String c _ => String c EmptyString
  end.

(** [sep.join(l)] *)
Fixpoint join (sep : string) (l : list string) : string :=
  match l with
  | [] => EmptyString
  | [x] => x
  | x :: rest => x +:+ sep +:+ join sep rest
  end.

(** [sub in s] *)
Fixpoint contains (sub s : string) : bool :=
  String.prefix sub s ||
  match s with
  | EmptyString => false
  | String _ s' => contains sub s'
  end.

(** [str(n)] for an [int] *)
Definition of_Z (z : Z) : string := NilZero.string_of_int (Z.to_int z).

End PyStr.

(** ** Python values and dictionaries *)

#[warnings="-register-all"]
Inductive pyval : Type :=
| PNone
| PStr (s : string)
| PInt (z : Z)
| PDict (items : list (string * pyval)).

Definition pydict : Type := list (string * pyval).

(** [d.get(k)] *)
Fixpoint dict_get {V : Type} (k : string) (d : list (string * V)) : option V :=
  match d with
  | [] => None
  | (k', v) :: d' => if String.eqb k k' then Some v else dict_get k d'
  end.

(** [d[k] = v]: an existing key keeps its position, a new key goes last *)
Fixpoint dict_set {V : Type} (k : string) (v : V) (d : list (string * V))
  : list (string * V) :=
  match d with
  | [] => [(k, v)]
  | (k', v') :: d' =>
      if String.eqb k k' then (k, v) :: d' else (k', v') :: dict_set k v d'
  end.

(** [k in d] *)
Definition dict_mem {V : Type} (k : string) (d : list (string * V)) : bool :=
  match dict_get k d with Some _ => true | None => false end.

Definition dict_keys {V : Type} (d : list (string * V)) : list string :=
  map fst d.

(** [bool(v)] *)
Definition truthy (v : pyval) : bool :=
  match v with
  | PNone => false
  | PStr s => negb (String.eqb s "")
  | PInt z => negb (Z.eqb z 0)
  | PDict items => match items with [] => false | _ => true end
  end.

(** [l[:n]] for any integer [n]: a negative [n] counts from the end *)
Definition py_take {A : Type} (n : Z) (l : list A) : list A :=
  if 0 <=? n then firstn (Z.to_nat n) l
  else firstn (Z.to_nat (Z.of_nat (length l) + n)) l.

(** [l[-n:]] for [n > 0] *)
Definition py_last {A : Type} (n : nat) (l : list A) : list A :=
  skipn (length l - n) l.

(** ** Exceptions *)

Inductive exn : Type :=
| AttributeError
| TypeError
| ZeroDivisionError.

Inductive result (A : Type) : Type :=
| Ok (a : A)
| Raise (e : exn).

Arguments Ok {A} a.
Arguments Raise {A} e.

Definition bind {A B : Type} (r : result A) (k : A -> result B) : result B :=
  match r with
  | Ok a => k a
  | Raise e => Raise e
  end.

Notation "'try' x <- r ;; k" := (bind r (fun x => k))
  (at level 10, x name, r at level 99, k at level 200).

Definition raised {A : Type} (r : result A) : bool :=
  match r with Ok _ => false | Raise _ => true end.

(** ** Python floats *)

Module PyFloat.

Definition prec : Z := 53.
Definition emax : Z := 1024.

Definition float : Type := spec_float.

Definition add : float -> float -> float := SFadd prec emax.
Definition sub : float -> float -> float := SFsub prec emax.
Definition mul : float -> float -> float := SFmul prec emax.
Definition div : float -> float -> float := SFdiv prec emax.
Definition ltb : float -> float -> bool := SFltb.

(** [float(z)] for an [int] within the range of a double *)
Definition of_Z (z : Z) : float := binary_normalize prec emax z 0 false.

Definition zero : float := S754_zero false.

Definition is_finite (x : float) : bool :=
  match x with
  | S754_zero _ | S754_finite _ _ _ => true
  | _ => false
  end.

(** [a / b] on two [int]s: the quotient of the exact integers, rounded
    once; [ZeroDivisionError] when [b] is zero. *)
Definition int_truediv (a b : Z) : result float :=
  match a, b with
  | _, Z0 => Raise ZeroDivisionError
  | Z0, Zpos _ => Ok (S754_zero false)
  | Z0, Zneg _ => Ok (S754_zero true)
  | Zpos p, Zpos q => Ok (div (S754_finite false p 0) (S754_finite false q 0))
  | Zpos p, Zneg q => Ok (div (S754_finite false p 0) (S754_finite true q 0))
  | Zneg p, Zpos q => Ok (div (S754_finite true p 0) (S754_finite false q 0))
  | Zneg p, Zneg q => Ok (div (S754_finite true p 0) (S754_finite true q 0))
  end.

(** Nearest integer to [n / d] for [0 <= n] and [0 < d], ties to even. *)
Definition round_half_even_div (n d : Z) : Z :=
  let q := n / d in
  let r := n mod d in
  match 2 * r ?= d with
  | Lt => q
  | Gt => q + 1
  | Eq => if Z.even q then q else q + 1
  end.

(** Nearest integer to [m * 2^e * k], ties to even. *)
Definition scaled (m : positive) (e : Z) (k : Z) : Z :=
  if 0 <=? e then Zpos m * 2 ^ e * k
  else round_half_even_div (Zpos m * k) (2 ^ (- e)).

(** [round(x, 2)] on a float: the exact value of [x] is rounded to two
    decimals (ties to even) and the decimal is converted back to the
    nearest double; zeros, infinities and NaN round to themselves. *)
Definition round2 (x : float) : float :=
  match x with
  | S754_finite s m e =>
      match scaled m e 100 with
      | Zpos n => div (S754_finite s n 0) (S754_finite false 100 0)
      | _ => S754_zero s
      end
  | _ => x
  end.

(** [f"{x:.1f}"] *)
Definition format_1f (x : float) : string :=
  match x with
  | S754_nan => "nan"
  | S754_infinity s => if s then "-inf" else "inf"
  | S754_zero s => if s then "-0.0" else "0.0"
  | S754_finite s m e =>
      let n := scaled m e 10 in
      (if s then "-" else "")
        +:+ PyStr.of_Z (n / 10) +:+ "." +:+ PyStr.of_Z (n mod 10)
  end.

(** [sum(l)] of floats, added left to right from [0] as the language
    reference describes it.  (CPython 3.12 and later carry a compensation
    term that can change the last bit of a sum of three or more floats; no
    statement below depends on that bit.) *)
Definition sum (l : list float) : float := fold_left add l zero.

(** [max(a, b)] and [min(a, b)]: the first argument wins ties *)
Definition max (a b : float) : float := if ltb a b then b else a.
Definition min (a b : float) : float := if ltb b a then b else a.

End PyFloat.

(** ** The quiz generation service *)

Module HuggingFaceService.

(** [_create_quiz_prompt] *)
Definition _create_quiz_prompt (topic difficulty : string) (num_questions : Z)
  : string :=
  let nl := String PyStr.newline EmptyString in
  "Generate " +:+ PyStr.of_Z num_questions
    +:+ " multiple choice questions about " +:+ topic +:+ " at "
    +:+ difficulty +:+ " difficulty level." +:+ nl
  +:+ nl
  +:+ "Format each question exactly as follows:" +:+ nl
  +:+ "Question: [Question text]" +:+ nl
  +:+ "A) [Option A]" +:+ nl
  +:+ "B) [Option B]  " +:+ nl
  +:+ "C) [Option C]" +:+ nl
  +:+ "D) [Option D]" +:+ nl
  +:+ "Correct Answer: [A, B, C, or D]" +:+ nl
  +:+ "Explanation: [Brief explanation of the correct answer]" +:+ nl
  +:+ nl
  +:+ "Topic: " +:+ topic +:+ nl
  +:+ "Difficulty: " +:+ difficulty +:+ nl
  +:+ "Number of questions: " +:+ PyStr.of_Z num_questions +:+ nl
  +:+ nl
  +:+ "Questions:" +:+ nl.

(** [_generate_fallback_quiz]: the five templates, in source order *)
Definition fallback_questions (topic : string) : list pydict :=
  [ [ ("question", PStr ("What is an important concept in " +:+ topic +:+ "?"));
      ("options", PDict
         [ ("A", PStr ("Basic principle of " +:+ topic));
           ("B", PStr ("Advanced theory in " +:+ topic));
           ("C", PStr ("Common misconception about " +:+ topic));
           ("D", PStr "Unrelated concept") ]);
      ("correct_answer", PStr "A");
      ("explanation", PStr ("The basic principles form the foundation of understanding "
                            +:+ topic +:+ ".")) ];
    [ ("question", PStr ("Which of the following best describes " +:+ topic +:+ "?"));
      ("options", PDict
         [ ("A", PStr "A complex field of study");
           ("B", PStr "An area requiring practical application");
           ("C", PStr "A theoretical framework");
           ("D", PStr "All of the above") ]);
      ("correct_answer", PStr "D");
      ("explanation", PStr (topic +:+ " encompasses theoretical knowledge and practical applications.")) ];
    [ ("question", PStr ("What is the primary goal when studying " +:+ topic +:+ "?"));
      ("options", PDict
         [ ("A", PStr ("To memorize facts about " +:+ topic));
           ("B", PStr "To understand core concepts and applications");
           ("C", PStr "To pass examinations only");
           ("D", PStr "To impress others with knowledge") ]);
      ("correct_answer", PStr "B");
      ("explanation", PStr ("Understanding core concepts and their applications is key to mastering "
                            +:+ topic +:+ ".")) ];
    [ ("question", PStr ("How can knowledge of " +:+ topic
                         +:+ " be applied in real-world scenarios?"));
      ("options", PDict
         [ ("A", PStr "Through theoretical analysis only");
           ("B", PStr "By solving practical problems");
           ("C", PStr "In academic discussions exclusively");
           ("D", PStr "It has no practical applications") ]);
      ("correct_answer", PStr "B");
      ("explanation", PStr ("Knowledge of " +:+ topic
                            +:+ " is most valuable when applied to solve real-world problems.")) ];
    [ ("question", PStr ("What approach is most effective for learning " +:+ topic +:+ "?"));
      ("options", PDict
         [ ("A", PStr "Passive reading only");
           ("B", PStr "Active practice and application");
           ("C", PStr "Memorization without understanding");
           ("D", PStr "Avoiding challenging concepts") ]);
      ("correct_answer", PStr "B");
      ("explanation", PStr ("Active practice and application reinforce understanding and retention of "
                            +:+ topic +:+ ".")) ] ].

Definition _generate_fallback_quiz (topic : string) (num_questions : Z)
  : list pydict :=
  py_take num_questions (fallback_questions topic).

(** State of the line scan of [_parse_quiz_response]:
    the list [questions] and the dictionary [current_question]. *)
Record scan_state : Type := {
  questions : list pydict;
  current_question : pydict
}.

Definition scan_init : scan_state :=
  {| questions := []; current_question := [] |}.

Definition is_option_line (line : string) : bool :=
  PyStr.startswith "A)" line || PyStr.startswith "B)" line
  || PyStr.startswith "C)" line || PyStr.startswith "D)" line.

(** One iteration of [for line in lines].  The value under ['options'] is
    only ever created as a dictionary by the [Question:] branch (lemma
    [options_is_dict] below), so the item assignment cannot fail. *)
Definition scan_line (st : scan_state) (raw : string) : scan_state :=
  let line := PyStr.strip raw in
  let cur := current_question st in
  if PyStr.startswith "Question:" line then
    {| questions :=
         if truthy (PDict cur) then questions st ++ [cur] else questions st;
       current_question :=
         [ ("question", PStr (PyStr.strip (PyStr.remove "Question:" line)));
           ("options", PDict []);
           ("correct_answer", PStr "");
           ("explanation", PStr "") ] |}
  else if is_option_line line then
    let option_key := PyStr.first_char line in
    let option_text := PyStr.strip (PyStr.drop 2 line) in
    match dict_get "options" cur with
    | Some (PDict opts) =>
        {| questions := questions st;
           current_question :=
             dict_set "options" (PDict (dict_set option_key (PStr option_text) opts)) cur |}
    | _ => st
    end
  else if PyStr.startswith "Correct Answer:" line then
    {| questions := questions st;
       current_question :=
         dict_set "correct_answer"
           (PStr (PyStr.strip (PyStr.remove "Correct Answer:" line))) cur |}
  else if PyStr.startswith "Explanation:" line then
    {| questions := questions st;
       current_question :=
         dict_set "explanation"
           (PStr (PyStr.strip (PyStr.remove "Explanation:" line))) cur |}
  else st.

Definition scan_lines (lines : list string) : scan_state :=
  fold_left scan_line lines scan_init.

(** [current_question.get('question')] as a condition *)
Definition has_question (d : pydict) : bool :=
  match dict_get "question" d with
  | Some v => truthy v
  | None => false
  end.

(** The flush after the loop: "Add the last question". *)
Definition flush_last (st : scan_state) : list pydict :=
  let cur := current_question st in
  if truthy (PDict cur) && has_question cur
  then questions st ++ [cur] else questions st.

(** The list [questions] as it stands before the fallback test. *)
Definition parsed_questions (response : string) : list pydict :=
  flush_last (scan_lines (PyStr.split_lines response)).

(** [response.split('\n')[0] if response else "General Knowledge"] *)
Definition fallback_topic (response : string) : string :=
  if truthy (PStr response)
  then hd EmptyString (PyStr.split_lines response)
  else "General Knowledge".

(** [_parse_quiz_response] on a [str] response.  Nothing in the body can
    raise on a string, so the [except] branch is not reached. *)
Definition _parse_quiz_response (response : string) (num_questions : Z)
  : list pydict :=
  let qs := parsed_questions response in
  if (length qs =? 0)%nat
  then _generate_fallback_quiz (fallback_topic response) num_questions
  else py_take num_questions qs.

(** [generate_quiz_questions].  The network call [_make_api_request] is
    the parameter [api]: it maps the prompt to the generated text, or to
    [None] when the request fails. *)
Definition generate_quiz_questions (api : string -> option string)
    (topic difficulty : string) (num_questions : Z) : list pydict :=
  let prompt := _create_quiz_prompt topic difficulty num_questions in
  match api prompt with
  | Some response =>
      if truthy (PStr response)
      then _parse_quiz_response response num_questions
      else _generate_fallback_quiz topic num_questions
  | None => _generate_fallback_quiz topic num_questions
  end.

(** *** Answer evaluation *)

Record evaluation : Type := {
  ev_is_correct : bool;
  ev_correct_answer : pyval;
  ev_explanation : pyval;
  ev_user_answer : pyval;
  ev_score : nat
}.

(** What the [try] block of [evaluate_answer] can raise; [except Exception]
    catches all of it and only shows the message. *)
Inductive evaluate_error : Type :=
| UpperOfNonString     (* AttributeError: [.upper()] of a value that is no string *)
| MissingCorrectAnswer (* KeyError: [question['correct_answer']] *)
| QuestionNotIndexable (* TypeError: [question[...]] on a value that is no dictionary *).

(** The [try] block: [user_answer.upper()] is evaluated first, then
    [question['correct_answer']], then its [.upper()]. *)
Definition evaluate_try (question user_answer : pyval)
  : evaluate_error + evaluation :=
  match user_answer with
  | PStr a =>
      match question with
      | PDict d =>
          match dict_get "correct_answer" d with
          | Some (PStr c) =>
              let is_correct := String.eqb (PyStr.upper a) (PyStr.upper c) in
              inr {| ev_is_correct := is_correct;
                     ev_correct_answer := PStr c;
                     ev_explanation := default (PStr "") (dict_get "explanation" d);
                     ev_user_answer := user_answer;
                     ev_score := if is_correct then 1 else 0 |}
          | Some _ => inl UpperOfNonString
          | None => inl MissingCorrectAnswer
          end
      | _ => inl QuestionNotIndexable
      end
  | _ => inl UpperOfNonString
  end.

(** [evaluate_answer].  The handler calls [question.get] twice, which
    raises again when the question is no dictionary; nothing catches
    that. *)
Definition evaluate_answer (question user_answer : pyval) : result evaluation :=
  match evaluate_try question user_answer with
  | inr evaluated => Ok evaluated
  | inl _ =>
      match question with
      | PDict d =>
          Ok {| ev_is_correct := false;
                ev_correct_answer := default (PStr "") (dict_get "correct_answer" d);
                ev_explanation := default (PStr "") (dict_get "explanation" d);
                ev_user_answer := user_answer;
                ev_score := 0 |}
      | _ => Raise AttributeError
      end
  end.

End HuggingFaceService.

(** ** Grading, analytics and recommendations *)

Module QuizParser.

Import PyFloat.

(** [obj.get(k, default)]: only a dictionary has the method *)
Definition py_get (obj : pyval) (k : string) (dflt : pyval) : result pyval :=
  match obj with
  | PDict d =>
      Ok (match dict_get k d with Some v => v | None => dflt end)
  | _ => Raise AttributeError
  end.

(** [obj.upper()]: only a string has the method *)
Definition py_upper (obj : pyval) : result string :=
  match obj with
  | PStr s => Ok (PyStr.upper s)
  | _ => Raise AttributeError
  end.

(** [v != s] for a string literal [s] *)
Definition py_ne_str (v : pyval) (s : string) : bool :=
  match v with
  | PStr s' => negb (String.eqb s' s)
  | _ => true
  end.

Definition not_answered : string := "Not answered".

Record breakdown_entry : Type := {
  question_number : nat;
  question : pyval;
  options : pyval;
  user_answer : pyval;
  correct_answer : pyval;
  is_correct : bool;
  explanation : pyval
}.

Record quiz_result : Type := {
  score : nat;
  total_questions : nat;
  percentage : float;
  time_taken : float;
  questions_breakdown : list breakdown_entry
}.

(** [user_answer and correct_answer and
     user_answer.upper() == correct_answer.upper()] as a condition *)
Definition answer_matches (user_answer correct_answer : pyval) : result bool :=
  if truthy user_answer then
    if truthy correct_answer then
      try x <- py_upper user_answer ;;
      try y <- py_upper correct_answer ;;
      Ok (String.eqb x y)
    else Ok false
  else Ok false.

(** The scoring loop of [calculate_quiz_results], from index [i] on, with
    the running value of [correct_answers]. *)
Fixpoint score_loop (i : nat) (questions : list pyval)
    (user_answers : gmap Z pyval) (correct_answers : nat) : result nat :=
  match questions with
  | [] => Ok correct_answers
  | question :: rest =>
      let user_answer := default PNone (user_answers !! Z.of_nat i) in
      try correct_answer <- py_get question "correct_answer" PNone ;;
      try hit <- answer_matches user_answer correct_answer ;;
      score_loop (S i) rest user_answers
        (if hit then S correct_answers else correct_answers)
  end.

(** [is_correct] of [_get_questions_breakdown] *)
Definition breakdown_is_correct (user_answer correct_answer : pyval)
  : result bool :=
  if py_ne_str user_answer not_answered then
    try x <- py_upper user_answer ;;
    try y <- py_upper correct_answer ;;
    Ok (String.eqb x y)
  else Ok false.

Definition breakdown_entry_at (i : nat) (question : pyval)
    (user_answers : gmap Z pyval) : result breakdown_entry :=
  let user_answer := default (PStr not_answered) (user_answers !! Z.of_nat i) in
  try correct_answer <- py_get question "correct_answer" (PStr "Unknown") ;;
  try is_correct <- breakdown_is_correct user_answer correct_answer ;;
  try q <- py_get question "question" (PStr "") ;;
  try o <- py_get question "options" (PDict []) ;;
  try e <- py_get question "explanation" (PStr "") ;;
  Ok {| question_number := i + 1;
        question := q;
        options := o;
        user_answer := user_answer;
        correct_answer := correct_answer;
        is_correct := is_correct;
        explanation := e |}.

(** The loop of [_get_questions_breakdown], from index [i] on. *)
Fixpoint breakdown_loop (i : nat) (questions : list pyval)
    (user_answers : gmap Z pyval) : result (list breakdown_entry) :=
  match questions with
  | [] => Ok []
  | question :: rest =>
      try entry <- breakdown_entry_at i question user_answers ;;
      try entries <- breakdown_loop (S i) rest user_answers ;;
      Ok (entry :: entries)
  end.

Definition _get_questions_breakdown (questions : list pyval)
    (user_answers : gmap Z pyval) : result (list breakdown_entry) :=
  breakdown_loop 0 questions user_answers.

(** The [try] block of [calculate_quiz_results].  [now] is the value
    returned by [time.time()].  When [total_questions] is zero Python
    keeps the integer [0] as percentage; it is the float [0.0] here. *)
Definition grade (now : float) (questions : list pyval)
    (user_answers : gmap Z pyval) (start_time : float) : result quiz_result :=
  let total_questions := length questions in
  let time_taken := sub now start_time in
  try correct_answers <- score_loop 0 questions user_answers 0 ;;
  try percentage <-
    (if (0 <? total_questions)%nat then
       try q <- int_truediv (Z.of_nat correct_answers) (Z.of_nat total_questions) ;;
       Ok (mul q (of_Z 100))
     else Ok zero) ;;
  try breakdown <- _get_questions_breakdown questions user_answers ;;
  Ok {| score := correct_answers;
        total_questions := total_questions;
        percentage := round2 percentage;
        time_taken := round2 time_taken;
        questions_breakdown := breakdown |}.

(** The [except Exception] branch: "Return default results on error". *)
Definition default_results (questions : list pyval) : quiz_result :=
  {| score := 0;
     total_questions :=
       match questions with [] => 0%nat | _ => length questions end;
     percentage := zero;
     time_taken := zero;
     questions_breakdown := [] |}.

Definition calculate_quiz_results (now : float) (questions : list pyval)
    (user_answers : gmap Z pyval) (start_time : float) : quiz_result :=
  match grade now questions user_answers start_time with
  | Ok results => results
  | Raise _ => default_results questions
  end.

(** *** The call with its handler *)

(** The first argument of [calculate_quiz_results] as a caller can pass
    it: a list, or a value that is no list. *)
Inductive questions_arg : Type :=
| QuestionList (l : list pyval)
| NoList (v : pyval).

(** [len(questions)]: [None] and integers have no length *)
Definition arg_len (questions : questions_arg) : result nat :=
  match questions with
  | QuestionList l => Ok (length l)
  | NoList (PStr s) => Ok (String.length s)
  | NoList (PDict d) => Ok (length d)
  | NoList _ => Raise TypeError
  end.

(** [questions] as a condition *)
Definition arg_truthy (questions : questions_arg) : bool :=
  match questions with
  | QuestionList l => match l with [] => false | _ => true end
  | NoList v => truthy v
  end.

(** The [try] block on any argument.  [len(questions)] comes first.  A
    string is then enumerated by its characters and a dictionary by its
    keys, which are strings: [question.get] raises at the first of them;
    an empty string or dictionary is graded like the empty list. *)
Definition grade_arg (now : float) (questions : questions_arg)
    (user_answers : gmap Z pyval) (start_time : float) : result quiz_result :=
  match questions with
  | QuestionList l => grade now l user_answers start_time
  | NoList _ =>
      try n <- arg_len questions ;;
      if (0 <? n)%nat then Raise AttributeError
      else grade now [] user_answers start_time
  end.

(** [calculate_quiz_results] with its handler.  The handler evaluates
    [len(questions) if questions else 0] itself; what that raises is caught
    by nothing. *)
Definition calculate_quiz_results_call (now : float) (questions : questions_arg)
    (user_answers : gmap Z pyval) (start_time : float) : result quiz_result :=
  match grade_arg now questions user_answers start_time with
  | Ok results => Ok results
  | Raise _ =>
      try n <- (if arg_truthy questions then arg_len questions else Ok 0%nat) ;;
      Ok {| score := 0;
            total_questions := n;
            percentage := zero;
            time_taken := zero;
            questions_breakdown := [] |}
  end.

(** *** Analytics *)

(** A record of the quiz history.  [None] stands for an absent key, which
    the [.get] calls replace by ['Unknown'], ['medium'] and [0]. *)
Record history_record : Type := {
  h_topic : option string;
  h_difficulty : option string;
  h_percentage : option float
}.

(** The entry of [topic_stats] while the history is scanned. *)
Record topic_acc : Type := {
  acc_total_quizzes : nat;
  acc_total_score : float;
  acc_best_score : float;
  acc_worst_score : float;
  acc_scores : list float
}.

Record topic_stats : Type := {
  total_quizzes : nat;
  total_score : float;
  best_score : float;
  worst_score : float;
  scores : list float;
  average_score : float;
  trend : float
}.

Definition topic_acc_init : topic_acc :=
  {| acc_total_quizzes := 0;
     acc_total_score := zero;
     acc_best_score := zero;
     acc_worst_score := of_Z 100;
     acc_scores := [] |}.

(** The body of the first loop of [analyze_topic_performance]. *)
Definition topic_add (stats : list (string * topic_acc)) (quiz : history_record)
  : list (string * topic_acc) :=
  let topic := default "Unknown" (h_topic quiz) in
  let percentage := default zero (h_percentage quiz) in
  let stats :=
    if dict_mem topic stats then stats else dict_set topic topic_acc_init stats in
  match dict_get topic stats with
  | Some a =>
      dict_set topic
        {| acc_total_quizzes := acc_total_quizzes a + 1;
           acc_total_score := add (acc_total_score a) percentage;
           acc_best_score := max (acc_best_score a) percentage;
           acc_worst_score := min (acc_worst_score a) percentage;
           acc_scores := acc_scores a ++ [percentage] |}
        stats
  | None => stats
  end.

(** [sum(l) / len(l)].  Python raises [ZeroDivisionError] on a zero
    divisor where IEEE division does not; every divisor of the analytics
    is the length of a non-empty list (lemmas [topic_add_counts] and
    [trend_windows_nonempty]). *)
Definition mean (l : list float) : float :=
  div (sum l) (of_Z (Z.of_nat (length l))).

(** The trend of a chronological list of scores. *)
Definition trend_of (scores : list float) : float :=
  if (1 <? length scores)%nat then
    let recent_avg := mean (py_last 3 scores) in
    let early_avg := mean (firstn 3 scores) in
    sub recent_avg early_avg
  else zero.

(** The body of the second loop: "Calculate averages and trends". *)
Definition topic_finish (a : topic_acc) : topic_stats :=
  {| total_quizzes := acc_total_quizzes a;
     total_score := acc_total_score a;
     best_score := acc_best_score a;
     worst_score := acc_worst_score a;
     scores := acc_scores a;
     average_score :=
       div (acc_total_score a) (of_Z (Z.of_nat (acc_total_quizzes a)));
     trend := trend_of (acc_scores a) |}.

Definition analyze_topic_performance (quiz_history : list history_record)
  : list (string * topic_stats) :=
  match quiz_history with
  | [] => []
  | _ =>
      let topic_stats := fold_left topic_add quiz_history [] in
      map (fun entry => (fst entry, topic_finish (snd entry))) topic_stats
  end.

Record difficulty_acc : Type := {
  dacc_total_quizzes : nat;
  dacc_total_score : float;
  dacc_scores : list float
}.

Record difficulty_stats : Type := {
  d_total_quizzes : nat;
  d_total_score : float;
  d_scores : list float;
  d_average_score : float;
  success_rate : float
}.

Definition difficulty_add (stats : list (string * difficulty_acc))
    (quiz : history_record) : list (string * difficulty_acc) :=
  let difficulty := default "medium" (h_difficulty quiz) in
  let percentage := default zero (h_percentage quiz) in
  let stats :=
    if dict_mem difficulty stats then stats
    else dict_set difficulty
           {| dacc_total_quizzes := 0; dacc_total_score := zero; dacc_scores := [] |}
           stats in
  match dict_get difficulty stats with
  | Some a =>
      dict_set difficulty
        {| dacc_total_quizzes := dacc_total_quizzes a + 1;
           dacc_total_score := add (dacc_total_score a) percentage;
           dacc_scores := dacc_scores a ++ [percentage] |}
        stats
  | None => stats
  end.

(** [s >= 70] *)
Definition passed (s : float) : bool := SFleb (of_Z 70) s.

(** The body of the second loop of [get_difficulty_analysis]. *)
Definition difficulty_finish (a : difficulty_acc) : result difficulty_stats :=
  try rate <-
    int_truediv (Z.of_nat (length (List.filter passed (dacc_scores a))))
                (Z.of_nat (length (dacc_scores a))) ;;
  Ok {| d_total_quizzes := dacc_total_quizzes a;
        d_total_score := dacc_total_score a;
        d_scores := dacc_scores a;
        d_average_score :=
          div (dacc_total_score a) (of_Z (Z.of_nat (dacc_total_quizzes a)));
        success_rate := mul rate (of_Z 100) |}.

Fixpoint difficulty_finish_all (l : list (string * difficulty_acc))
  : result (list (string * difficulty_stats)) :=
  match l with
  | [] => Ok []
  | (difficulty, a) :: rest =>
      try st <- difficulty_finish a ;;
      try sts <- difficulty_finish_all rest ;;
      Ok ((difficulty, st) :: sts)
  end.

Definition get_difficulty_analysis (quiz_history : list history_record)
  : result (list (string * difficulty_stats)) :=
  match quiz_history with
  | [] => Ok []
  | _ => difficulty_finish_all (fold_left difficulty_add quiz_history [])
  end.

(** *** Recommendations *)

(** [sorted(items, key=...)] as a stable insertion sort on the keys: an
    element goes before the first element whose key is not smaller.  On
    keys without NaN every stable sort returns this list. *)
Fixpoint insert_by {A : Type} (key : A -> float) (x : A) (l : list A) : list A :=
  match l with
  | [] => [x]
  | y :: l' => if ltb (key y) (key x) then y :: insert_by key x l' else x :: l
  end.

Fixpoint sorted_by {A : Type} (key : A -> float) (l : list A) : list A :=
  match l with
  | [] => []
  | x :: l' => insert_by key x (sorted_by key l')
  end.

Definition weakest_message (topic : string) (avg : float) : string :=
  "Focus on improving your understanding of " +:+ topic
    +:+ " - your average score is " +:+ format_1f avg +:+ "%".

Definition declining_message (topics : list string) : string :=
  "Review " +:+ PyStr.join ", " topics
    +:+ " as your performance seems to be declining in these areas".

Definition difficulty_message (difficulty : string) (rate : float) : string :=
  "Consider practicing more " +:+ difficulty
    +:+ " level questions - your success rate is " +:+ format_1f rate +:+ "%".

Definition encouragement : string :=
  "Keep up the great work! Continue practicing regularly to maintain your performance.".

(** [[topic for topic, stats in topic_performance.items()
      if stats['trend'] < -10]] *)
Definition declining_topics (topic_performance : list (string * topic_stats))
  : list string :=
  map fst (List.filter (fun entry => ltb (trend (snd entry)) (of_Z (-10)))
             topic_performance).

(** The block "Topic-based recommendations", applied to the running list. *)
Definition topic_recommendations
    (topic_performance : list (string * topic_stats))
    (recommendations : list string) : list string :=
  match topic_performance with
  | [] => recommendations
  | _ =>
      let sorted_topics :=
        sorted_by (fun entry => average_score (snd entry)) topic_performance in
      match sorted_topics with
      | [] => recommendations
      | weakest_topic :: _ =>
          let recommendations :=
            if ltb (average_score (snd weakest_topic)) (of_Z 70)
            then recommendations ++
                   [weakest_message (fst weakest_topic)
                      (average_score (snd weakest_topic))]
            else recommendations in
          match declining_topics topic_performance with
          | [] => recommendations
          | declining => recommendations ++ [declining_message declining]
          end
      end
  end.

(** The loop "Difficulty-based recommendations", one step. *)
Definition difficulty_recommendation (recommendations : list string)
    (entry : string * difficulty_stats) : list string :=
  if ltb (d_average_score (snd entry)) (of_Z 60)
  then recommendations ++
         [difficulty_message (fst entry) (success_rate (snd entry))]
  else recommendations.

Definition generate_study_recommendations
    (topic_performance : list (string * topic_stats))
    (difficulty_analysis : list (string * difficulty_stats)) : list string :=
  let recommendations := [] in
  let recommendations := topic_recommendations topic_performance recommendations in
  let recommendations :=
    fold_left difficulty_recommendation difficulty_analysis recommendations in
  let recommendations :=
    match recommendations with
    | [] => recommendations ++ [encouragement]
    | _ => recommendations
    end in
  py_take 3 recommendations.

(** *** Grades and feedback *)

(** [get_performance_grade] *)
Definition get_performance_grade (percentage : PyFloat.float) : string :=
  if SFleb (PyFloat.of_Z 97) percentage then "A+"
  else if SFleb (PyFloat.of_Z 93) percentage then "A"
  else if SFleb (PyFloat.of_Z 90) percentage then "A-"
  else if SFleb (PyFloat.of_Z 87) percentage then "B+"
  else if SFleb (PyFloat.of_Z 83) percentage then "B"
  else if SFleb (PyFloat.of_Z 80) percentage then "B-"
  else if SFleb (PyFloat.of_Z 77) percentage then "C+"
  else if SFleb (PyFloat.of_Z 73) percentage then "C"
  else if SFleb (PyFloat.of_Z 70) percentage then "C-"
  else if SFleb (PyFloat.of_Z 67) percentage then "D+"
  else if SFleb (PyFloat.of_Z 65) percentage then "D"
  else "F".

Record feedback : Type := {
  level : string;
  message : string;
  color : string
}.

(** [get_performance_feedback] *)
Definition get_performance_feedback (percentage : PyFloat.float) : feedback :=
  if SFleb (PyFloat.of_Z 90) percentage then
    {| level := "Excellent";
       message := "Outstanding performance! You have mastered this topic.";
       color := "success" |}
  else if SFleb (PyFloat.of_Z 80) percentage then
    {| level := "Good";
       message := "Great job! You have a solid understanding of the material.";
       color := "success" |}
  else if SFleb (PyFloat.of_Z 70) percentage then
    {| level := "Satisfactory";
       message := "Good work! There's room for improvement in some areas.";
       color := "info" |}
  else if SFleb (PyFloat.of_Z 60) percentage then
    {| level := "Needs Improvement";
       message := "You're on the right track, but consider reviewing the material.";
       color := "warning" |}
  else
    {| level := "Needs Significant Improvement";
       message := "Please review the material thoroughly and consider additional practice.";
       color := "error" |}.

End QuizParser.

(** ** The quiz page *)

Module TakeQuizPage.

(** [f"{key}) {value}"], where [text] is the value as the f-string
    formats it *)
Definition option_label (key text : string) : string :=
  key +:+ ") " +:+ text.

(** [[f"{key}) {value}" for key, value in options.items()]]; [format] is
    the conversion of a value by the f-string. *)
Definition option_list (format : pyval -> string) (options : pydict)
  : list string :=
  map (fun entry => option_label (fst entry) (format (snd entry))) options.

(** [s.split(')')[0]]: the text before the first [')'], all of [s] when
    it has none *)
Fixpoint before_paren (s : string) : string :=
  match s with
  | EmptyString => EmptyString
  | String c s' =>
      if Ascii.eqb c ")" then EmptyString else String c (before_paren s')
  end.

(** [answer_key = selected_option.split(')')[0]] *)
Definition answer_key (selected_option : string) : string :=
  before_paren selected_option.

(** [if selected_option: user_answers[current_q] = answer_key], where the
    radio button returns [None] or one of the labels. *)
Definition record_answer (current_q : nat) (selected_option : option string)
    (user_answers : gmap Z pyval) : gmap Z pyval :=
  match selected_option with
  | Some s =>
      if truthy (PStr s)
      then <[Z.of_nat current_q := PStr (answer_key s)]> user_answers
      else user_answers
  | None => user_answers
  end.

(** The grade shown with the results: the [if] chain on
    [results['percentage']]. *)
Definition page_grade (percentage : PyFloat.float) : string :=
  if SFleb (PyFloat.of_Z 90) percentage then "A+"
  else if SFleb (PyFloat.of_Z 80) percentage then "A"
  else if SFleb (PyFloat.of_Z 70) percentage then "B"
  else if SFleb (PyFloat.of_Z 60) percentage then "C"
  else "F".

End TakeQuizPage.

(** ** Reading the results: predicates and sample inputs used by the statements *)

Module Samples.

Import HuggingFaceService QuizParser.

(** Several lines joined by newlines, as a response text. *)
Definition text_of_lines (l : list string) : string :=
  PyStr.join (String PyStr.newline EmptyString) l.

(** The text of [s] before its first newline. *)
Fixpoint first_line (s : string) : string :=
  match s with
  | EmptyString => EmptyString
  | String c s' =>
      if Ascii.eqb c PyStr.newline then EmptyString else String c (first_line s')
  end.

(** The question text of record [q] mentions [topic]. *)
Definition references_topic (topic : string) (q : pydict) : Prop :=
  exists text, dict_get "question" q = Some (PStr text)
               /\ PyStr.contains topic text = true.

(** The correct answer of record [q] is a key of its own options. *)
Definition answer_among_options (q : pydict) : Prop :=
  exists letter opts,
    dict_get "correct_answer" q = Some (PStr letter)
    /\ dict_get "options" q = Some (PDict opts)
    /\ dict_mem letter opts = true.

(** The value under ['options'], when present, is a dictionary. *)
Definition options_well_formed (d : pydict) : Prop :=
  match dict_get "options" d with
  | None | Some (PDict _) => True
  | Some _ => False
  end.

(** A response whose first [Question:] line carries no text. *)
Definition empty_question_response : string :=
  text_of_lines ["Question:"; "Question: What is 2+2?"; "A) 3"; "B) 4";
                 "Correct Answer: B"].

(** A response from which no question can be read. *)
Definition chatter_response : string :=
  text_of_lines ["Photosynthesis"; "is a process used by plants."].

(** [isinstance(v, dict)] *)
Definition is_dict (v : pyval) : bool :=
  match v with PDict _ => true | _ => false end.

(** Structural equality of two floats. *)
Definition float_same (x y : PyFloat.float) : bool :=
  match x, y with
  | S754_zero s, S754_zero t => Bool.eqb s t
  | S754_infinity s, S754_infinity t => Bool.eqb s t
  | S754_nan, S754_nan => true
  | S754_finite s m e, S754_finite t n f =>
      Bool.eqb s t && Pos.eqb m n && Z.eqb e f
  | _, _ => false
  end.

(** The percentage as the claim writes it: [round(100*score/total, 2)]
    when [total > 0], else [0.0]. *)
Definition claimed_percentage (score total : nat) : PyFloat.float :=
  if (0 <? total)%nat then
    match PyFloat.int_truediv (100 * Z.of_nat score) (Z.of_nat total) with
    | Ok q => PyFloat.round2 q
    | Raise _ => PyFloat.zero
    end
  else PyFloat.zero.

(** The percentage as the code evaluates it:
    [round(score / total * 100, 2)] when [total > 0], else [0.0]. *)
Definition evaluated_percentage (score total : nat) : PyFloat.float :=
  if (0 <? total)%nat then
    match PyFloat.int_truediv (Z.of_nat score) (Z.of_nat total) with
    | Ok q => PyFloat.round2 (PyFloat.mul q (PyFloat.of_Z 100))
    | Raise _ => PyFloat.zero
    end
  else PyFloat.zero.

(** Both formulas agree for every score up to [total], for every
    [total] below [bound]. *)
Definition percentages_agree_below (bound : nat) : bool :=
  forallb (fun total =>
             forallb (fun score =>
                        float_same (evaluated_percentage score total)
                                   (claimed_percentage score total))
                     (seq 0 (S total)))
          (seq 0 bound).

(** Case-insensitive equality of two answers. *)
Definition same_letter (a c : string) : bool :=
  String.eqb (PyStr.upper a) (PyStr.upper c).

(** Question [i] is counted by the scoring loop. *)
Definition counted (questions : list pyval) (user_answers : gmap Z pyval)
    (i : nat) : bool :=
  match questions !! i, user_answers !! Z.of_nat i with
  | Some (PDict d), Some (PStr a) =>
      match dict_get "correct_answer" d with
      | Some (PStr c) =>
          negb (String.eqb a "") && negb (String.eqb c "") && same_letter a c
      | _ => false
      end
  | _, _ => false
  end.

(** A question record with the given key. *)
Definition question_with_key (key : string) : pyval :=
  PDict [("question", PStr "Q"); ("options", PDict []);
         ("correct_answer", PStr key); ("explanation", PStr "")].

(** A list of strings where question records are expected. *)
Definition malformed_questions : list pyval := [PStr "What is 2+2?"].

(** 160 questions, of which the first 23 have key [A] and the others [B];
    every question is answered [a]. *)
Definition questions_160 : list pyval :=
  repeat (question_with_key "A") 23 ++ repeat (question_with_key "B") 137.

Definition answers_160 : gmap Z pyval :=
  list_to_map (map (fun i => (Z.of_nat i, PStr "a")) (seq 0 160)).

(** A parsed record without [Correct Answer:] line, and the empty answer. *)
Definition unkeyed_questions : list pyval :=
  map PDict (_parse_quiz_response "Question: What is 2+2?" 5).

Definition empty_answer : gmap Z pyval := {[ 0 := PStr "" ]}.

(** A question record whose key is a string. *)
Definition keyed_question (q : pyval) : Prop :=
  exists d c, q = PDict d /\ dict_get "correct_answer" d = Some (PStr c).

(** A submitted answer: a non-empty string other than the sentinel that
    the breakdown uses for unanswered questions. *)
Definition submitted_answer (v : pyval) : Prop :=
  exists a, v = PStr a /\ a <> EmptyString /\ a <> not_answered.

(** The topic and the percentage the analytics read from a record. *)
Definition topic_of (quiz : history_record) : string :=
  default "Unknown" (h_topic quiz).

Definition percentage_of (quiz : history_record) : PyFloat.float :=
  default PyFloat.zero (h_percentage quiz).

(** The percentages of the records of [topic], in the order of the history. *)
Definition topic_scores (topic : string) (history : list history_record)
  : list PyFloat.float :=
  map percentage_of
      (List.filter (fun quiz => String.eqb (topic_of quiz) topic) history).

(** What the first loop of [analyze_topic_performance] knows about a topic
    after the records [history]. *)
Definition topic_grouped (stats : list (string * topic_acc))
    (history : list history_record) : Prop :=
  forall topic,
    match dict_get topic stats with
    | Some a =>
        acc_scores a = topic_scores topic history
        /\ acc_total_quizzes a = length (acc_scores a)
        /\ (1 <= length (acc_scores a))%nat
    | None => topic_scores topic history = []
    end.

(** A record of the history with all its keys. *)
Definition quiz_record (topic difficulty : string) (percentage : Z)
  : history_record :=
  {| h_topic := Some topic;
     h_difficulty := Some difficulty;
     h_percentage := Some (PyFloat.of_Z percentage) |}.

(** Scenario C: five quizzes on Algebra, in chronological order. *)
Definition algebra_history : list history_record :=
  map (quiz_record "Algebra" "medium") [40; 50; 60; 70; 80].

(** The mean as the spec words it: the sum of the values, added in order
    from 0, divided by their number. *)
Definition arithmetic_mean (l : list PyFloat.float) : PyFloat.float :=
  PyFloat.div (fold_left PyFloat.add l PyFloat.zero)
              (PyFloat.of_Z (Z.of_nat (length l))).

(** Four quizzes on Algebra whose scores are not evenly spaced: the first
    three average 40, the last three 70, all four 55. *)
Definition uneven_history : list history_record :=
  map (quiz_record "Algebra" "medium") [10; 20; 90; 100].

(** The topic that [generate_study_recommendations] calls the weakest:
    the first entry of the topics sorted by average. *)
Definition weakest_topic (topic_performance : list (string * topic_stats))
  : option (string * topic_stats) :=
  hd_error (sorted_by (fun entry => average_score (snd entry)) topic_performance).

(** Rule 1: the weakest topic, when its average is below 70. *)
Definition rule_1 (topic_performance : list (string * topic_stats)) : list string :=
  match weakest_topic topic_performance with
  | Some w =>
      if PyFloat.ltb (average_score (snd w)) (PyFloat.of_Z 70)
      then [weakest_message (fst w) (average_score (snd w))]
      else []
  | None => []
  end.

(** Rule 2: one entry listing, in the order of the mapping, the topics
    whose trend is below -10; no entry when there is none. *)
Definition rule_2 (topic_performance : list (string * topic_stats)) : list string :=
  match map fst
            (List.filter
               (fun entry => PyFloat.ltb (trend (snd entry)) (PyFloat.of_Z (-10)))
               topic_performance) with
  | [] => []
  | declining => [declining_message declining]
  end.

(** Rule 3: one entry per difficulty whose average is below 60, in the
    order of the mapping. *)
Definition rule_3 (difficulty_analysis : list (string * difficulty_stats))
  : list string :=
  map (fun entry => difficulty_message (fst entry) (success_rate (snd entry)))
      (List.filter
         (fun entry => PyFloat.ltb (d_average_score (snd entry)) (PyFloat.of_Z 60))
         difficulty_analysis).

Definition is_nan (x : PyFloat.float) : bool :=
  match x with S754_nan => true | _ => false end.

(** A position of a float in the order of the non-NaN floats: the class
    with its sign first, then exponent and mantissa (negated below zero). *)
Definition float_rank (x : PyFloat.float) : Z * Z * Z :=
  match x with
  | S754_infinity true => (-2, 0, 0)
  | S754_finite true m e => (-1, - e, Zneg m)
  | S754_zero _ => (0, 0, 0)
  | S754_nan => (0, 0, 0)
  | S754_finite false m e => (1, e, Zpos m)
  | S754_infinity false => (2, 0, 0)
  end.

Definition rank_lt (a b : Z * Z * Z) : Prop :=
  let '(a1, a2, a3) := a in
  let '(b1, b2, b3) := b in
  a1 < b1 \/ (a1 = b1 /\ (a2 < b2 \/ (a2 = b2 /\ a3 < b3))).

(** Scenario E: one topic averaging 55 and one difficulty averaging 50. *)
Definition scenario_topics : list (string * topic_stats) :=
  analyze_topic_performance [quiz_record "Algebra" "easy" 55].

Definition scenario_difficulties : list (string * difficulty_stats) :=
  match get_difficulty_analysis [quiz_record "Algebra" "easy" 50] with
  | Ok stats => stats
  | Raise _ => []
  end.

(** A topic averaging 55 whose last three scores lie 40 below its first
    three. *)
Definition declining_scenario_topics : list (string * topic_stats) :=
  analyze_topic_performance
    (map (quiz_record "Algebra" "easy") [75; 75; 75; 35; 35; 35]).

(** An option letter: a string of one character. *)
Definition option_letter (v : pyval) : Prop :=
  exists a, v = PStr a /\ String.length a = 1%nat.

(** A line the scan of [_parse_quiz_response] reacts to. *)
Definition recognised (raw : string) : bool :=
  let line := PyStr.strip raw in
  PyStr.startswith "Question:" line || is_option_line line
  || PyStr.startswith "Correct Answer:" line
  || PyStr.startswith "Explanation:" line.

Definition option_letters : list string := ["A"; "B"; "C"; "D"].

(** The options of a record, when it has any: a dictionary from distinct
    letters among A to D to strings. *)
Definition options_lettered (d : pydict) : Prop :=
  match dict_get "options" d with
  | None => True
  | Some (PDict opts) =>
      List.NoDup (dict_keys opts)
      /\ Forall (fun k => In k option_letters) (dict_keys opts)
      /\ Forall (fun entry => exists text, snd entry = PStr text) opts
  | Some _ => False
  end.

(** A record has its [question] and its [options] together or not at
    all. *)
Definition keys_together (d : pydict) : Prop :=
  dict_get "options" d = None <-> dict_get "question" d = None.

(** A response with an answer line before its first question line. *)
Definition stray_answer_response : string :=
  text_of_lines ["Correct Answer: B"; "Question: What is 2+2?"; "A) 3"; "B) 4"].

(** No line of the response starts, once stripped, with [Question:]. *)
Definition no_question_line (response : string) : Prop :=
  Forall (fun raw => PyStr.startswith "Question:" (PyStr.strip raw) = false)
         (PyStr.split_lines response).

(** The place of a letter grade on the scale, from F up to A+. *)
Definition grade_rank (grade : string) : nat :=
  if String.eqb grade "A+" then 11
  else if String.eqb grade "A" then 10
  else if String.eqb grade "A-" then 9
  else if String.eqb grade "B+" then 8
  else if String.eqb grade "B" then 7
  else if String.eqb grade "B-" then 6
  else if String.eqb grade "C+" then 5
  else if String.eqb grade "C" then 4
  else if String.eqb grade "C-" then 3
  else if String.eqb grade "D+" then 2
  else if String.eqb grade "D" then 1
  else 0.

(** The first character of a grade: its letter without the sign. *)
Definition grade_letter (grade : string) : string := PyStr.first_char grade.

(** The difficulty the analytics read from a record. *)
Definition difficulty_of (quiz : history_record) : string :=
  default "medium" (h_difficulty quiz).

(** The percentages of the records of [difficulty], in history order. *)
Definition difficulty_scores (difficulty : string) (history : list history_record)
  : list PyFloat.float :=
  map percentage_of
      (List.filter (fun quiz => String.eqb (difficulty_of quiz) difficulty) history).

(** The entry of a topic as a function of its scores alone. *)
Definition topic_acc_of (scores : list PyFloat.float) : topic_acc :=
  {| acc_total_quizzes := length scores;
     acc_total_score := PyFloat.sum scores;
     acc_best_score := fold_left PyFloat.max scores PyFloat.zero;
     acc_worst_score := fold_left PyFloat.min scores (PyFloat.of_Z 100);
     acc_scores := scores |}.

Definition difficulty_acc_of (scores : list PyFloat.float) : difficulty_acc :=
  {| dacc_total_quizzes := length scores;
     dacc_total_score := PyFloat.sum scores;
     dacc_scores := scores |}.

(** The keys of a list in the order of their first occurrence. *)
Definition first_occurrences (keys : list string) : list string :=
  fold_left (fun seen k => if existsb (String.eqb k) seen then seen else seen ++ [k])
            keys [].

(** The number of quizzes counted over all entries of a mapping. *)
Definition quizzes_counted (stats : list (string * topic_stats)) : nat :=
  list_sum (map (fun entry => total_quizzes (snd entry)) stats).

(** A string without newline. *)
Definition single_line (s : string) : Prop :=
  PyStr.contains (String PyStr.newline EmptyString) s = false.

(** A string without leading or trailing white space. *)
Definition trimmed (s : string) : Prop :=
  PyStr.lstrip s = s /\ PyStr.rstrip s = s.

(** A question as the prompt of [_create_quiz_prompt] asks for it: its
    text, the four option texts, the answer and the explanation. *)
Record quiz_item : Type := {
  item_question : string;
  item_a : string;
  item_b : string;
  item_c : string;
  item_d : string;
  item_answer : string;
  item_explanation : string
}.

(** The seven lines of an item in the format of the prompt. *)
Definition item_lines (it : quiz_item) : list string :=
  [ "Question: " +:+ item_question it;
    "A) " +:+ item_a it;
    "B) " +:+ item_b it;
    "C) " +:+ item_c it;
    "D) " +:+ item_d it;
    "Correct Answer: " +:+ item_answer it;
    "Explanation: " +:+ item_explanation it ].

(** The record that stands for an item. *)
Definition item_record (it : quiz_item) : pydict :=
  [ ("question", PStr (item_question it));
    ("options", PDict [ ("A", PStr (item_a it)); ("B", PStr (item_b it));
                        ("C", PStr (item_c it)); ("D", PStr (item_d it)) ]);
    ("correct_answer", PStr (item_answer it));
    ("explanation", PStr (item_explanation it)) ].

(** A text that fits on a line after a marker: one line, no white space
    around it. *)
Definition line_text (s : string) : Prop := single_line s /\ trimmed s.

(** The fields of an item are line texts, the question is not empty, and
    the three fields read with [replace] do not contain their own marker. *)
Definition item_ok (it : quiz_item) : Prop :=
  item_question it <> EmptyString
  /\ line_text (item_question it)
  /\ PyStr.contains "Question:" (item_question it) = false
  /\ line_text (item_a it) /\ line_text (item_b it)
  /\ line_text (item_c it) /\ line_text (item_d it)
  /\ line_text (item_answer it)
  /\ PyStr.contains "Correct Answer:" (item_answer it) = false
  /\ line_text (item_explanation it)
  /\ PyStr.contains "Explanation:" (item_explanation it) = false.

(** A response made of the lines of the items. *)
Definition response_of_items (items : list quiz_item) : string :=
  text_of_lines (concat (map item_lines items)).

(** The answers that the quiz page can have stored for the questions:
    every key is the index of a question, and the answer under it is the
    key read back from the label of one of the options of that question. *)
Definition page_answers (format : pyval -> string) (questions : list pydict)
    (user_answers : gmap Z pyval) : Prop :=
  forall (k : Z) (v : pyval),
    user_answers !! k = Some v ->
    exists (i : nat) q opts selected,
      k = Z.of_nat i
      /\ questions !! i = Some q
      /\ dict_get "options" q = Some (PDict opts)
      /\ In selected (TakeQuizPage.option_list format opts)
      /\ v = PStr (TakeQuizPage.answer_key selected).

(** An item in the format of the prompt. *)
Definition sample_item : quiz_item :=
  {| item_question := "What is 2+2?";
     item_a := "3"; item_b := "4"; item_c := "5"; item_d := "22";
     item_answer := "B";
     item_explanation := "Two and two make four." |}.

(** Three keyed questions and their keys as answers, in mixed case. *)
Definition three_questions : list pyval :=
  [question_with_key "B"; question_with_key "A"; question_with_key "C"].

Definition three_right_answers : gmap Z pyval :=
  {[ 0 := PStr "b"; 1 := PStr "A"; 2 := PStr "c" ]}.

(** The text of a string value, as an f-string formats it. *)
Definition format_text (v : pyval) : string :=
  match v with PStr s => s | _ => EmptyString end.

(** The lines of the prompt of [_create_quiz_prompt]; the prompt ends
    with a newline after the last of them. *)
Definition prompt_lines (topic difficulty : string) (num_questions : Z)
  : list string :=
  [ "Generate " +:+ PyStr.of_Z num_questions
      +:+ " multiple choice questions about " +:+ topic +:+ " at "
      +:+ difficulty +:+ " difficulty level.";
    "";
    "Format each question exactly as follows:";
    "Question: [Question text]";
    "A) [Option A]";
    "B) [Option B]  ";
    "C) [Option C]";
    "D) [Option D]";
    "Correct Answer: [A, B, C, or D]";
    "Explanation: [Brief explanation of the correct answer]";
    "";
    "Topic: " +:+ topic;
    "Difficulty: " +:+ difficulty;
    "Number of questions: " +:+ PyStr.of_Z num_questions;
    "";
    "Questions:" ].

(** The record that the format template of the prompt reads as. *)
Definition template_record : pydict :=
  [ ("question", PStr "[Question text]");
    ("options", PDict [ ("A", PStr "[Option A]"); ("B", PStr "[Option B]");
                        ("C", PStr "[Option C]"); ("D", PStr "[Option D]") ]);
    ("correct_answer", PStr "[A, B, C, or D]");
    ("explanation", PStr "[Brief explanation of the correct answer]") ].

(** The first record of the scan, closed or still open, has the question
    text [text]. *)
Definition first_question_is (text : string) (st : scan_state) : Prop :=
  match questions st with
  | q :: _ => dict_get "question" q = Some (PStr text)
  | [] => dict_get "question" (current_question st) = Some (PStr text)
  end.

(** A text-generation call that returns the prompt followed by one more
    question line. *)
Definition echo_api (prompt : string) : option string :=
  Some (prompt +:+ "Question: What is 2+2?").

(** Three quizzes on one topic with falling scores. *)
Definition falling_history : list history_record :=
  map (quiz_record "Algebra" "easy") [90; 50; 10].

End Samples.

(** * Properties *)

Import HuggingFaceService QuizParser Samples.

(** ** Strings, slices and dictionaries *)

Lemma prefix_app (p s : string) : String.prefix p (p +:+ s) = true.
Proof.
  induction p as [|c p IH]; simpl.
  - now destruct s.
  - destruct (ascii_dec c c); [exact IH | congruence].
Qed.

Lemma contains_prefix (sub s : string) :
  String.prefix sub s = true -> PyStr.contains sub s = true.
Proof. intros H. destruct s; cbn [PyStr.contains]; now rewrite H. Qed.

Lemma contains_app (sub a b : string) :
  PyStr.contains sub (a +:+ sub +:+ b) = true.
Proof.
  induction a as [|c a IH].
  - apply contains_prefix. exact (prefix_app sub b).
  - change (PyStr.contains sub (String c (a +:+ sub +:+ b)) = true).
    cbn [PyStr.contains]. rewrite IH. apply orb_true_r.
Qed.

Lemma contains_app_l (sub b : string) : PyStr.contains sub (sub +:+ b) = true.
Proof. exact (contains_app sub EmptyString b). Qed.

Lemma py_take_nonneg {A : Type} (n : Z) (l : list A) :
  0 <= n -> py_take n l = firstn (Z.to_nat n) l.
Proof.
  intros Hn. unfold py_take.
  destruct (0 <=? n) eqn:E; [reflexivity | apply Z.leb_gt in E; lia].
Qed.

Lemma py_take_length {A : Type} (n : Z) (l : list A) :
  0 <= n -> Z.of_nat (length (py_take n l)) = Z.min n (Z.of_nat (length l)).
Proof.
  intros Hn. rewrite py_take_nonneg by exact Hn.
  rewrite length_firstn. lia.
Qed.

Lemma dict_get_set_eq {V : Type} (k : string) (v : V) (d : list (string * V)) :
  dict_get k (dict_set k v d) = Some v.
Proof.
  induction d as [|[k' v'] d IH]; simpl.
  - now rewrite String.eqb_refl.
  - destruct (String.eqb k k') eqn:E; simpl.
    + now rewrite String.eqb_refl.
    + now rewrite E.
Qed.

Lemma dict_get_set_ne {V : Type} (k k' : string) (v : V) (d : list (string * V)) :
  k <> k' -> dict_get k (dict_set k' v d) = dict_get k d.
Proof.
  intros Hne. induction d as [|[k0 v0] d IH]; simpl.
  - destruct (String.eqb k k') eqn:E; [apply String.eqb_eq in E; congruence | reflexivity].
  - destruct (String.eqb k' k0) eqn:E'; simpl.
    + apply String.eqb_eq in E'. subst k0.
      destruct (String.eqb k k') eqn:E; [apply String.eqb_eq in E; congruence | reflexivity].
    + destruct (String.eqb k k0); [reflexivity | exact IH].
Qed.

Lemma hd_split_lines (s : string) :
  hd EmptyString (PyStr.split_lines s) = first_line s.
Proof.
  induction s as [|c s IH]; simpl; [reflexivity|].
  destruct (Ascii.eqb c PyStr.newline); [reflexivity|].
  destruct (PyStr.split_lines s) as [|l ls]; simpl in *; now rewrite <- IH.
Qed.
(** ** The response parser *)

(** A [Question:] line flushes the current record whenever the dictionary is
    non-empty; the [question] field is not looked at. *)
Lemma scan_line_question_flush (st : scan_state) (raw : string) :
  PyStr.startswith "Question:" (PyStr.strip raw) = true ->
  questions (scan_line st raw) =
    match current_question st with
    | [] => questions st
    | cur => questions st ++ [cur]
    end.
Proof.
  intros H. unfold scan_line. rewrite H. simpl.
  now destruct (current_question st).
Qed.

(** The record under construction keeps a dictionary under ['options']. *)
Lemma scan_line_options (st : scan_state) (raw : string) :
  options_well_formed (current_question st) ->
  options_well_formed (current_question (scan_line st raw)).
Proof.
  unfold options_well_formed, scan_line. intros H.
  destruct (PyStr.startswith "Question:" (PyStr.strip raw)); [exact I|].
  destruct (is_option_line (PyStr.strip raw)).
  - destruct (dict_get "options" (current_question st)) as [[| | |opts]|] eqn:E;
      cbn [current_question]; rewrite ?E; try exact I; try contradiction.
    now rewrite dict_get_set_eq.
  - destruct (PyStr.startswith "Correct Answer:" (PyStr.strip raw)).
    { cbn [current_question]. now rewrite dict_get_set_ne by discriminate. }
    destruct (PyStr.startswith "Explanation:" (PyStr.strip raw)).
    { cbn [current_question]. now rewrite dict_get_set_ne by discriminate. }
    exact H.
Qed.

Lemma options_is_dict (lines : list string) :
  options_well_formed (current_question (scan_lines lines)).
Proof.
  unfold scan_lines.
  assert (G : forall st, options_well_formed (current_question st) ->
            options_well_formed (current_question (fold_left scan_line lines st))).
  { induction lines as [|l lines IH]; intros st H; simpl; [exact H|].
    apply IH, scan_line_options, H. }
  apply G. exact I.
Qed.

(** The flush after the scan requires a non-empty [question] field. *)
Lemma flush_last_guard (st : scan_state) :
  flush_last st =
    if has_question (current_question st)
    then questions st ++ [current_question st] else questions st.
Proof.
  unfold flush_last. destruct (current_question st) as [|e d]; [reflexivity|].
  reflexivity.
Qed.

(** C2 (the claim fails on the code).  On the response
    [Question:] / [Question: What is 2+2?] / ... the second [Question:] line
    flushes the record of the first one although its [question] field is
    empty: the output holds two records and the first has no question text.
    The flush inside the scan tests only that the dictionary is non-empty
    (lemma [scan_line_question_flush]), whereas the flush after the scan
    also tests the [question] field (lemma [flush_last_guard]). *)
Theorem C2_scan_flushes_record_with_empty_question :
  _parse_quiz_response empty_question_response 5 =
    [ [ ("question", PStr ""); ("options", PDict []);
        ("correct_answer", PStr ""); ("explanation", PStr "") ];
      [ ("question", PStr "What is 2+2?");
        ("options", PDict [("A", PStr "3"); ("B", PStr "4")]);
        ("correct_answer", PStr "B"); ("explanation", PStr "") ] ]
  /\ has_question (hd [] (_parse_quiz_response empty_question_response 5)) = false.
Proof. split; vm_compute; reflexivity. Qed.

(** C10.  When no question can be read from the response, the parser
    returns the fallback quiz on the first line of the response (on
    "General Knowledge" for the empty response); the result of
    [generate_quiz_questions] is then the fallback quiz on that first line,
    whatever topic was requested. *)
Theorem C10_parse_failure_falls_back_on_first_line (response : string) (n : Z) :
  parsed_questions response = [] ->
  _parse_quiz_response response n =
    _generate_fallback_quiz
      (match response with
       | EmptyString => "General Knowledge"
       | _ => first_line response
       end) n
  /\ (forall (api : string -> option string) (topic difficulty : string),
        api (_create_quiz_prompt topic difficulty n) = Some response ->
        response <> EmptyString ->
        generate_quiz_questions api topic difficulty n =
          _generate_fallback_quiz (first_line response) n).
Proof.
  intros Hnone.
  assert (P : _parse_quiz_response response n =
              _generate_fallback_quiz (fallback_topic response) n).
  { unfold _parse_quiz_response. now rewrite Hnone. }
  split.
  - rewrite P. unfold fallback_topic.
    destruct response as [|c r]; [reflexivity|].
    cbn [truthy String.eqb negb]. now rewrite hd_split_lines.
  - intros api topic difficulty Hapi Hne.
    unfold generate_quiz_questions. rewrite Hapi.
    destruct response as [|c r]; [congruence|].
    cbn [truthy String.eqb negb]. rewrite P. unfold fallback_topic.
    cbn [truthy String.eqb negb]. now rewrite hd_split_lines.
Qed.

Lemma C10_witness :
  parsed_questions chatter_response = []
  /\ _parse_quiz_response chatter_response 3 =
       _generate_fallback_quiz "Photosynthesis" 3
  /\ generate_quiz_questions (fun _ => Some chatter_response) "Algebra" "easy" 3 =
       _generate_fallback_quiz "Photosynthesis" 3.
Proof.
  pose proof (C10_parse_failure_falls_back_on_first_line chatter_response 3
                ltac:(vm_compute; reflexivity)) as [H1 H2].
  split; [vm_compute; reflexivity|]. split.
  - exact H1.
  - apply (H2 (fun _ => Some chatter_response) "Algebra" "easy");
      [reflexivity | discriminate].
Defined.

(** ** The fallback quiz and the generation entry point *)

Lemma fallback_questions_length (topic : string) :
  length (fallback_questions topic) = 5%nat.
Proof. reflexivity. Qed.

Lemma fallback_questions_reference_topic (topic : string) :
  Forall (references_topic topic) (fallback_questions topic).
Proof.
  unfold fallback_questions, references_topic.
  repeat constructor; eexists; (split; [reflexivity|]).
  - apply (contains_app topic "What is an important concept in " "?").
  - apply (contains_app topic "Which of the following best describes " "?").
  - apply (contains_app topic "What is the primary goal when studying " "?").
  - apply (contains_app topic "How can knowledge of "
             " be applied in real-world scenarios?").
  - apply (contains_app topic "What approach is most effective for learning " "?").
Qed.

Lemma fallback_questions_answers (topic : string) :
  Forall answer_among_options (fallback_questions topic).
Proof.
  unfold fallback_questions, answer_among_options.
  repeat constructor; do 2 eexists; repeat split; reflexivity.
Qed.

Lemma _generate_fallback_quiz_spec (topic : string) (n : Z) :
  0 <= n ->
  _generate_fallback_quiz topic n =
    firstn (Z.to_nat (Z.min n 5)) (fallback_questions topic).
Proof.
  intros Hn. unfold _generate_fallback_quiz. rewrite py_take_nonneg by exact Hn.
  destruct (Z.le_gt_cases n 5) as [Hle|Hgt].
  - now rewrite Z.min_l by exact Hle.
  - rewrite Z.min_r by lia.
    rewrite firstn_all2 by (rewrite fallback_questions_length; lia).
    reflexivity.
Qed.

Lemma _parse_quiz_response_length (response : string) (n : Z) :
  0 <= n -> Z.of_nat (length (_parse_quiz_response response n)) <= n.
Proof.
  intros Hn. unfold _parse_quiz_response, _generate_fallback_quiz.
  destruct (length (parsed_questions response) =? 0)%nat;
    rewrite py_take_length by exact Hn; lia.
Qed.

(** C7.  For a count [n >= 0], [generate_quiz_questions] returns at most
    [n] questions; when the text-generation request fails (or yields no
    text) it returns the first [min(n, 5)] fallback questions, in their
    fixed order, each naming the topic in its question text and each with
    its correct answer among the keys of its own options. *)
Theorem C7_generate_length_and_fallback
    (api : string -> option string) (topic difficulty : string) (n : Z) :
  0 <= n ->
  let qs := generate_quiz_questions api topic difficulty n in
  Z.of_nat (length qs) <= n
  /\ (api (_create_quiz_prompt topic difficulty n) = None
      \/ api (_create_quiz_prompt topic difficulty n) = Some EmptyString ->
      qs = firstn (Z.to_nat (Z.min n 5)) (fallback_questions topic)
      /\ Z.of_nat (length qs) = Z.min n 5
      /\ Forall (fun q => references_topic topic q /\ answer_among_options q) qs).
Proof.
  intros Hn qs. split.
  - subst qs. unfold generate_quiz_questions.
    destruct (api _) as [response|].
    + destruct (truthy (PStr response)).
      * now apply _parse_quiz_response_length.
      * unfold _generate_fallback_quiz. rewrite py_take_length by exact Hn. lia.
    + unfold _generate_fallback_quiz. rewrite py_take_length by exact Hn. lia.
  - intros Hdown.
    assert (E : qs = firstn (Z.to_nat (Z.min n 5)) (fallback_questions topic)).
    { subst qs. unfold generate_quiz_questions.
      destruct Hdown as [-> | ->]; cbn [truthy String.eqb negb];
        now apply _generate_fallback_quiz_spec. }
    split; [exact E|]. rewrite E. split.
    + rewrite length_firstn, fallback_questions_length. lia.
    + apply Forall_take, Forall_forall. intros q Hq. split.
      * pose proof (fallback_questions_reference_topic topic) as F.
        rewrite Forall_forall in F. now apply F.
      * pose proof (fallback_questions_answers topic) as F.
        rewrite Forall_forall in F. now apply F.
Qed.

Lemma C7_witness :
  0 <= 3
  /\ Z.of_nat (length (generate_quiz_questions (fun _ => None) "Algebra" "easy" 3)) <= 3
  /\ generate_quiz_questions (fun _ => None) "Algebra" "easy" 3 =
       firstn 3 (fallback_questions "Algebra").
Proof.
  pose proof (C7_generate_length_and_fallback (fun _ => None) "Algebra" "easy" 3
                ltac:(lia)) as [H1 H2].
  split; [lia|]. split; [exact H1|].
  exact (proj1 (H2 (or_introl eq_refl))).
Defined.

(** A negative count is outside the contract of the service; the slice
    [[:n]] then drops the last [-n] questions instead. *)
Lemma _generate_fallback_quiz_negative_count :
  length (_generate_fallback_quiz "Algebra" (-1)) = 4%nat.
Proof. reflexivity. Qed.

(** ** The grader *)

Lemma float_same_eq (x y : PyFloat.float) : float_same x y = true -> x = y.
Proof.
  destruct x as [s|s| |s m e], y as [t|t| |t n f]; simpl; try discriminate.
  - intros H. apply Bool.eqb_prop in H. now subst.
  - intros H. apply Bool.eqb_prop in H. now subst.
  - reflexivity.
  - intros H. apply andb_prop in H as [H He]. apply andb_prop in H as [Hs Hm].
    apply Bool.eqb_prop in Hs. apply Pos.eqb_eq in Hm. apply Z.eqb_eq in He.
    now subst.
Qed.

Lemma score_loop_bounds (questions : list pyval) (user_answers : gmap Z pyval) :
  forall (i c c' : nat),
    score_loop i questions user_answers c = Ok c' ->
    (c <= c' <= c + length questions)%nat.
Proof.
  induction questions as [|q rest IH]; intros i c c' H; simpl in H.
  - injection H as <-. simpl. lia.
  - destruct (py_get q "correct_answer" PNone) as [ca|]; simpl in H; [|discriminate].
    destruct (answer_matches _ ca) as [hit|]; simpl in H; [|discriminate].
    apply IH in H. simpl. destruct hit; lia.
Qed.

(** A non-dictionary among the questions makes the scoring loop raise. *)
Lemma score_loop_not_dict (questions : list pyval) (user_answers : gmap Z pyval) :
  Exists (fun q => is_dict q = false) questions ->
  forall (i c : nat), raised (score_loop i questions user_answers c) = true.
Proof.
  induction 1 as [q rest Hq | q rest _ IH]; intros i c; simpl.
  - destruct q; try discriminate; reflexivity.
  - destruct (py_get q "correct_answer" PNone) as [ca|]; simpl; [|reflexivity].
    destruct (answer_matches _ ca) as [hit|]; simpl; [|reflexivity].
    apply IH.
Qed.

Lemma int_truediv_ok (a b : nat) :
  (0 < b)%nat -> exists q, PyFloat.int_truediv (Z.of_nat a) (Z.of_nat b) = Ok q.
Proof.
  intros Hb. destruct b as [|b]; [lia|].
  destruct a as [|a]; simpl; eauto.
Qed.

(** The outcome of the [try] block, with the clock reading set apart. *)
Lemma grade_inv (now : PyFloat.float) (questions : list pyval)
    (user_answers : gmap Z pyval) (start_time : PyFloat.float) :
  match grade now questions user_answers start_time with
  | Ok r =>
      score_loop 0 questions user_answers 0 = Ok (score r)
      /\ total_questions r = length questions
      /\ percentage r = evaluated_percentage (score r) (length questions)
      /\ time_taken r = PyFloat.round2 (PyFloat.sub now start_time)
      /\ _get_questions_breakdown questions user_answers = Ok (questions_breakdown r)
  | Raise _ =>
      raised (score_loop 0 questions user_answers 0) = true
      \/ raised (_get_questions_breakdown questions user_answers) = true
  end.
Proof.
  unfold grade, evaluated_percentage.
  destruct (score_loop 0 questions user_answers 0) as [c|] eqn:Hs; simpl; [|now left].
  destruct (0 <? length questions)%nat eqn:Hlen; simpl.
  - apply Nat.ltb_lt in Hlen.
    destruct (int_truediv_ok c (length questions) Hlen) as [q Hq]. rewrite Hq. simpl.
    destruct (_get_questions_breakdown questions user_answers); simpl; [|now right].
    rewrite ?Hq. repeat split; reflexivity.
  - destruct (_get_questions_breakdown questions user_answers); simpl; [|now right].
    repeat split; reflexivity.
Qed.

Lemma grade_raised_clock (now now' : PyFloat.float) (questions : list pyval)
    (user_answers : gmap Z pyval) (start_time : PyFloat.float) :
  raised (grade now questions user_answers start_time)
  = raised (grade now' questions user_answers start_time).
Proof.
  unfold grade.
  destruct (score_loop 0 questions user_answers 0) as [c|]; simpl; [|reflexivity].
  destruct (if (0 <? length questions)%nat then _ else _) as [p|]; simpl; [|reflexivity].
  now destruct (_get_questions_breakdown questions user_answers).
Qed.

Lemma upper_empty (s : string) : PyStr.upper s = EmptyString -> s = EmptyString.
Proof. destruct s; [reflexivity | discriminate]. Qed.

(** Whenever the condition of the scoring loop evaluates, it is true exactly
    for two non-empty strings that are equal up to case. *)
Lemma answer_matches_ok (ua ca : pyval) (b : bool) :
  answer_matches ua ca = Ok b ->
  b = match ua, ca with
      | PStr a, PStr c =>
          negb (String.eqb a "") && negb (String.eqb c "") && same_letter a c
      | _, _ => false
      end.
Proof.
  unfold answer_matches, same_letter.
  destruct ua as [|a|z|d]; simpl.
  - now intros [= <-].
  - destruct (String.eqb a ""); simpl; [now intros [= <-]; destruct ca|].
    destruct ca as [|c|z|d]; simpl; try (now intros [= <-]).
    + destruct (String.eqb c ""); simpl; now intros [= <-].
    + destruct (Z.eqb z 0); simpl; [now intros [= <-] | discriminate].
    + destruct d; simpl; [now intros [= <-] | discriminate].
  - destruct (Z.eqb z 0); simpl; [now intros [= <-]|].
    destruct (truthy ca); [discriminate | now intros [= <-]].
  - destruct d; simpl; [now intros [= <-]|].
    destruct (truthy ca); [discriminate | now intros [= <-]].
Qed.

Lemma counted_middle (pre rest : list pyval) (q : pyval)
    (user_answers : gmap Z pyval) :
  counted (pre ++ q :: rest) user_answers (length pre) =
    match q, user_answers !! Z.of_nat (length pre) with
    | PDict d, Some (PStr a) =>
        match dict_get "correct_answer" d with
        | Some (PStr c) =>
            negb (String.eqb a "") && negb (String.eqb c "") && same_letter a c
        | _ => false
        end
    | _, _ => false
    end.
Proof.
  unfold counted. rewrite list_lookup_middle by reflexivity.
  destruct q; reflexivity.
Qed.

(** The score is the number of counted questions. *)
Lemma score_loop_counts (user_answers : gmap Z pyval) (rest : list pyval) :
  forall (pre : list pyval) (c c' : nat),
    score_loop (length pre) rest user_answers c = Ok c' ->
    c' = (c + length (List.filter (counted (pre ++ rest) user_answers)
                        (seq (length pre) (length rest))))%nat.
Proof.
  induction rest as [|q rest IH]; intros pre c c' H; simpl in H.
  - injection H as <-. simpl. lia.
  - destruct (py_get q "correct_answer" PNone) as [ca|] eqn:Hget; simpl in H;
      [|discriminate].
    destruct (answer_matches _ ca) as [hit|] eqn:Hm; simpl in H; [|discriminate].
    apply answer_matches_ok in Hm.
    specialize (IH (pre ++ [q]) _ _ ltac:(rewrite length_app, Nat.add_1_r; exact H)).
    rewrite <- app_assoc in IH. simpl in IH.
    rewrite length_app, Nat.add_1_r in IH.
    cbn [length seq List.filter]. rewrite counted_middle.
    assert (E : hit = match q, user_answers !! Z.of_nat (length pre) with
                      | PDict d, Some (PStr a) =>
                          match dict_get "correct_answer" d with
                          | Some (PStr c0) =>
                              negb (String.eqb a "") && negb (String.eqb c0 "")
                              && same_letter a c0
                          | _ => false
                          end
                      | _, _ => false
                      end).
    { rewrite Hm. destruct q as [| | |d]; simpl in Hget; try discriminate.
      injection Hget as <-.
      destruct (user_answers !! Z.of_nat (length pre)) as [[|a| |]|]; simpl;
        try reflexivity.
      destruct (dict_get "correct_answer" d) as [[|c0| |]|]; reflexivity. }
    rewrite <- E. rewrite IH. destruct hit; simpl; lia.
Qed.

(** The breakdown has one entry per question, built from that question. *)
Lemma breakdown_loop_lookup (user_answers : gmap Z pyval) (rest : list pyval) :
  forall (j : nat) (l : list breakdown_entry),
    breakdown_loop j rest user_answers = Ok l ->
    length l = length rest
    /\ forall (i : nat) (q : pyval),
         rest !! i = Some q ->
         exists e, l !! i = Some e
                   /\ breakdown_entry_at (j + i) q user_answers = Ok e.
Proof.
  induction rest as [|q rest IH]; intros j l H; simpl in H.
  - injection H as <-. split; [reflexivity|]. intros i q0 Hq. discriminate.
  - destruct (breakdown_entry_at j q user_answers) as [e|] eqn:He; simpl in H;
      [|discriminate].
    destruct (breakdown_loop (S j) rest user_answers) as [es|] eqn:Hes; simpl in H;
      [|discriminate].
    injection H as <-. destruct (IH _ _ Hes) as [Hlen Hall].
    split; [simpl; now rewrite Hlen|].
    intros [|i] q0 Hq; simpl in Hq.
    + injection Hq as <-. exists e. rewrite Nat.add_0_r. now split.
    + destruct (Hall i q0 Hq) as (e0 & H1 & H2). exists e0. split; [exact H1|].
      now rewrite Nat.add_succ_r.
Qed.

(** Well-formed questions and string answers never make the grader raise. *)
Lemma score_loop_total (user_answers : gmap Z pyval) (questions : list pyval) :
  Forall keyed_question questions ->
  (forall i v, user_answers !! i = Some v -> exists a, v = PStr a) ->
  forall (j c : nat), exists c', score_loop j questions user_answers c = Ok c'.
Proof.
  intros Hq Ha. induction Hq as [|q rest (d & k & -> & Hk) _ IH]; intros j c; simpl.
  - eauto.
  - rewrite Hk. simpl.
    destruct (user_answers !! Z.of_nat j) as [v|] eqn:Hv; simpl.
    + destruct (Ha _ _ Hv) as [a ->]. unfold answer_matches. simpl.
      destruct (negb (String.eqb a "")); [destruct (negb (String.eqb k ""))|];
        simpl; apply IH.
    + apply IH.
Qed.

Lemma breakdown_loop_total (user_answers : gmap Z pyval) (questions : list pyval) :
  Forall keyed_question questions ->
  (forall i v, user_answers !! i = Some v -> exists a, v = PStr a) ->
  forall (j : nat), exists l, breakdown_loop j questions user_answers = Ok l.
Proof.
  intros Hq Ha. induction Hq as [|q rest (d & k & -> & Hk) _ IH]; intros j; simpl.
  - eauto.
  - unfold breakdown_entry_at. simpl. rewrite Hk. simpl.
    assert (exists b, breakdown_is_correct
                        (default (PStr not_answered) (user_answers !! Z.of_nat j))
                        (PStr k) = Ok b) as [b Hb].
    { destruct (user_answers !! Z.of_nat j) as [v|] eqn:Hv; simpl.
      - destruct (Ha _ _ Hv) as [a ->]. unfold breakdown_is_correct. simpl.
        destruct (negb (String.eqb a not_answered)); eauto.
      - eauto. }
    rewrite Hb. simpl. destruct (IH (S j)) as [l ->]. simpl. eauto.
Qed.

Lemma percentages_agree_below_160 : percentages_agree_below 160 = true.
Proof. vm_compute. reflexivity. Qed.

Lemma percentages_agree_below_sound (bound score total : nat) :
  percentages_agree_below bound = true ->
  (score <= total)%nat -> (total < bound)%nat ->
  evaluated_percentage score total = claimed_percentage score total.
Proof.
  intros H Hs Ht. apply float_same_eq.
  unfold percentages_agree_below in H.
  rewrite forallb_forall in H. specialize (H total).
  rewrite forallb_forall in H. apply H; apply in_seq; lia.
Qed.

Lemma evaluated_percentage_claimed (score total : nat) :
  (score <= total)%nat -> (total < 160)%nat ->
  evaluated_percentage score total = claimed_percentage score total.
Proof.
  apply percentages_agree_below_sound, percentages_agree_below_160.
Qed.

Lemma evaluated_percentage_zero (total : nat) :
  evaluated_percentage 0 total = PyFloat.zero.
Proof. destruct total; reflexivity. Qed.

Lemma claimed_percentage_zero (total : nat) :
  claimed_percentage 0 total = PyFloat.zero.
Proof. destruct total; reflexivity. Qed.

Lemma default_results_total (questions : list pyval) :
  total_questions (default_results questions) = length questions.
Proof. now destruct questions. Qed.

(** C1 (the claim fails on the code): a list of strings is malformed, the
    grader falls into its error branch, and the result still reports one
    question, not zero. *)
Lemma C1_counterexample :
  Exists (fun q => is_dict q = false) malformed_questions
  /\ raised (grade (PyFloat.of_Z 10) malformed_questions ∅ (PyFloat.of_Z 3)) = true
  /\ total_questions
       (calculate_quiz_results (PyFloat.of_Z 10) malformed_questions ∅ (PyFloat.of_Z 3))
     = 1%nat.
Proof. split; [left; reflexivity | split; reflexivity]. Qed.

(** On a list the call always returns, and it returns the result of
    [calculate_quiz_results]. *)
Lemma calculate_quiz_results_call_list (now : PyFloat.float)
    (questions : list pyval) (user_answers : gmap Z pyval)
    (start_time : PyFloat.float) :
  calculate_quiz_results_call now (QuestionList questions) user_answers start_time
  = Ok (calculate_quiz_results now questions user_answers start_time).
Proof.
  unfold calculate_quiz_results_call, calculate_quiz_results, grade_arg.
  destruct (grade now questions user_answers start_time); [reflexivity|].
  now destruct questions.
Qed.

(** The handler is not safe on every argument: a non-zero integer has no
    length, in the [try] block or in the handler, and the second
    [TypeError] reaches the caller. *)
Lemma calculate_quiz_results_call_unsized :
  calculate_quiz_results_call (PyFloat.of_Z 10) (NoList (PInt 5)) ∅ (PyFloat.of_Z 3)
  = Raise TypeError.
Proof. reflexivity. Qed.

(** C1, amended.  When [questions] is a list, empty or malformed, no
    exception reaches the caller: the call returns a result.  For the empty
    list the result has score 0, no question and percentage 0.0.  Whenever
    grading raises, which every list with a non-dictionary element makes it
    do, the result has score 0, percentage 0.0, time 0.0 and no breakdown,
    and [total_questions] is the length of the list. *)
Theorem C1_error_result_keeps_question_count
    (now : PyFloat.float) (questions : list pyval)
    (user_answers : gmap Z pyval) (start_time : PyFloat.float) :
  let r := calculate_quiz_results now questions user_answers start_time in
  calculate_quiz_results_call now (QuestionList questions) user_answers start_time
  = Ok r
  /\ (questions = [] ->
     score r = 0%nat /\ total_questions r = 0%nat /\ percentage r = PyFloat.zero)
  /\ (raised (grade now questions user_answers start_time) = true ->
        score r = 0%nat
        /\ total_questions r = length questions
        /\ percentage r = PyFloat.zero
        /\ time_taken r = PyFloat.zero
        /\ questions_breakdown r = [])
  /\ (Exists (fun q => is_dict q = false) questions ->
        raised (grade now questions user_answers start_time) = true).
Proof.
  intros r. split; [|split; [|split]].
  - apply calculate_quiz_results_call_list.
  - intros ->. subst r. repeat split; reflexivity.
  - intros Hr. subst r. unfold calculate_quiz_results.
    destruct (grade now questions user_answers start_time); [discriminate|].
    repeat split; try reflexivity. apply default_results_total.
  - intros Hbad. unfold grade.
    pose proof (score_loop_not_dict questions user_answers Hbad 0%nat 0%nat) as H.
    destruct (score_loop 0 questions user_answers 0); [discriminate | reflexivity].
Qed.

Lemma C1_witness :
  let r := calculate_quiz_results (PyFloat.of_Z 10) malformed_questions ∅
             (PyFloat.of_Z 3) in
  calculate_quiz_results_call (PyFloat.of_Z 10) (QuestionList malformed_questions)
    ∅ (PyFloat.of_Z 3) = Ok r
  /\ score r = 0%nat /\ total_questions r = 1%nat /\ percentage r = PyFloat.zero.
Proof.
  destruct (C1_error_result_keeps_question_count (PyFloat.of_Z 10)
              malformed_questions ∅ (PyFloat.of_Z 3)) as (Hc & _ & H & _).
  destruct (H eq_refl) as (Hs & Ht & Hp & _).
  cbv zeta. split; [exact Hc|]. split; [exact Hs|]. split; [exact Ht | exact Hp].
Defined.

(** C3 (the claim fails on the code): the same questions, answers and third
    argument [4.0] give [time_taken = 6.0] when the clock reads [10.0] and
    [time_taken = 16.0] when it reads [20.0]; neither is [round(4.0, 2)]. *)
Lemma C3_counterexample :
  time_taken (calculate_quiz_results (PyFloat.of_Z 10) [] ∅ (PyFloat.of_Z 4))
    = PyFloat.of_Z 6
  /\ time_taken (calculate_quiz_results (PyFloat.of_Z 20) [] ∅ (PyFloat.of_Z 4))
     = PyFloat.of_Z 16
  /\ PyFloat.round2 (PyFloat.of_Z 4) = PyFloat.of_Z 4
  /\ calculate_quiz_results (PyFloat.of_Z 10) [] ∅ (PyFloat.of_Z 4)
     <> calculate_quiz_results (PyFloat.of_Z 20) [] ∅ (PyFloat.of_Z 4).
Proof.
  split; [vm_compute; reflexivity|]. split; [vm_compute; reflexivity|].
  split; [vm_compute; reflexivity|]. vm_compute. discriminate.
Qed.

(** C3, amended.  The third argument is a start time and the grader reads
    the clock itself: [time_taken] is [round(now - start_time, 2)] when
    grading succeeds and [0.0] in the error branch.  The clock reading
    influences nothing else: score, question count, percentage and
    breakdown are the same for any two readings. *)
Theorem C3_time_taken_is_clock_minus_start
    (now now' : PyFloat.float) (questions : list pyval)
    (user_answers : gmap Z pyval) (start_time : PyFloat.float) :
  let r := calculate_quiz_results now questions user_answers start_time in
  let r' := calculate_quiz_results now' questions user_answers start_time in
  time_taken r =
    (if raised (grade now questions user_answers start_time)
     then PyFloat.zero
     else PyFloat.round2 (PyFloat.sub now start_time))
  /\ score r = score r'
  /\ total_questions r = total_questions r'
  /\ percentage r = percentage r'
  /\ questions_breakdown r = questions_breakdown r'.
Proof.
  intros r r'. subst r r'. unfold calculate_quiz_results.
  pose proof (grade_inv now questions user_answers start_time) as H.
  pose proof (grade_inv now' questions user_answers start_time) as H'.
  pose proof (grade_raised_clock now now' questions user_answers start_time) as Hc.
  destruct (grade now questions user_answers start_time) as [r|],
           (grade now' questions user_answers start_time) as [r'|];
    simpl in Hc; try discriminate.
  - destruct H as (Hs & Ht & Hp & Htime & Hb), H' as (Hs' & Ht' & Hp' & _ & Hb').
    simpl. split; [exact Htime|].
    assert (score r = score r') as E by congruence.
    repeat split; congruence.
  - simpl. repeat split; reflexivity.
Qed.

(** C4 (the claim fails on the code): with 23 correct answers out of 160 the
    quotient [23/160] is rounded before it is multiplied by 100, the product
    lies just below 14.375, and the grader reports 14.37;
    [round(100*23/160, 2)] is 14.38. *)
Lemma C4_counterexample :
  let r := calculate_quiz_results (PyFloat.of_Z 10) questions_160 answers_160
             (PyFloat.of_Z 3) in
  score r = 23%nat
  /\ total_questions r = 160%nat
  /\ percentage r = S754_finite false 8089590830664253 (-49)
  /\ claimed_percentage 23 160 = S754_finite false 8095220330198467 (-49)
  /\ PyFloat.ltb (percentage r) (claimed_percentage 23 160) = true.
Proof. cbv zeta. repeat split; vm_compute; reflexivity. Qed.

(** C4, amended.  The score never exceeds the number of questions; the
    percentage is 0.0 when there is no question and otherwise
    [round(score / total * 100, 2)] evaluated in this order in double
    precision; it equals [round(100*score/total, 2)] for every quiz of fewer
    than 160 questions. *)
Theorem C4_score_bound_and_percentage
    (now : PyFloat.float) (questions : list pyval)
    (user_answers : gmap Z pyval) (start_time : PyFloat.float) :
  let r := calculate_quiz_results now questions user_answers start_time in
  (score r <= total_questions r)%nat
  /\ (total_questions r = 0%nat -> percentage r = PyFloat.zero)
  /\ percentage r = evaluated_percentage (score r) (total_questions r)
  /\ ((total_questions r < 160)%nat ->
      percentage r = claimed_percentage (score r) (total_questions r)).
Proof.
  intros r.
  assert (B : (score r <= total_questions r)%nat
              /\ percentage r = evaluated_percentage (score r) (total_questions r)).
  { subst r. unfold calculate_quiz_results.
    pose proof (grade_inv now questions user_answers start_time) as H.
    destruct (grade now questions user_answers start_time) as [r|].
    - destruct H as (Hs & Ht & Hp & _). apply score_loop_bounds in Hs.
      rewrite Ht. split; [lia | exact Hp].
    - simpl. split; [lia|]. now rewrite evaluated_percentage_zero. }
  destruct B as [Hle Hp]. split; [exact Hle|]. split; [|split].
  - intros H0. rewrite Hp, H0. now destruct (score r).
  - exact Hp.
  - intros Hlt. rewrite Hp. now apply evaluated_percentage_claimed.
Qed.

Lemma C4_witness :
  let r := calculate_quiz_results (PyFloat.of_Z 10) [question_with_key "B"]
             {[ 0 := PStr "b" ]} (PyFloat.of_Z 3) in
  (total_questions r < 160)%nat
  /\ percentage r = claimed_percentage (score r) (total_questions r).
Proof.
  cbv zeta. split; [vm_compute; lia|].
  apply (C4_score_bound_and_percentage (PyFloat.of_Z 10) [question_with_key "B"]
           {[ 0 := PStr "b" ]} (PyFloat.of_Z 3)).
  vm_compute. lia.
Defined.

(** C5.  Let every question be a record with a string key and every
    submitted answer a non-empty string (other than the "Not answered"
    sentinel of the breakdown).  Then grading raises nothing, the score is
    the number of counted questions, and at every index [i] both the
    [is_correct] flag of the breakdown and the contribution to the score are
    the case-insensitive comparison of [answers[i]] with the key; a question
    without an answer is incorrect, is not counted and is reported as
    "Not answered". *)
Theorem C5_case_insensitive_comparison
    (now : PyFloat.float) (questions : list pyval)
    (user_answers : gmap Z pyval) (start_time : PyFloat.float) :
  Forall keyed_question questions ->
  (forall i v, user_answers !! i = Some v -> submitted_answer v) ->
  exists r,
    grade now questions user_answers start_time = Ok r
    /\ calculate_quiz_results now questions user_answers start_time = r
    /\ score r = length (List.filter (counted questions user_answers)
                           (seq 0 (length questions)))
    /\ forall (i : nat) (d : pydict) (c : string),
         questions !! i = Some (PDict d) ->
         dict_get "correct_answer" d = Some (PStr c) ->
         exists e,
           questions_breakdown r !! i = Some e
           /\ question_number e = (i + 1)%nat
           /\ match user_answers !! Z.of_nat i with
              | Some (PStr a) =>
                  is_correct e = same_letter a c
                  /\ counted questions user_answers i = same_letter a c
              | _ =>
                  is_correct e = false
                  /\ counted questions user_answers i = false
                  /\ user_answer e = PStr not_answered
              end.
Proof.
  intros Hq Ha.
  assert (Ha' : forall i v, user_answers !! i = Some v -> exists a, v = PStr a).
  { intros i v Hv. destruct (Ha i v Hv) as (a & -> & _). eauto. }
  destruct (score_loop_total user_answers questions Hq Ha' 0%nat 0%nat) as [c Hc].
  destruct (breakdown_loop_total user_answers questions Hq Ha' 0%nat) as [l Hl].
  pose proof (grade_inv now questions user_answers start_time) as G.
  unfold calculate_quiz_results.
  destruct (grade now questions user_answers start_time) as [r|].
  2:{ unfold _get_questions_breakdown in G. rewrite Hc, Hl in G.
      destruct G; discriminate. }
  destruct G as (Gs & _ & _ & _ & Gb). exists r.
  split; [reflexivity|]. split; [reflexivity|]. split.
  - apply (score_loop_counts user_answers questions [] 0%nat) in Gs. exact Gs.
  - intros i d k Hi Hk.
    destruct (breakdown_loop_lookup user_answers questions 0%nat _ Gb) as [_ Hall].
    destruct (Hall i _ Hi) as (e & He & Hat). exists e. split; [exact He|].
    simpl in Hat. unfold breakdown_entry_at in Hat. simpl in Hat.
    rewrite Hk in Hat. simpl in Hat. unfold counted. rewrite Hi, Hk.
    destruct (user_answers !! Z.of_nat i) as [v|] eqn:Hv; simpl in Hat.
    + destruct (Ha _ _ Hv) as (a & -> & Hne & Hns).
      unfold breakdown_is_correct in Hat. simpl in Hat.
      assert (E1 : String.eqb a not_answered = false)
        by (apply String.eqb_neq; exact Hns).
      assert (E2 : String.eqb a "" = false) by (apply String.eqb_neq; exact Hne).
      rewrite E1 in Hat. simpl in Hat. injection Hat as <-. simpl.
      split; [reflexivity|]. split; [reflexivity|].
      rewrite E2. simpl. unfold same_letter.
      destruct (String.eqb k "") eqn:Ek; simpl; [|reflexivity].
      apply String.eqb_eq in Ek. subst k. symmetry. apply String.eqb_neq.
      intros Hu. apply upper_empty in Hu. contradiction.
    + injection Hat as <-. simpl. repeat split; reflexivity.
Qed.

Lemma C5_witness :
  exists r,
    calculate_quiz_results (PyFloat.of_Z 10) [question_with_key "B"]
      {[ 0 := PStr "b" ]} (PyFloat.of_Z 3) = r
    /\ score r = 1%nat
    /\ map is_correct (questions_breakdown r) = [true].
Proof.
  destruct (C5_case_insensitive_comparison (PyFloat.of_Z 10)
              [question_with_key "B"] {[ 0 := PStr "b" ]} (PyFloat.of_Z 3))
    as (r & Hg & Hr & _).
  - repeat constructor. do 2 eexists. split; reflexivity.
  - intros i v Hv. apply lookup_singleton_Some in Hv as [_ <-].
    exists "b". repeat split; discriminate.
  - exists r. split; [exact Hr|].
    vm_compute in Hg. injection Hg as <-. split; reflexivity.
Defined.

(** Outside the answers that a quiz stores, the two loops can differ.  The
    parser leaves the key of a question empty when the response has no
    [Correct Answer:] line.  With the empty string as answer to such a
    question, the scoring loop skips the question (an empty answer is falsy)
    while the breakdown compares the two empty strings and marks the
    question correct: the score is 0 and one breakdown entry has
    [is_correct] set. *)
Lemma score_differs_from_breakdown_on_empty_answer :
  let r := calculate_quiz_results (PyFloat.of_Z 10) unkeyed_questions empty_answer
             (PyFloat.of_Z 3) in
  score r = 0%nat
  /\ map is_correct (questions_breakdown r) = [true]
  /\ length (List.filter is_correct (questions_breakdown r)) = 1%nat.
Proof. cbv zeta. repeat split; vm_compute; reflexivity. Qed.

(** ** Agreement of the score and the breakdown on option letters *)

Lemma upper_length (s : string) : String.length (PyStr.upper s) = String.length s.
Proof. induction s as [|c s IH]; simpl; [reflexivity | now rewrite IH]. Qed.

Lemma eqb_length_neq (s t : string) :
  String.length s <> String.length t -> String.eqb s t = false.
Proof. intros H. apply String.eqb_neq. intros ->. now apply H. Qed.

(** For an answer that is absent or an option letter, the flag of the
    breakdown is the condition of the scoring loop whenever both evaluate. *)
Lemma step_agreement (q : pyval) (answer : option pyval) (ca ca' : pyval)
    (hit b : bool) :
  match answer with Some v => option_letter v | None => True end ->
  py_get q "correct_answer" PNone = Ok ca ->
  py_get q "correct_answer" (PStr "Unknown") = Ok ca' ->
  answer_matches (default PNone answer) ca = Ok hit ->
  breakdown_is_correct (default (PStr not_answered) answer) ca' = Ok b ->
  hit = b.
Proof.
  intros Ha Hca Hca' Hm Hb.
  destruct q as [| | |d]; simpl in Hca, Hca'; try discriminate.
  injection Hca as <-. injection Hca' as <-.
  destruct answer as [v|]; simpl in Hm, Hb.
  2:{ injection Hm as <-. injection Hb as <-. reflexivity. }
  destruct Ha as (a & -> & Hlen).
  unfold answer_matches in Hm. unfold breakdown_is_correct in Hb. simpl in Hm, Hb.
  assert (E1 : String.eqb a "" = false) by (apply eqb_length_neq; rewrite Hlen; discriminate).
  assert (E2 : String.eqb a not_answered = false)
    by (apply eqb_length_neq; rewrite Hlen; discriminate).
  rewrite E1 in Hm. rewrite E2 in Hb. simpl in Hm, Hb.
  destruct (dict_get "correct_answer" d) as [[|c|z|items]|]; simpl in Hm, Hb;
    try discriminate.
  - destruct (String.eqb c "") eqn:Ec; simpl in Hm.
    + apply String.eqb_eq in Ec. subst c. injection Hm as <-. injection Hb as <-.
      symmetry. apply eqb_length_neq. rewrite upper_length, Hlen. discriminate.
    + congruence.
  - injection Hm as <-. injection Hb as <-.
    symmetry. apply eqb_length_neq. rewrite upper_length, Hlen. discriminate.
Qed.

Lemma loops_agree_on_letters (user_answers : gmap Z pyval) (rest : list pyval) :
  (forall i v, user_answers !! i = Some v -> option_letter v) ->
  forall (j c c' : nat) (l : list breakdown_entry),
    score_loop j rest user_answers c = Ok c' ->
    breakdown_loop j rest user_answers = Ok l ->
    c' = (c + length (List.filter is_correct l))%nat.
Proof.
  intros Ha. induction rest as [|q rest IH]; intros j c c' l Hs Hb; simpl in Hs, Hb.
  - injection Hs as <-. injection Hb as <-. simpl. lia.
  - destruct (py_get q "correct_answer" PNone) as [ca|] eqn:Hca; simpl in Hs;
      [|discriminate].
    destruct (answer_matches _ ca) as [hit|] eqn:Hm; simpl in Hs; [|discriminate].
    unfold breakdown_entry_at in Hb.
    destruct (py_get q "correct_answer" (PStr "Unknown")) as [ca'|] eqn:Hca';
      simpl in Hb; [|discriminate].
    destruct (breakdown_is_correct _ ca') as [b|] eqn:Hbc; simpl in Hb;
      [|discriminate].
    destruct (py_get q "question" (PStr "")) as [qq|]; simpl in Hb; [|discriminate].
    destruct (py_get q "options" (PDict [])) as [qo|]; simpl in Hb; [|discriminate].
    destruct (py_get q "explanation" (PStr "")) as [qe|]; simpl in Hb; [|discriminate].
    destruct (breakdown_loop (S j) rest user_answers) as [es|] eqn:Hes; simpl in Hb;
      [|discriminate].
    injection Hb as <-.
    assert (hit = b) as ->.
    { apply (step_agreement q (user_answers !! Z.of_nat j) ca ca'); try assumption.
      destruct (user_answers !! Z.of_nat j) as [v|] eqn:Hv; [|exact I].
      exact (Ha _ _ Hv). }
    rewrite (IH _ _ _ _ Hs Hes). simpl. destruct b; simpl; lia.
Qed.

(** When every submitted answer is an option letter, the score is the
    number of breakdown entries marked correct, whatever the questions. *)
Lemma score_agrees_with_breakdown_on_letters
    (now : PyFloat.float) (questions : list pyval)
    (user_answers : gmap Z pyval) (start_time : PyFloat.float) :
  (forall i v, user_answers !! i = Some v -> option_letter v) ->
  let r := calculate_quiz_results now questions user_answers start_time in
  score r = length (List.filter is_correct (questions_breakdown r)).
Proof.
  intros Ha r. subst r. unfold calculate_quiz_results.
  pose proof (grade_inv now questions user_answers start_time) as G.
  destruct (grade now questions user_answers start_time) as [r|]; [|reflexivity].
  destruct G as (Gs & _ & _ & _ & Gb).
  exact (loops_agree_on_letters user_answers questions Ha 0%nat 0%nat _ _ Gs Gb).
Qed.

(** The flag of a breakdown entry is the condition of the scoring loop at
    its index, for an answer that is absent or an option letter. *)
Lemma breakdown_entry_counted (questions : list pyval)
    (user_answers : gmap Z pyval) (i : nat) (q : pyval) (e : breakdown_entry) :
  match user_answers !! Z.of_nat i with
  | Some v => option_letter v
  | None => True
  end ->
  questions !! i = Some q ->
  breakdown_entry_at i q user_answers = Ok e ->
  is_correct e = counted questions user_answers i.
Proof.
  intros Ha Hq He. unfold counted. rewrite Hq.
  unfold breakdown_entry_at in He.
  destruct q as [| | |d]; simpl in He; try discriminate.
  destruct (user_answers !! Z.of_nat i) as [v|]; simpl in He.
  2:{ injection He as <-. reflexivity. }
  destruct Ha as (a & -> & Hlen).
  unfold breakdown_is_correct in He. simpl in He.
  assert (E1 : String.eqb a not_answered = false)
    by (apply eqb_length_neq; rewrite Hlen; discriminate).
  assert (E2 : String.eqb a "" = false)
    by (apply eqb_length_neq; rewrite Hlen; discriminate).
  rewrite E1 in He. rewrite E2. simpl in He.
  destruct (dict_get "correct_answer" d) as [[|c|z|items]|]; simpl in He;
    try discriminate.
  - injection He as <-. simpl. unfold same_letter.
    destruct (String.eqb c "") eqn:Ec; simpl; [|reflexivity].
    apply String.eqb_eq in Ec. subst c.
    apply eqb_length_neq. rewrite upper_length, Hlen. discriminate.
  - injection He as <-. simpl.
    apply eqb_length_neq. rewrite upper_length, Hlen. discriminate.
Qed.

(** C9.  When every stored answer is an option letter, as an answer map
    holds them, the score is the number of breakdown entries marked
    correct, and the two loops agree question by question: the flag of
    entry [i] is the condition under which the scoring loop counts
    question [i]. *)
Theorem C9_score_agrees_with_breakdown
    (now : PyFloat.float) (questions : list pyval)
    (user_answers : gmap Z pyval) (start_time : PyFloat.float) :
  (forall i v, user_answers !! i = Some v -> option_letter v) ->
  let r := calculate_quiz_results now questions user_answers start_time in
  score r = length (List.filter is_correct (questions_breakdown r))
  /\ forall (i : nat) (e : breakdown_entry),
       questions_breakdown r !! i = Some e ->
       is_correct e = counted questions user_answers i.
Proof.
  intros Ha r. subst r. unfold calculate_quiz_results.
  pose proof (grade_inv now questions user_answers start_time) as G.
  destruct (grade now questions user_answers start_time) as [r|err].
  2:{ split; [reflexivity|]. intros i e He. discriminate. }
  destruct G as (Gs & _ & _ & _ & Gb). split.
  - exact (loops_agree_on_letters user_answers questions Ha 0%nat 0%nat _ _ Gs Gb).
  - intros i e He.
    destruct (breakdown_loop_lookup user_answers questions 0 _ Gb) as [Hlen Hall].
    assert (Hi : (i < length questions)%nat).
    { rewrite <- Hlen. apply lookup_lt_Some in He. exact He. }
    destruct (lookup_lt_is_Some_2 questions i Hi) as [q Hq].
    destruct (Hall i q Hq) as (e' & He' & Hat).
    assert (e' = e) as -> by congruence.
    apply (breakdown_entry_counted questions user_answers i q e); try assumption.
    destruct (user_answers !! Z.of_nat i) as [v|] eqn:Hv; [|exact I].
    exact (Ha _ _ Hv).
Qed.

Lemma C9_witness :
  let r := calculate_quiz_results (PyFloat.of_Z 10)
             [question_with_key "B"; question_with_key "A"]
             {[ 0 := PStr "b"; 1 := PStr "c" ]} (PyFloat.of_Z 3) in
  score r = 1%nat
  /\ map is_correct (questions_breakdown r) = [true; false]
  /\ score r = length (List.filter is_correct (questions_breakdown r)).
Proof.
  cbv zeta. split; [vm_compute; reflexivity|]. split; [vm_compute; reflexivity|].
  apply (C9_score_agrees_with_breakdown (PyFloat.of_Z 10)
           [question_with_key "B"; question_with_key "A"]
           {[ 0 := PStr "b"; 1 := PStr "c" ]} (PyFloat.of_Z 3)).
  intros i v Hv. apply lookup_insert_Some in Hv as [[_ <-]|[_ Hv]].
  - exists "b". split; reflexivity.
  - apply lookup_singleton_Some in Hv as [_ <-]. exists "c". split; reflexivity.
Defined.

(** ** Topic analytics *)

Lemma dict_get_map {V W : Type} (f : V -> W) (k : string) (d : list (string * V)) :
  dict_get k (map (fun entry => (fst entry, f (snd entry))) d)
  = option_map f (dict_get k d).
Proof.
  induction d as [|[k' v] d IH]; simpl; [reflexivity|].
  destruct (String.eqb k k'); [reflexivity | exact IH].
Qed.

Lemma topic_scores_snoc (topic : string) (history : list history_record)
    (quiz : history_record) :
  topic_scores topic (history ++ [quiz]) =
    topic_scores topic history
      ++ (if String.eqb (topic_of quiz) topic then [percentage_of quiz] else []).
Proof.
  unfold topic_scores. rewrite List.filter_app, map_app. simpl.
  now destruct (String.eqb (topic_of quiz) topic).
Qed.

(** One step of the first loop keeps the grouping. *)
Lemma topic_add_grouped (stats : list (string * topic_acc))
    (history : list history_record) (quiz : history_record) :
  topic_grouped stats history ->
  topic_grouped (topic_add stats quiz) (history ++ [quiz]).
Proof.
  intros Inv topic. rewrite topic_scores_snoc.
  unfold topic_add. fold (topic_of quiz). fold (percentage_of quiz).
  set (t := topic_of quiz). set (p := percentage_of quiz).
  pose proof (Inv t) as It. pose proof (Inv topic) as Itopic.
  unfold dict_mem.
  destruct (dict_get t stats) as [a|] eqn:Ht.
  - (* the topic already has an entry *)
    rewrite Ht.
    destruct (String.eqb t topic) eqn:E.
    + apply String.eqb_eq in E. subst topic. rewrite dict_get_set_eq. simpl.
      destruct It as (Hs & Hn & Hpos). rewrite Hs. split; [reflexivity|].
      rewrite length_app. simpl. rewrite <- Hs. split; lia.
    + apply String.eqb_neq in E.
      rewrite dict_get_set_ne by congruence. rewrite app_nil_r. exact Itopic.
  - (* first record of the topic *)
    rewrite dict_get_set_eq.
    destruct (String.eqb t topic) eqn:E.
    + apply String.eqb_eq in E. subst topic. rewrite dict_get_set_eq. simpl.
      rewrite It. repeat split; reflexivity.
    + apply String.eqb_neq in E.
      rewrite !dict_get_set_ne by congruence. rewrite app_nil_r. exact Itopic.
Qed.

Lemma fold_topic_add_grouped (rest : list history_record) :
  forall (stats : list (string * topic_acc)) (history : list history_record),
    topic_grouped stats history ->
    topic_grouped (fold_left topic_add rest stats) (history ++ rest).
Proof.
  induction rest as [|quiz rest IH]; intros stats history Inv; simpl.
  - now rewrite app_nil_r.
  - replace (history ++ quiz :: rest) with ((history ++ [quiz]) ++ rest)
      by now rewrite <- app_assoc.
    apply IH, topic_add_grouped, Inv.
Qed.

(** Every entry counts at least one quiz, and as many as it has scores:
    the divisor of [average_score] is not zero. *)
Lemma topic_add_counts (history : list history_record) (topic : string)
    (a : topic_acc) :
  dict_get topic (fold_left topic_add history []) = Some a ->
  acc_scores a = topic_scores topic history
  /\ acc_total_quizzes a = length (acc_scores a)
  /\ (1 <= acc_total_quizzes a)%nat.
Proof.
  intros H.
  pose proof (fold_topic_add_grouped history [] [] (fun _ => eq_refl) topic) as G.
  simpl in G. rewrite H in G. destruct G as (Hs & Hn & Hpos).
  repeat split; [exact Hs | exact Hn | lia].
Qed.

(** Both windows of the trend are non-empty: the divisors of the two means
    are not zero. *)
Lemma trend_windows_nonempty (scores : list PyFloat.float) :
  (1 < length scores)%nat ->
  (1 <= length (py_last 3 scores))%nat /\ (1 <= length (firstn 3 scores))%nat.
Proof.
  intros H. unfold py_last. rewrite length_skipn, length_firstn. lia.
Qed.

Lemma trend_windows (scores : list PyFloat.float) :
  py_last 3 scores = py_last (Nat.min 3 (length scores)) scores
  /\ firstn 3 scores = firstn (Nat.min 3 (length scores)) scores.
Proof.
  unfold py_last. split.
  - f_equal. lia.
  - destruct (Nat.le_gt_cases 3 (length scores)) as [H|H].
    + now rewrite Nat.min_l by exact H.
    + rewrite Nat.min_r by lia.
      rewrite firstn_all, firstn_all2 by lia. reflexivity.
Qed.

(** A finite float minus itself is [0.0]. *)
Lemma sub_diag_finite (x : PyFloat.float) :
  PyFloat.is_finite x = true -> PyFloat.sub x x = PyFloat.zero.
Proof.
  destruct x as [s|s| |s m e]; simpl; try discriminate; intros _.
  - now destruct s.
  - unfold PyFloat.sub, SFsub. rewrite Z.min_id.
    unfold shl_align. rewrite Z.sub_diag. reflexivity.
Qed.

Lemma analyze_topic_performance_entry (history : list history_record)
    (topic : string) (st : topic_stats) :
  dict_get topic (analyze_topic_performance history) = Some st ->
  exists a, dict_get topic (fold_left topic_add history []) = Some a
            /\ st = topic_finish a.
Proof.
  unfold analyze_topic_performance. destruct history as [|quiz rest].
  - discriminate.
  - rewrite dict_get_map.
    destruct (dict_get topic (fold_left topic_add (quiz :: rest) [])) as [a|];
      simpl; [|discriminate].
    intros [= <-]. eauto.
Qed.

Lemma arithmetic_mean_mean (l : list PyFloat.float) :
  arithmetic_mean l = mean l.
Proof. reflexivity. Qed.

(** C6.  A topic of the output has the percentages of its records as
    [scores], in the order of the history, [n >= 1] of them.  Its trend is
    the arithmetic mean (sum divided by count) of the last [min(3, n)]
    scores minus the arithmetic mean of the first [min(3, n)] scores when
    [n >= 2], and [0] when [n = 1].  When [n = 2] both windows are the whole
    list and the trend is [0] (the mean being a finite number).  On the
    percentages 40, 50, 60, 70, 80 of one topic the average is 60.0 and the
    trend is 20; on the unevenly spaced 10, 20, 90, 100 the average is 55.0
    and the trend is [mean [20; 90; 100] - mean [10; 20; 90] = 70 - 40 = 30]. *)
Theorem C6_trend_of_topic :
  (forall (history : list history_record) (topic : string) (st : topic_stats),
     dict_get topic (analyze_topic_performance history) = Some st ->
     let n := length (scores st) in
     scores st = topic_scores topic history
     /\ (1 <= n)%nat
     /\ total_quizzes st = n
     /\ ((2 <= n)%nat ->
         trend st =
           PyFloat.sub (arithmetic_mean (py_last (Nat.min 3 n) (scores st)))
                       (arithmetic_mean (firstn (Nat.min 3 n) (scores st))))
     /\ (n = 1%nat -> trend st = PyFloat.zero)
     /\ (n = 2%nat ->
         py_last (Nat.min 3 n) (scores st) = scores st
         /\ firstn (Nat.min 3 n) (scores st) = scores st
         /\ (PyFloat.is_finite (arithmetic_mean (scores st)) = true ->
             trend st = PyFloat.zero)))
  /\ (exists st,
        analyze_topic_performance algebra_history = [("Algebra", st)]
        /\ scores st = map PyFloat.of_Z [40; 50; 60; 70; 80]
        /\ average_score st = PyFloat.of_Z 60
        /\ trend st = PyFloat.of_Z 20)
  /\ (exists st,
        analyze_topic_performance uneven_history = [("Algebra", st)]
        /\ scores st = map PyFloat.of_Z [10; 20; 90; 100]
        /\ arithmetic_mean (py_last 3 (scores st)) = PyFloat.of_Z 70
        /\ arithmetic_mean (firstn 3 (scores st)) = PyFloat.of_Z 40
        /\ average_score st = PyFloat.of_Z 55
        /\ trend st = PyFloat.of_Z 30).
Proof.
  split; [|split].
  - intros history topic st H n.
    destruct (analyze_topic_performance_entry history topic st H) as (a & Ha & ->).
    destruct (topic_add_counts history topic a Ha) as (Hs & Hn & Hpos).
    subst n. cbn [scores total_quizzes trend topic_finish].
    rewrite !arithmetic_mean_mean.
    destruct (trend_windows (acc_scores a)) as [Wl Wf].
    split; [exact Hs|]. split; [lia|]. split; [exact Hn|].
    split; [|split].
    + intros H2. unfold trend_of.
      destruct (1 <? length (acc_scores a))%nat eqn:E;
        [|apply Nat.ltb_ge in E; lia].
      now rewrite <- Wl, <- Wf.
    + intros H1. unfold trend_of. now rewrite H1.
    + intros H2. rewrite <- Wl, <- Wf.
      assert (L : py_last 3 (acc_scores a) = acc_scores a).
      { unfold py_last. rewrite H2. reflexivity. }
      assert (F : firstn 3 (acc_scores a) = acc_scores a).
      { apply firstn_all2. lia. }
      split; [exact L|]. split; [exact F|].
      intros Hfin. unfold trend_of. rewrite H2, L, F. simpl.
      now apply sub_diag_finite.
  - eexists. split; [vm_compute; reflexivity|].
    repeat split; vm_compute; reflexivity.
  - eexists. split; [vm_compute; reflexivity|].
    repeat split; vm_compute; reflexivity.
Qed.

Lemma C6_witness :
  exists st,
    dict_get "Algebra" (analyze_topic_performance uneven_history) = Some st
    /\ (2 <= length (scores st))%nat
    /\ trend st =
         PyFloat.sub
           (arithmetic_mean (py_last (Nat.min 3 (length (scores st))) (scores st)))
           (arithmetic_mean (firstn (Nat.min 3 (length (scores st))) (scores st)))
    /\ trend st = PyFloat.of_Z 30.
Proof.
  assert (H : { st | dict_get "Algebra" (analyze_topic_performance uneven_history)
                     = Some st
                     /\ trend st = PyFloat.of_Z 30 }).
  { eexists. split; vm_compute; reflexivity. }
  destruct H as (st & H & Ht30). exists st. split; [exact H|].
  destruct (proj1 C6_trend_of_topic uneven_history "Algebra" st H)
    as (Hs & _ & _ & Ht & _).
  assert (L : (2 <= length (scores st))%nat).
  { rewrite Hs. vm_compute. lia. }
  split; [exact L|]. split; [exact (Ht L) | exact Ht30].
Defined.

(** ** Recommendations *)

(** On floats other than NaN, [<] is the order of the ranks. *)
Lemma ltb_rank (x y : PyFloat.float) :
  is_nan x = false -> is_nan y = false ->
  (PyFloat.ltb x y = true <-> rank_lt (float_rank x) (float_rank y)).
Proof.
  unfold PyFloat.ltb, SFltb, rank_lt.
  destruct x as [s|s| |s m e], y as [t|t| |t n f]; simpl; try discriminate;
    intros _ _;
    repeat match goal with b : bool |- _ => destruct b end; simpl;
    try (split; [discriminate | lia]);
    try (split; [lia | discriminate]);
    try (split; [intros _; lia | reflexivity]).
  - (* both negative *)
    destruct (Z.compare_spec e f) as [->|H|H].
    + change (Pos.compare_cont Eq m n) with (Pos.compare m n).
      destruct (Pos.compare_spec m n) as [->|Hm|Hm]; simpl;
        (split; [try discriminate; intros _; lia | try reflexivity; lia]).
    + split; [discriminate | lia].
    + split; [intros _; lia | reflexivity].
  - (* both positive *)
    destruct (Z.compare_spec e f) as [->|H|H].
    + change (Pos.compare_cont Eq m n) with (Pos.compare m n).
      destruct (Pos.compare_spec m n) as [->|Hm|Hm]; simpl;
        (split; [try discriminate; intros _; lia | try reflexivity; lia]).
    + split; [intros _; lia | reflexivity].
    + split; [discriminate | lia].
Qed.

Lemma ltb_irrefl (x : PyFloat.float) : PyFloat.ltb x x = false.
Proof.
  destruct (is_nan x) eqn:N; [now destruct x|].
  destruct (PyFloat.ltb x x) eqn:E; [|reflexivity].
  apply (ltb_rank x x N N) in E. unfold rank_lt in E.
  destruct (float_rank x) as [[a b] c]. lia.
Qed.

Lemma ltb_asym (x y : PyFloat.float) :
  PyFloat.ltb x y = true -> PyFloat.ltb y x = false.
Proof.
  intros H.
  assert (is_nan x = false /\ is_nan y = false) as [Nx Ny].
  { destruct x, y; try discriminate; split; reflexivity. }
  destruct (PyFloat.ltb y x) eqn:E; [|reflexivity].
  apply (ltb_rank x y Nx Ny) in H. apply (ltb_rank y x Ny Nx) in E.
  unfold rank_lt in *.
  destruct (float_rank x) as [[a b] c], (float_rank y) as [[a' b'] c']. lia.
Qed.

(** Negative transitivity: what makes "not smaller" an order. *)
Lemma ltb_false_trans (x y z : PyFloat.float) :
  is_nan x = false -> is_nan y = false -> is_nan z = false ->
  PyFloat.ltb x y = false -> PyFloat.ltb y z = false -> PyFloat.ltb x z = false.
Proof.
  intros Nx Ny Nz Hxy Hyz.
  destruct (PyFloat.ltb x z) eqn:E; [|reflexivity].
  apply (ltb_rank x z Nx Nz) in E.
  assert (Hxy' : ~ rank_lt (float_rank x) (float_rank y)).
  { intros H. apply (ltb_rank x y Nx Ny) in H. congruence. }
  assert (Hyz' : ~ rank_lt (float_rank y) (float_rank z)).
  { intros H. apply (ltb_rank y z Ny Nz) in H. congruence. }
  unfold rank_lt in *.
  destruct (float_rank x) as [[a b] c], (float_rank y) as [[a' b'] c'],
           (float_rank z) as [[a'' b''] c'']. lia.
Qed.

Lemma insert_by_head {A : Type} (key : A -> PyFloat.float) (x : A) (l : list A) :
  hd_error (insert_by key x l) =
    match hd_error l with
    | Some y => if PyFloat.ltb (key y) (key x) then Some y else Some x
    | None => Some x
    end.
Proof. destruct l as [|y l]; simpl; [reflexivity|]. now destruct (PyFloat.ltb _ _). Qed.

Lemma sorted_by_nil {A : Type} (key : A -> PyFloat.float) (l : list A) :
  sorted_by key l = [] -> l = [].
Proof.
  destruct l as [|x l]; [reflexivity|]. simpl.
  destruct (sorted_by key l) as [|y s]; simpl; [discriminate|].
  now destruct (PyFloat.ltb (key y) (key x)).
Qed.

(** The head of the sorted list is an element of the list with no smaller
    key, provided no key is NaN. *)
Lemma sorted_by_head_minimal {A : Type} (key : A -> PyFloat.float) (l : list A) :
  Forall (fun e => is_nan (key e) = false) l ->
  forall w, hd_error (sorted_by key l) = Some w ->
            In w l /\ is_nan (key w) = false
            /\ forall e, In e l -> PyFloat.ltb (key e) (key w) = false.
Proof.
  induction 1 as [|x l Nx Nl IH]; intros w Hw; simpl in Hw; [discriminate|].
  rewrite insert_by_head in Hw.
  destruct (hd_error (sorted_by key l)) as [y|] eqn:Hy.
  - destruct (IH y eq_refl) as (Iy & Ny & My).
    destruct (PyFloat.ltb (key y) (key x)) eqn:E; injection Hw as <-.
    + split; [now right|]. split; [exact Ny|].
      intros e [<-|He]; [now apply ltb_asym | now apply My].
    + split; [now left|]. split; [exact Nx|].
      intros e [<-|He]; [apply ltb_irrefl|].
      apply (ltb_false_trans _ (key y)); try assumption.
      * rewrite Forall_forall in Nl. apply Nl. now apply list_elem_of_In.
      * now apply My.
  - injection Hw as <-.
    assert (l = []) as ->.
    { destruct l as [|z l]; [reflexivity|]. simpl in Hy.
      destruct (sorted_by key l) as [|u s]; simpl in Hy; [discriminate|].
      now destruct (PyFloat.ltb (key u) (key z)). }
    split; [now left|]. split; [exact Nx|].
    intros e [<-|[]]. apply ltb_irrefl.
Qed.

Lemma topic_recommendations_rules (topic_performance : list (string * topic_stats))
    (recommendations : list string) :
  topic_recommendations topic_performance recommendations =
    recommendations ++ rule_1 topic_performance ++ rule_2 topic_performance.
Proof.
  unfold topic_recommendations, rule_1, rule_2, weakest_topic, declining_topics.
  destruct topic_performance as [|entry rest]; [now rewrite app_nil_r|].
  set (tp := entry :: rest).
  destruct (sorted_by _ tp) as [|w s] eqn:Hs.
  - apply sorted_by_nil in Hs. discriminate Hs.
  - cbn [hd_error].
    destruct (PyFloat.ltb (average_score (snd w)) (PyFloat.of_Z 70));
      match goal with
      | |- context [map fst ?l] => destruct (map fst l)
      end; cbn [app];
      rewrite <- ?app_assoc, ?app_nil_r; reflexivity.
Qed.

Lemma difficulty_recommendations_rule
    (difficulty_analysis : list (string * difficulty_stats)) :
  forall recommendations : list string,
    fold_left difficulty_recommendation difficulty_analysis recommendations =
      recommendations ++ rule_3 difficulty_analysis.
Proof.
  unfold rule_3.
  induction difficulty_analysis as [|entry rest IH]; intros recs;
    cbn [fold_left List.filter map].
  - now rewrite app_nil_r.
  - rewrite IH. unfold difficulty_recommendation. cbn [List.filter].
    destruct (PyFloat.ltb (d_average_score (snd entry)) (PyFloat.of_Z 60));
      cbn [map].
    + now rewrite <- app_assoc.
    + reflexivity.
Qed.

Lemma generate_study_recommendations_rules
    (topic_performance : list (string * topic_stats))
    (difficulty_analysis : list (string * difficulty_stats)) :
  generate_study_recommendations topic_performance difficulty_analysis =
    firstn 3
      match rule_1 topic_performance ++ rule_2 topic_performance
            ++ rule_3 difficulty_analysis with
      | [] => [encouragement]
      | fired => fired
      end.
Proof.
  unfold generate_study_recommendations.
  rewrite py_take_nonneg by lia.
  rewrite difficulty_recommendations_rule, topic_recommendations_rules.
  cbn [app]. rewrite <- app_assoc.
  now destruct (rule_1 topic_performance ++ rule_2 topic_performance
                ++ rule_3 difficulty_analysis).
Qed.

(** C8 (the claim fails on the code): a topic averaging 55 and a
    difficulty averaging 50 do not always give two entries.  When the last
    three scores of the topic lie 40 below its first three, Rule 2 fires
    as well and the result has three entries. *)
Lemma C8_counterexample :
  exists st ds,
    declining_scenario_topics = [("Algebra", st)]
    /\ scenario_difficulties = [("easy", ds)]
    /\ average_score st = PyFloat.of_Z 55
    /\ trend st = PyFloat.of_Z (-40)
    /\ d_average_score ds = PyFloat.of_Z 50
    /\ length (generate_study_recommendations declining_scenario_topics
                 scenario_difficulties) = 3%nat.
Proof.
  eexists. eexists. split; [vm_compute; reflexivity|].
  split; [vm_compute; reflexivity|].
  repeat split; vm_compute; reflexivity.
Qed.

(** C8, amended.  The recommendations are the entries of Rule 1 (the
    weakest topic, when its average is below 70), then of Rule 2 (one entry
    for all topics whose trend is below -10), then of Rule 3 (one entry per
    difficulty whose average is below 60, in the order of the mapping), cut
    to the first three; when no rule fires the result is the single
    encouragement.  The result has at most three entries.  The weakest topic
    is a topic of the mapping with no smaller average (averages being
    numbers).  With one topic averaging 55 and one difficulty averaging 50,
    the result is the entry of the topic followed by the entry of the
    difficulty when the trend of the topic is not below -10; when it is
    below -10 the entry of Rule 2 comes between the two and the result has
    three entries. *)
Theorem C8_recommendations_order_and_bound :
  (forall (topic_performance : list (string * topic_stats))
          (difficulty_analysis : list (string * difficulty_stats)),
     let fired := rule_1 topic_performance ++ rule_2 topic_performance
                  ++ rule_3 difficulty_analysis in
     let result :=
       generate_study_recommendations topic_performance difficulty_analysis in
     result = firstn 3 match fired with [] => [encouragement] | _ => fired end
     /\ (length result <= 3)%nat
     /\ (fired = [] -> result = [encouragement])
     /\ (Forall (fun entry => is_nan (average_score (snd entry)) = false)
           topic_performance ->
         forall w, weakest_topic topic_performance = Some w ->
                   In w topic_performance
                   /\ forall entry, In entry topic_performance ->
                        PyFloat.ltb (average_score (snd entry))
                                    (average_score (snd w)) = false))
  /\ (forall (topic : string) (st : topic_stats)
             (difficulty : string) (ds : difficulty_stats),
        average_score st = PyFloat.of_Z 55 ->
        d_average_score ds = PyFloat.of_Z 50 ->
        (PyFloat.ltb (trend st) (PyFloat.of_Z (-10)) = false ->
         generate_study_recommendations [(topic, st)] [(difficulty, ds)] =
           [ weakest_message topic (PyFloat.of_Z 55);
             difficulty_message difficulty (success_rate ds) ])
        /\ (PyFloat.ltb (trend st) (PyFloat.of_Z (-10)) = true ->
            generate_study_recommendations [(topic, st)] [(difficulty, ds)] =
              [ weakest_message topic (PyFloat.of_Z 55);
                "Review " +:+ topic
                  +:+ " as your performance seems to be declining in these areas";
                difficulty_message difficulty (success_rate ds) ]))
  /\ generate_study_recommendations scenario_topics scenario_difficulties =
       [ "Focus on improving your understanding of Algebra - your average score is 55.0%";
         "Consider practicing more easy level questions - your success rate is 0.0%" ]
  /\ generate_study_recommendations declining_scenario_topics scenario_difficulties =
       [ "Focus on improving your understanding of Algebra - your average score is 55.0%";
         "Review Algebra as your performance seems to be declining in these areas";
         "Consider practicing more easy level questions - your success rate is 0.0%" ].
Proof.
  split; [|split; [|split]].
  - intros tp da fired result.
    assert (E : result =
                firstn 3 match fired with [] => [encouragement] | _ => fired end).
    { subst result fired. rewrite generate_study_recommendations_rules.
      now destruct (rule_1 tp ++ rule_2 tp ++ rule_3 da). }
    split; [exact E|]. split; [|split].
    + rewrite E. apply firstn_le_length.
    + intros H0. rewrite E, H0. reflexivity.
    + intros Hnan w Hw.
      destruct (sorted_by_head_minimal
                  (fun entry : string * topic_stats => average_score (snd entry))
                  tp Hnan w Hw) as (Hin & _ & Hmin).
      split; [exact Hin | exact Hmin].
  - intros topic st difficulty ds Havg Hd.
    rewrite generate_study_recommendations_rules.
    unfold rule_1, rule_2, rule_3, weakest_topic.
    cbn [sorted_by insert_by hd_error List.filter map fst snd].
    rewrite Havg, Hd.
    replace (PyFloat.ltb (PyFloat.of_Z 55) (PyFloat.of_Z 70)) with true
      by (vm_compute; reflexivity).
    replace (PyFloat.ltb (PyFloat.of_Z 50) (PyFloat.of_Z 60)) with true
      by (vm_compute; reflexivity).
    split; intros Htrend; rewrite Htrend; reflexivity.
  - vm_compute. reflexivity.
  - vm_compute. reflexivity.
Qed.

Lemma C8_witness :
  generate_study_recommendations scenario_topics scenario_difficulties =
    [ "Focus on improving your understanding of Algebra - your average score is 55.0%";
      "Consider practicing more easy level questions - your success rate is 0.0%" ]
  /\ generate_study_recommendations declining_scenario_topics scenario_difficulties =
       [ "Focus on improving your understanding of Algebra - your average score is 55.0%";
         "Review Algebra as your performance seems to be declining in these areas";
         "Consider practicing more easy level questions - your success rate is 0.0%" ].
Proof.
  assert (T : { st | scenario_topics = [("Algebra", st)]
                     /\ average_score st = PyFloat.of_Z 55
                     /\ PyFloat.ltb (trend st) (PyFloat.of_Z (-10)) = false }).
  { eexists. repeat split; vm_compute; reflexivity. }
  assert (T' : { st | declining_scenario_topics = [("Algebra", st)]
                      /\ average_score st = PyFloat.of_Z 55
                      /\ PyFloat.ltb (trend st) (PyFloat.of_Z (-10)) = true }).
  { eexists. repeat split; vm_compute; reflexivity. }
  assert (D : { ds | scenario_difficulties = [("easy", ds)]
                     /\ d_average_score ds = PyFloat.of_Z 50
                     /\ success_rate ds = PyFloat.zero }).
  { eexists. repeat split; vm_compute; reflexivity. }
  destruct T as (st & -> & Ha & Ht), T' as (st' & -> & Ha' & Ht'),
           D as (ds & -> & Hd & Hr).
  pose proof (proj1 (proj2 C8_recommendations_order_and_bound)) as S.
  split.
  - rewrite (proj1 (S "Algebra" st "easy" ds Ha Hd) Ht).
    rewrite Hr. vm_compute. reflexivity.
  - rewrite (proj2 (S "Algebra" st' "easy" ds Ha' Hd) Ht').
    rewrite Hr. vm_compute. reflexivity.
Defined.

(** A topic in decline adds the entry of Rule 2 between the two. *)
Lemma declining_topic_gives_three_entries :
  generate_study_recommendations declining_scenario_topics scenario_difficulties =
    [ "Focus on improving your understanding of Algebra - your average score is 55.0%";
      "Review Algebra as your performance seems to be declining in these areas";
      "Consider practicing more easy level questions - your success rate is 0.0%" ].
Proof. vm_compute. reflexivity. Qed.

(** Four firing rules: the last entry is cut. *)
Lemma recommendations_truncated :
  length (rule_1 declining_scenario_topics ++ rule_2 declining_scenario_topics
          ++ rule_3 (scenario_difficulties
                     ++ [("hard", {| d_total_quizzes := 1;
                                     d_total_score := PyFloat.of_Z 10;
                                     d_scores := [PyFloat.of_Z 10];
                                     d_average_score := PyFloat.of_Z 10;
                                     success_rate := PyFloat.zero |})])) = 4%nat
  /\ length (generate_study_recommendations declining_scenario_topics
               (scenario_difficulties
                ++ [("hard", {| d_total_quizzes := 1;
                                d_total_score := PyFloat.of_Z 10;
                                d_scores := [PyFloat.of_Z 10];
                                d_average_score := PyFloat.of_Z 10;
                                success_rate := PyFloat.zero |})])) = 3%nat.
Proof. split; vm_compute; reflexivity. Qed.

(** * Further properties *)

(** ** The scan of the response *)

(** Lines that start with none of the four markers leave the scan where it
    is: chatter between the questions changes nothing. *)
Lemma scan_line_unrecognised (st : scan_state) (raw : string) :
  recognised raw = false -> scan_line st raw = st.
Proof.
  unfold recognised, scan_line. intros H.
  apply orb_false_iff in H as [H He]. apply orb_false_iff in H as [H Hc].
  apply orb_false_iff in H as [Hq Ho].
  now rewrite Hq, Ho, Hc, He.
Qed.

Lemma fold_scan_line_filter (lines : list string) :
  forall st, fold_left scan_line lines st
             = fold_left scan_line (List.filter recognised lines) st.
Proof.
  induction lines as [|raw lines IH]; intros st; simpl; [reflexivity|].
  destruct (recognised raw) eqn:E; simpl.
  - apply IH.
  - rewrite scan_line_unrecognised by exact E. apply IH.
Qed.

(** X1.  The scan depends only on the lines that start, once stripped, with one
    of the four markers: dropping every other line from a response changes
    neither the state of the scan nor the questions read from it. *)
Theorem scan_ignores_unrecognised_lines (lines : list string) :
  scan_lines lines = scan_lines (List.filter recognised lines)
  /\ flush_last (scan_lines lines)
     = flush_last (scan_lines (List.filter recognised lines)).
Proof.
  unfold scan_lines. now rewrite (fold_scan_line_filter lines scan_init).
Qed.

Lemma dict_mem_keys {V : Type} (k : string) (d : list (string * V)) :
  dict_mem k d = true <-> In k (dict_keys d).
Proof.
  unfold dict_mem, dict_keys. induction d as [|[k' v] d IH]; simpl.
  - split; [discriminate | intros []].
  - destruct (String.eqb k k') eqn:E.
    + apply String.eqb_eq in E. subst k'. split; [now left | reflexivity].
    + apply String.eqb_neq in E. rewrite IH. split; [now right|].
      intros [H|H]; [congruence | exact H].
Qed.

(** Assigning to a key keeps the order of the keys; a new key goes last. *)
Lemma dict_keys_set {V : Type} (k : string) (v : V) (d : list (string * V)) :
  dict_keys (dict_set k v d) =
    if dict_mem k d then dict_keys d else dict_keys d ++ [k].
Proof.
  unfold dict_mem, dict_keys. induction d as [|[k' v'] d IH]; simpl; [reflexivity|].
  destruct (String.eqb k k') eqn:E; simpl.
  - apply String.eqb_eq in E. now subst k'.
  - rewrite IH. now destruct (dict_get k d).
Qed.

Lemma dict_set_values {V : Type} (P : V -> Prop) (k : string) (v : V)
    (d : list (string * V)) :
  P v -> Forall (fun entry => P (snd entry)) d ->
  Forall (fun entry => P (snd entry)) (dict_set k v d).
Proof.
  intros Hv. induction 1 as [|[k' v'] d Hx Hd IH]; simpl.
  - now repeat constructor.
  - destruct (String.eqb k k'); constructor; auto.
Qed.

Lemma prefix_split (p s : string) :
  String.prefix p s = true -> exists rest, s = p +:+ rest.
Proof.
  revert s. induction p as [|a p IH]; intros s H.
  - now exists s.
  - destruct s as [|b s]; [discriminate|]. cbn [String.prefix] in H.
    destruct (ascii_dec a b) as [<-|]; [|discriminate].
    destruct (IH s H) as [rest ->]. now exists rest.
Qed.

Lemma is_option_line_letter (line : string) :
  is_option_line line = true -> In (PyStr.first_char line) option_letters.
Proof.
  unfold is_option_line, PyStr.startswith, option_letters. intros H.
  repeat (apply orb_true_iff in H as [H|H]);
    apply prefix_split in H as [rest ->]; simpl; auto 6.
Qed.

Lemma NoDup_snoc {A : Type} (l : list A) (x : A) :
  List.NoDup l -> ~ In x l -> List.NoDup (l ++ [x]).
Proof.
  induction 1 as [|y l Hy Hl IH]; intros Hx; simpl.
  - constructor; [intros [] | constructor].
  - constructor.
    + rewrite in_app_iff. intros [H|[<-|[]]]; [contradiction|]. apply Hx. now left.
    + apply IH. intros H. apply Hx. now right.
Qed.

Lemma options_lettered_set_other (k : string) (v : pyval) (d : pydict) :
  k <> "options" -> options_lettered d -> options_lettered (dict_set k v d).
Proof.
  intros Hk. unfold options_lettered. now rewrite dict_get_set_ne by congruence.
Qed.

(** One step of the scan keeps the options of every record lettered. *)
Lemma scan_line_lettered (st : scan_state) (raw : string) :
  options_lettered (current_question st) ->
  Forall options_lettered (questions st) ->
  options_lettered (current_question (scan_line st raw))
  /\ Forall options_lettered (questions (scan_line st raw)).
Proof.
  intros Hc Hq. unfold scan_line.
  destruct (PyStr.startswith "Question:" (PyStr.strip raw)).
  { cbn [current_question questions]. split.
    - unfold options_lettered. simpl. repeat split; constructor.
    - destruct (current_question st) as [|e d] eqn:E; [exact Hq|].
      cbn [truthy]. apply Forall_app. split; [exact Hq|]. now constructor. }
  destruct (is_option_line (PyStr.strip raw)) eqn:Ho.
  { destruct (dict_get "options" (current_question st)) as [[| | |opts]|] eqn:E;
      try (split; assumption).
    cbn [current_question questions]. split; [|exact Hq].
    unfold options_lettered in Hc |- *. rewrite E in Hc. rewrite dict_get_set_eq.
    destruct Hc as (Hnd & Hin & Hval).
    rewrite dict_keys_set. destruct (dict_mem _ opts) eqn:Hm.
    - repeat split; try assumption.
      apply (dict_set_values (fun v => exists text, v = PStr text)); eauto.
    - repeat split.
      + apply NoDup_snoc; [exact Hnd|].
        intros Hx. apply dict_mem_keys in Hx. congruence.
      + apply Forall_app. split; [exact Hin|]. constructor; [|constructor].
        now apply is_option_line_letter.
      + apply (dict_set_values (fun v => exists text, v = PStr text)); eauto. }
  destruct (PyStr.startswith "Correct Answer:" (PyStr.strip raw)).
  { cbn [current_question questions]. split; [|exact Hq].
    apply options_lettered_set_other; [discriminate | exact Hc]. }
  destruct (PyStr.startswith "Explanation:" (PyStr.strip raw)).
  { cbn [current_question questions]. split; [|exact Hq].
    apply options_lettered_set_other; [discriminate | exact Hc]. }
  now split.
Qed.

Lemma parsed_questions_lettered (response : string) :
  Forall options_lettered (parsed_questions response).
Proof.
  unfold parsed_questions, scan_lines.
  assert (G : forall lines st,
             options_lettered (current_question st) ->
             Forall options_lettered (questions st) ->
             options_lettered (current_question (fold_left scan_line lines st))
             /\ Forall options_lettered (questions (fold_left scan_line lines st))).
  { induction lines as [|raw lines IH]; intros st Hc Hq; simpl; [now split|].
    destruct (scan_line_lettered st raw Hc Hq) as [Hc' Hq']. now apply IH. }
  destruct (G (PyStr.split_lines response) scan_init) as [Hc Hq];
    [exact I | constructor |].
  unfold flush_last. destruct (_ && _); [|exact Hq].
  apply Forall_app. split; [exact Hq | now constructor].
Qed.

Lemma fallback_questions_lettered (topic : string) :
  Forall options_lettered (fallback_questions topic).
Proof.
  unfold fallback_questions, options_lettered, option_letters.
  repeat (constructor; [simpl; split; [|split]|]);
    try (repeat constructor; simpl; intuition discriminate);
    try (repeat constructor; eexists; reflexivity).
Qed.

Lemma py_take_In {A : Type} (n : Z) (l : list A) (x : A) :
  In x (py_take n l) -> In x l.
Proof.
  assert (G : forall k, In x (firstn k l) -> In x l).
  { intros k H. rewrite <- (firstn_skipn k l). apply in_or_app. now left. }
  unfold py_take. destruct (0 <=? n); apply G.
Qed.

Lemma generate_quiz_questions_lettered
    (api : string -> option string) (topic difficulty : string) (n : Z)
    (q : pydict) :
  In q (generate_quiz_questions api topic difficulty n) -> options_lettered q.
Proof.
  intros Hq.
  unfold generate_quiz_questions, _parse_quiz_response, _generate_fallback_quiz in Hq.
  pose proof (fallback_questions_lettered topic) as Ft.
  rewrite Forall_forall in Ft.
  destruct (api _) as [response|].
  - destruct (truthy (PStr response)).
    + destruct (length (parsed_questions response) =? 0)%nat.
      * pose proof (fallback_questions_lettered (fallback_topic response)) as F.
        rewrite Forall_forall in F. apply F, list_elem_of_In.
        exact (py_take_In _ _ _ Hq).
      * pose proof (parsed_questions_lettered response) as F.
        rewrite Forall_forall in F. apply F, list_elem_of_In.
        exact (py_take_In _ _ _ Hq).
    + apply Ft, list_elem_of_In. exact (py_take_In _ _ _ Hq).
  - apply Ft, list_elem_of_In. exact (py_take_In _ _ _ Hq).
Qed.

Lemma keys_together_set_other (k : string) (v : pyval) (d : pydict) :
  k <> "options" -> k <> "question" ->
  keys_together d -> keys_together (dict_set k v d).
Proof.
  intros Ho Hq. unfold keys_together.
  now rewrite !dict_get_set_ne by congruence.
Qed.

(** One step of the scan keeps [question] and [options] together in every
    record: only a [Question:] line creates them, both at once. *)
Lemma scan_line_keys_together (st : scan_state) (raw : string) :
  keys_together (current_question st) ->
  Forall keys_together (questions st) ->
  keys_together (current_question (scan_line st raw))
  /\ Forall keys_together (questions (scan_line st raw)).
Proof.
  intros Hc Hq. unfold scan_line.
  destruct (PyStr.startswith "Question:" (PyStr.strip raw)).
  { cbn [current_question questions]. split.
    - unfold keys_together. simpl. split; discriminate.
    - destruct (current_question st) as [|e d] eqn:E; [exact Hq|].
      cbn [truthy]. apply Forall_app. split; [exact Hq|]. now constructor. }
  destruct (is_option_line (PyStr.strip raw)).
  { destruct (dict_get "options" (current_question st)) as [[| | |opts]|] eqn:E;
      try (split; assumption).
    cbn [current_question questions]. split; [|exact Hq].
    unfold keys_together in Hc |- *.
    rewrite dict_get_set_eq, dict_get_set_ne by discriminate.
    split; [discriminate|]. intros H. apply Hc in H. congruence. }
  destruct (PyStr.startswith "Correct Answer:" (PyStr.strip raw)).
  { cbn [current_question questions]. split; [|exact Hq].
    apply keys_together_set_other; [discriminate | discriminate | exact Hc]. }
  destruct (PyStr.startswith "Explanation:" (PyStr.strip raw)).
  { cbn [current_question questions]. split; [|exact Hq].
    apply keys_together_set_other; [discriminate | discriminate | exact Hc]. }
  now split.
Qed.

Lemma parsed_questions_keys_together (response : string) :
  Forall keys_together (parsed_questions response).
Proof.
  unfold parsed_questions, scan_lines.
  assert (G : forall lines st,
             keys_together (current_question st) ->
             Forall keys_together (questions st) ->
             keys_together (current_question (fold_left scan_line lines st))
             /\ Forall keys_together (questions (fold_left scan_line lines st))).
  { induction lines as [|raw lines IH]; intros st Hc Hq; simpl; [now split|].
    destruct (scan_line_keys_together st raw Hc Hq) as [Hc' Hq']. now apply IH. }
  destruct (G (PyStr.split_lines response) scan_init) as [Hc Hq];
    [split; reflexivity | constructor |].
  unfold flush_last. destruct (_ && _); [|exact Hq].
  apply Forall_app. split; [exact Hq | now constructor].
Qed.

Lemma fallback_questions_keys_together (topic : string) :
  Forall keys_together (fallback_questions topic).
Proof.
  unfold fallback_questions, keys_together.
  repeat (constructor; [simpl; split; discriminate|]). constructor.
Qed.

Lemma generate_quiz_questions_keys_together
    (api : string -> option string) (topic difficulty : string) (n : Z)
    (q : pydict) :
  In q (generate_quiz_questions api topic difficulty n) -> keys_together q.
Proof.
  intros Hq.
  unfold generate_quiz_questions, _parse_quiz_response, _generate_fallback_quiz in Hq.
  pose proof (fallback_questions_keys_together topic) as Ft.
  rewrite Forall_forall in Ft.
  destruct (api _) as [response|].
  - destruct (truthy (PStr response)).
    + destruct (length (parsed_questions response) =? 0)%nat.
      * pose proof (fallback_questions_keys_together (fallback_topic response)) as F.
        rewrite Forall_forall in F. apply F, list_elem_of_In.
        exact (py_take_In _ _ _ Hq).
      * pose proof (parsed_questions_keys_together response) as F.
        rewrite Forall_forall in F. apply F, list_elem_of_In.
        exact (py_take_In _ _ _ Hq).
    + apply Ft, list_elem_of_In. exact (py_take_In _ _ _ Hq).
  - apply Ft, list_elem_of_In. exact (py_take_In _ _ _ Hq).
Qed.

(** X2.  A record that [generate_quiz_questions] returns, parsed or
    fallback, has a [question] exactly when it has [options]: only a
    [Question:] line creates them, both at once, so a record without
    options is one opened by an answer or explanation line before the first
    question line, and it has no question text either.  The options of a
    record that has them are a dictionary with at most four entries, keyed
    by distinct letters among A, B, C and D, each with a string as its
    text. *)
Theorem generated_options_are_lettered
    (api : string -> option string) (topic difficulty : string) (n : Z)
    (q : pydict) :
  In q (generate_quiz_questions api topic difficulty n) ->
  match dict_get "options" q with
  | None => dict_get "question" q = None
  | Some (PDict opts) =>
      dict_get "question" q <> None
      /\ List.NoDup (dict_keys opts)
      /\ Forall (fun k => In k option_letters) (dict_keys opts)
      /\ Forall (fun entry => exists text, snd entry = PStr text) opts
      /\ (length opts <= 4)%nat
  | Some _ => False
  end.
Proof.
  intros Hq.
  pose proof (generate_quiz_questions_lettered api topic difficulty n q Hq) as L.
  pose proof (generate_quiz_questions_keys_together api topic difficulty n q Hq) as K.
  unfold options_lettered in L. unfold keys_together in K.
  destruct (dict_get "options" q) as [[| | |opts]|]; try exact L.
  2:{ now apply K. }
  destruct L as (Hnd & Hin & Hval).
  split; [intros H; apply K in H; discriminate|].
  repeat split; try assumption.
  assert (Hlen : (length (dict_keys opts) <= length option_letters)%nat).
  { apply List.NoDup_incl_length; [exact Hnd|].
    intros k Hk. rewrite Forall_forall in Hin. apply Hin, list_elem_of_In, Hk. }
  unfold dict_keys in Hlen. rewrite length_map in Hlen. exact Hlen.
Qed.

Lemma generated_options_are_lettered_witness :
  exists q1 q2 opts,
    generate_quiz_questions (fun _ => Some stray_answer_response) "Algebra" "easy" 5
    = [q1; q2]
    /\ q1 = [("correct_answer", PStr "B")]
    /\ dict_get "question" q1 = None
    /\ dict_get "options" q2 = Some (PDict opts)
    /\ dict_keys opts = ["A"; "B"]
    /\ dict_get "question" q2 <> None
    /\ List.NoDup (dict_keys opts).
Proof.
  eexists. eexists. eexists. split; [vm_compute; reflexivity|].
  split; [reflexivity|].
  split.
  { exact (generated_options_are_lettered
             (fun _ => Some stray_answer_response) "Algebra" "easy" 5
             [("correct_answer", PStr "B")] (or_introl eq_refl)). }
  split; [reflexivity|]. split; [reflexivity|].
  pose proof (generated_options_are_lettered
                (fun _ => Some stray_answer_response) "Algebra" "easy" 5
                _ (or_intror (or_introl eq_refl))) as H.
  cbn [dict_get String.eqb Ascii.eqb Bool.eqb] in H.
  split; [exact (proj1 H) | exact (proj1 (proj2 H))].
Defined.

(** Without a [Question:] line the scan collects nothing. *)
Lemma scan_line_no_question (st : scan_state) (raw : string) :
  PyStr.startswith "Question:" (PyStr.strip raw) = false ->
  questions st = [] -> dict_get "question" (current_question st) = None ->
  questions (scan_line st raw) = []
  /\ dict_get "question" (current_question (scan_line st raw)) = None.
Proof.
  intros Hq Hs Hc. unfold scan_line. rewrite Hq.
  destruct (is_option_line (PyStr.strip raw)).
  { destruct (dict_get "options" (current_question st)) as [[| | |opts]|];
      cbn [questions current_question]; try (now split).
    split; [exact Hs|]. now rewrite dict_get_set_ne by discriminate. }
  destruct (PyStr.startswith "Correct Answer:" (PyStr.strip raw)).
  { cbn [questions current_question]. split; [exact Hs|].
    now rewrite dict_get_set_ne by discriminate. }
  destruct (PyStr.startswith "Explanation:" (PyStr.strip raw)).
  { cbn [questions current_question]. split; [exact Hs|].
    now rewrite dict_get_set_ne by discriminate. }
  now split.
Qed.

(** X3.  A response in which no line starts with [Question:] is a total parse
    failure, whatever else it holds: options, answers and explanations
    without a question are dropped and the fallback quiz on the first line
    of the response is returned. *)
Theorem response_without_question_line_falls_back (response : string) (n : Z) :
  no_question_line response ->
  parsed_questions response = []
  /\ _parse_quiz_response response n =
       _generate_fallback_quiz
         (match response with
          | EmptyString => "General Knowledge"
          | _ => first_line response
          end) n.
Proof.
  intros Hno.
  assert (P : parsed_questions response = []).
  { unfold parsed_questions, scan_lines, no_question_line in *.
    assert (G : forall lines st,
               Forall (fun raw => PyStr.startswith "Question:" (PyStr.strip raw)
                                  = false) lines ->
               questions st = [] ->
               dict_get "question" (current_question st) = None ->
               flush_last (fold_left scan_line lines st) = []).
    { induction lines as [|raw lines IH]; intros st Hl Hs Hc; simpl.
      - unfold flush_last, has_question. rewrite Hc, Hs. now rewrite andb_false_r.
      - apply Forall_cons in Hl as [Hraw Hl].
        destruct (scan_line_no_question st raw Hraw Hs Hc) as [Hs' Hc'].
        now apply IH. }
    now apply G. }
  split; [exact P|].
  unfold _parse_quiz_response. rewrite P. cbn [length Nat.eqb].
  unfold fallback_topic. destruct response as [|c r]; [reflexivity|].
  cbn [truthy String.eqb negb]. now rewrite hd_split_lines.
Qed.

Lemma response_without_question_line_witness :
  parsed_questions chatter_response = []
  /\ _parse_quiz_response chatter_response 2
     = _generate_fallback_quiz "Photosynthesis" 2.
Proof.
  assert (H : no_question_line chatter_response).
  { unfold no_question_line. vm_compute. repeat constructor. }
  exact (response_without_question_line_falls_back chatter_response 2 H).
Defined.

Lemma _parse_quiz_response_nonempty (response : string) (n : Z) :
  1 <= n -> (1 <= length (_parse_quiz_response response n))%nat.
Proof.
  intros Hn. unfold _parse_quiz_response, _generate_fallback_quiz.
  destruct (length (parsed_questions response) =? 0)%nat eqn:E.
  - pose proof (py_take_length n (fallback_questions (fallback_topic response))
                  ltac:(lia)) as H.
    rewrite fallback_questions_length in H. lia.
  - apply Nat.eqb_neq in E.
    pose proof (py_take_length n (parsed_questions response) ltac:(lia)) as H. lia.
Qed.

(** X4.  For a positive count [generate_quiz_questions] never returns an empty
    quiz, whatever the text-generation call answers: the result has between
    1 and [n] questions. *)
Theorem generate_quiz_questions_never_empty
    (api : string -> option string) (topic difficulty : string) (n : Z) :
  1 <= n ->
  (1 <= length (generate_quiz_questions api topic difficulty n))%nat
  /\ Z.of_nat (length (generate_quiz_questions api topic difficulty n)) <= n.
Proof.
  intros Hn.
  assert (F : forall t, (1 <= length (_generate_fallback_quiz t n))%nat
                        /\ Z.of_nat (length (_generate_fallback_quiz t n)) <= n).
  { intros t. unfold _generate_fallback_quiz.
    pose proof (py_take_length n (fallback_questions t) ltac:(lia)) as H.
    rewrite fallback_questions_length in H. lia. }
  unfold generate_quiz_questions.
  destruct (api _) as [response|]; [|apply F].
  destruct (truthy (PStr response)); [|apply F].
  split; [now apply _parse_quiz_response_nonempty|].
  apply _parse_quiz_response_length. lia.
Qed.

Lemma generate_quiz_questions_never_empty_witness :
  (1 <= length (generate_quiz_questions (fun _ => None) "Algebra" "easy" 3))%nat
  /\ Z.of_nat (length (generate_quiz_questions (fun _ => None) "Algebra" "easy" 3))
     <= 3.
Proof.
  exact (generate_quiz_questions_never_empty (fun _ => None) "Algebra" "easy" 3
           ltac:(lia)).
Defined.

(** ** Round trip of the response format *)

Lemma contains_char_cons (x c : ascii) (s : string) :
  PyStr.contains (String x EmptyString) (String c s)
  = Ascii.eqb c x || PyStr.contains (String x EmptyString) s.
Proof.
  cbn [PyStr.contains String.prefix].
  destruct (ascii_dec x c) as [<-|N].
  - rewrite Ascii.eqb_refl. now destruct s.
  - assert (Ascii.eqb c x = false) as -> by (apply Ascii.eqb_neq; congruence).
    reflexivity.
Qed.

Lemma single_line_cons (c : ascii) (s : string) :
  single_line (String c s) ->
  Ascii.eqb c PyStr.newline = false /\ single_line s.
Proof.
  unfold single_line. rewrite contains_char_cons.
  intros H. now apply orb_false_iff in H.
Qed.

Lemma split_lines_single (s : string) :
  single_line s -> PyStr.split_lines s = [s].
Proof.
  induction s as [|c s IH]; intros H; [reflexivity|].
  apply single_line_cons in H as [Hc Hs].
  cbn [PyStr.split_lines]. rewrite Hc, (IH Hs). reflexivity.
Qed.

Lemma append_cons (c : ascii) (a b : string) :
  String c a +:+ b = String c (a +:+ b).
Proof. reflexivity. Qed.

Lemma split_lines_app (s rest : string) :
  single_line s ->
  PyStr.split_lines (s +:+ String PyStr.newline rest)
  = s :: PyStr.split_lines rest.
Proof.
  induction s as [|c s IH]; intros H.
  - change (EmptyString +:+ String PyStr.newline rest)
      with (String PyStr.newline rest).
    cbn [PyStr.split_lines]. now rewrite ?Ascii.eqb_refl.
  - apply single_line_cons in H as [Hc Hs].
    rewrite append_cons. cbn [PyStr.split_lines].
    rewrite Hc, (IH Hs). reflexivity.
Qed.

Lemma split_lines_text (lines : list string) :
  lines <> [] -> Forall single_line lines ->
  PyStr.split_lines (text_of_lines lines) = lines.
Proof.
  intros Hne H. induction H as [|x rest Hx Hrest IH]; [congruence|].
  destruct rest as [|y rest].
  - apply split_lines_single, Hx.
  - change (text_of_lines (x :: y :: rest))
      with (x +:+ String PyStr.newline (text_of_lines (y :: rest))).
    rewrite split_lines_app by exact Hx. f_equal. now apply IH.
Qed.

Lemma single_line_app (a b : string) :
  single_line a -> single_line b -> single_line (a +:+ b).
Proof.
  induction a as [|c a IH]; intros Ha Hb; [exact Hb|].
  apply single_line_cons in Ha as [Hc Ha].
  unfold single_line. rewrite append_cons, contains_char_cons, Hc.
  exact (IH Ha Hb).
Qed.

Lemma rstrip_app (a b : string) :
  PyStr.rstrip b = b -> b <> EmptyString -> PyStr.rstrip (a +:+ b) = a +:+ b.
Proof.
  intros Hb Hne. induction a as [|c a IH]; [exact Hb|].
  rewrite append_cons. cbn [PyStr.rstrip]. rewrite IH.
  destruct (a +:+ b) eqn:E; [|reflexivity].
  destruct a; [contradiction | discriminate].
Qed.

(** A line that starts with a visible character and ends with a trimmed,
    non-empty text is left alone by [strip]. *)
Lemma strip_app (c : ascii) (p t : string) :
  PyStr.is_space c = false -> PyStr.rstrip t = t -> t <> EmptyString ->
  PyStr.strip (String c p +:+ t) = String c p +:+ t.
Proof.
  intros Hc Ht Hne. unfold PyStr.strip.
  rewrite append_cons. cbn [PyStr.lstrip]. rewrite Hc.
  exact (rstrip_app (String c p) t Ht Hne).
Qed.

Lemma strip_space (t : string) :
  trimmed t -> PyStr.strip (String " " t) = t.
Proof.
  intros [Hl Hr]. unfold PyStr.strip.
  change (PyStr.lstrip (String " " t)) with (PyStr.lstrip t).
  now rewrite Hl.
Qed.

Lemma remove_from_absent (old s : string) :
  PyStr.contains old s = false -> PyStr.remove_from old 0 s = s.
Proof.
  induction s as [|c s IH]; intros H; [reflexivity|].
  cbn [PyStr.contains] in H. apply orb_false_iff in H as [Hp Hs].
  cbn [PyStr.remove_from]. now rewrite Hp, (IH Hs).
Qed.

Lemma remove_from_skip (old a s : string) :
  PyStr.remove_from old (String.length a) (a +:+ s) = PyStr.remove_from old 0 s.
Proof. induction a as [|c a IH]; [reflexivity | exact IH]. Qed.

(** [replace] drops the marker at the head of a line and leaves a rest
    alone that does not contain it. *)
Lemma remove_marker (c : ascii) (old t : string) :
  String.prefix (String c old) (String " " t) = false ->
  PyStr.contains (String c old) t = false ->
  PyStr.remove (String c old) (String c old +:+ String " " t) = String " " t.
Proof.
  intros Hsp Habs. unfold PyStr.remove.
  rewrite (append_cons c old). cbn [PyStr.remove_from].
  rewrite <- (append_cons c old), prefix_app.
  change (String.length (String c old) - 1)%nat with (S (String.length old) - 1)%nat.
  replace (S (String.length old) - 1)%nat with (String.length old) by lia.
  rewrite remove_from_skip. cbn [PyStr.remove_from]. rewrite Hsp.
  now rewrite remove_from_absent.
Qed.

Lemma question_line_facts (t : string) :
  t <> EmptyString -> line_text t -> PyStr.contains "Question:" t = false ->
  let line := PyStr.strip ("Question: " +:+ t) in
  PyStr.startswith "Question:" line = true
  /\ PyStr.strip (PyStr.remove "Question:" line) = t.
Proof.
  intros Hne [_ Ht] Habs line. subst line.
  change ("Question: " +:+ t) with ("Question:" +:+ String " " t).
  rewrite (strip_app "Q" "uestion:" (String " " t)); [| reflexivity | | discriminate].
  2:{ apply (rstrip_app " " t); [apply Ht | exact Hne]. }
  split; [apply prefix_app|].
  rewrite remove_marker by (reflexivity || exact Habs).
  now apply strip_space.
Qed.

Lemma option_line_facts (letter t : string) :
  In letter option_letters -> line_text t ->
  let line := PyStr.strip (letter +:+ ") " +:+ t) in
  PyStr.startswith "Question:" line = false
  /\ is_option_line line = true
  /\ PyStr.first_char line = letter
  /\ PyStr.strip (PyStr.drop 2 line) = t.
Proof.
  intros Hl [_ Ht] line. subst line.
  assert (G : forall c : ascii,
             PyStr.is_space c = false ->
             is_option_line (String c ")") = true ->
             let line := PyStr.strip (String c EmptyString +:+ ") " +:+ t) in
             PyStr.startswith "Question:" line = false
             /\ is_option_line line = true
             /\ PyStr.first_char line = String c EmptyString
             /\ PyStr.strip (PyStr.drop 2 line) = t).
  { intros c Hc Ho line. subst line.
    destruct t as [|c0 t].
    - change (String c EmptyString +:+ ") " +:+ EmptyString) with (String c ") ").
      unfold PyStr.strip. cbn [PyStr.lstrip]. rewrite Hc.
      change (PyStr.rstrip (String c ") ")) with (String c ")").
      repeat split; try reflexivity; try exact Ho.
      unfold PyStr.startswith. cbn [String.prefix].
      destruct (ascii_dec "Q" c); reflexivity.
    - change (String c EmptyString +:+ ") " +:+ String c0 t)
        with (String c ")" +:+ String " " (String c0 t)).
      rewrite (strip_app c ")" (String " " (String c0 t)));
        [| exact Hc | | discriminate].
      2:{ apply (rstrip_app " " (String c0 t)); [apply Ht | discriminate]. }
      repeat split.
      + unfold PyStr.startswith. rewrite append_cons. cbn [String.prefix].
        destruct (ascii_dec "Q" c); reflexivity.
      + revert Ho. unfold is_option_line, PyStr.startswith.
        rewrite append_cons. cbn [String.prefix].
        repeat match goal with
               | |- context [ascii_dec ?a c] => destruct (ascii_dec a c)
               end; try reflexivity; intros; try discriminate.
      + change (PyStr.drop 2 (String c ")" +:+ String " " (String c0 t)))
          with (String " " (String c0 t)).
        now apply strip_space. }
  unfold option_letters in Hl. simpl in Hl.
  destruct Hl as [<-|[<-|[<-|[<-|[]]]]]; apply G; reflexivity.
Qed.

Lemma answer_line_facts (t : string) :
  line_text t -> PyStr.contains "Correct Answer:" t = false ->
  let line := PyStr.strip ("Correct Answer: " +:+ t) in
  PyStr.startswith "Question:" line = false
  /\ is_option_line line = false
  /\ PyStr.startswith "Correct Answer:" line = true
  /\ PyStr.strip (PyStr.remove "Correct Answer:" line) = t.
Proof.
  intros [_ Ht] Habs line. subst line.
  destruct t as [|c0 t]; [vm_compute; auto|].
  change ("Correct Answer: " +:+ String c0 t)
    with ("Correct Answer:" +:+ String " " (String c0 t)).
  rewrite (strip_app "C" "orrect Answer:" (String " " (String c0 t)));
    [| reflexivity | | discriminate].
  2:{ apply (rstrip_app " " (String c0 t)); [apply Ht | discriminate]. }
  repeat split; try reflexivity.
  rewrite remove_marker by (reflexivity || exact Habs).
  now apply strip_space.
Qed.

Lemma explanation_line_facts (t : string) :
  line_text t -> PyStr.contains "Explanation:" t = false ->
  let line := PyStr.strip ("Explanation: " +:+ t) in
  PyStr.startswith "Question:" line = false
  /\ is_option_line line = false
  /\ PyStr.startswith "Correct Answer:" line = false
  /\ PyStr.startswith "Explanation:" line = true
  /\ PyStr.strip (PyStr.remove "Explanation:" line) = t.
Proof.
  intros [_ Ht] Habs line. subst line.
  destruct t as [|c0 t]; [vm_compute; auto 6|].
  change ("Explanation: " +:+ String c0 t)
    with ("Explanation:" +:+ String " " (String c0 t)).
  rewrite (strip_app "E" "xplanation:" (String " " (String c0 t)));
    [| reflexivity | | discriminate].
  2:{ apply (rstrip_app " " (String c0 t)); [apply Ht | discriminate]. }
  repeat split; try reflexivity.
  rewrite remove_marker by (reflexivity || exact Habs).
  now apply strip_space.
Qed.

Lemma scan_line_question_text (st : scan_state) (t : string) :
  t <> EmptyString -> line_text t -> PyStr.contains "Question:" t = false ->
  scan_line st ("Question: " +:+ t)
  = {| questions :=
         if truthy (PDict (current_question st))
         then questions st ++ [current_question st] else questions st;
       current_question :=
         [ ("question", PStr t); ("options", PDict []);
           ("correct_answer", PStr ""); ("explanation", PStr "") ] |}.
Proof.
  intros Hne Ht Habs.
  destruct (question_line_facts t Hne Ht Habs) as [Q1 Q2].
  unfold scan_line. cbv zeta. now rewrite Q1, Q2.
Qed.

Lemma scan_line_option_text (st : scan_state) (letter t : string) (opts : pydict) :
  In letter option_letters -> line_text t ->
  dict_get "options" (current_question st) = Some (PDict opts) ->
  scan_line st (letter +:+ ") " +:+ t)
  = {| questions := questions st;
       current_question :=
         dict_set "options" (PDict (dict_set letter (PStr t) opts))
                  (current_question st) |}.
Proof.
  intros Hl Ht Hopts.
  destruct (option_line_facts letter t Hl Ht) as (O1 & O2 & O3 & O4).
  unfold scan_line. cbv zeta. now rewrite O1, O2, O3, O4, Hopts.
Qed.

Lemma scan_line_answer_text (st : scan_state) (t : string) :
  line_text t -> PyStr.contains "Correct Answer:" t = false ->
  scan_line st ("Correct Answer: " +:+ t)
  = {| questions := questions st;
       current_question :=
         dict_set "correct_answer" (PStr t) (current_question st) |}.
Proof.
  intros Ht Habs.
  destruct (answer_line_facts t Ht Habs) as (A1 & A2 & A3 & A4).
  unfold scan_line. cbv zeta. now rewrite A1, A2, A3, A4.
Qed.

Lemma scan_line_explanation_text (st : scan_state) (t : string) :
  line_text t -> PyStr.contains "Explanation:" t = false ->
  scan_line st ("Explanation: " +:+ t)
  = {| questions := questions st;
       current_question :=
         dict_set "explanation" (PStr t) (current_question st) |}.
Proof.
  intros Ht Habs.
  destruct (explanation_line_facts t Ht Habs) as (E1 & E2 & E3 & E4 & E5).
  unfold scan_line. cbv zeta. now rewrite E1, E2, E3, E4, E5.
Qed.

(** The seven lines of an item close the record that was open and leave
    the record of the item open. *)
Lemma scan_item (st : scan_state) (it : quiz_item) :
  item_ok it ->
  fold_left scan_line (item_lines it) st
  = {| questions :=
         if truthy (PDict (current_question st))
         then questions st ++ [current_question st] else questions st;
       current_question := item_record it |}.
Proof.
  intros (Hne & Hq & Hqa & Ha & Hb & Hc & Hd & Hans & Hansa & He & Hea).
  unfold item_lines. cbn [fold_left].
  rewrite (scan_line_question_text st _ Hne Hq Hqa).
  rewrite (scan_line_option_text _ "A" (item_a it) []);
    [| simpl; auto | exact Ha | reflexivity].
  rewrite (scan_line_option_text _ "B" (item_b it) [("A", PStr (item_a it))]);
    [| simpl; auto | exact Hb | reflexivity].
  rewrite (scan_line_option_text _ "C" (item_c it)
             [("A", PStr (item_a it)); ("B", PStr (item_b it))]);
    [| simpl; auto | exact Hc | reflexivity].
  rewrite (scan_line_option_text _ "D" (item_d it)
             [("A", PStr (item_a it)); ("B", PStr (item_b it));
              ("C", PStr (item_c it))]);
    [| simpl; auto | exact Hd | reflexivity].
  rewrite (scan_line_answer_text _ _ Hans Hansa).
  rewrite (scan_line_explanation_text _ _ He Hea).
  reflexivity.
Qed.

Lemma item_lines_single (it : quiz_item) :
  item_ok it -> Forall single_line (item_lines it).
Proof.
  intros (_ & [Hq _] & _ & [Ha _] & [Hb _] & [Hc _] & [Hd _] & [Hans _] & _
          & [He _] & _).
  unfold item_lines.
  repeat (apply Forall_cons; split; [now apply single_line_app|]).
  apply Forall_nil_2.
Qed.

(** The state of the scan after the lines of some items: all the records
    but the last are closed, the last one is open. *)
Lemma scan_items (items : list quiz_item) :
  Forall item_ok items ->
  fold_left scan_line (concat (map item_lines items)) scan_init
  = match rev items with
    | [] => scan_init
    | it :: before =>
        {| questions := map item_record (rev before);
           current_question := item_record it |}
    end.
Proof.
  induction items as [|it items IH] using rev_ind; intros H; [reflexivity|].
  apply Forall_app in H as [H Hit]. apply Forall_cons in Hit as [Hit _].
  rewrite map_app, concat_app, fold_left_app, (IH H), rev_app_distr.
  cbn [map concat rev app]. rewrite app_nil_r, (scan_item _ it Hit).
  destruct (rev items) as [|it' before] eqn:E.
  - reflexivity.
  - cbn [current_question questions truthy item_record rev].
    now rewrite map_app.
Qed.

Lemma parsed_questions_of_items (items : list quiz_item) :
  Forall item_ok items ->
  parsed_questions (response_of_items items) = map item_record items.
Proof.
  intros H. unfold parsed_questions, response_of_items.
  assert (E : scan_lines (PyStr.split_lines
                            (text_of_lines (concat (map item_lines items))))
              = fold_left scan_line (concat (map item_lines items)) scan_init).
  { destruct items as [|it items]; [reflexivity|].
    rewrite split_lines_text; [reflexivity | |].
    - apply Forall_cons in H as [(_ & _) _]. discriminate.
    - apply Forall_concat, Forall_map.
      eapply Forall_impl; [exact H|]. exact item_lines_single. }
  rewrite E, (scan_items items H).
  destruct (rev items) as [|it before] eqn:Er.
  - apply (f_equal (@rev _)) in Er. rewrite rev_involutive in Er. now subst.
  - apply (f_equal (@rev _)) in Er. rewrite rev_involutive in Er. subst items.
    cbn [rev] in *. rewrite Forall_app, Forall_cons in H.
    destruct H as [_ [(Hne & _) _]].
    unfold flush_last. cbn [current_question questions].
    assert (has_question (item_record it) = true) as ->.
    { unfold has_question, item_record. cbn [dict_get String.eqb Ascii.eqb Bool.eqb].
      simpl. destruct (item_question it); [contradiction | reflexivity]. }
    cbn [truthy item_record andb]. now rewrite map_app.
Qed.

(** X5.  A response written in the format the prompt asks for is read back
    record by record: parsing the lines of the items gives their records,
    cut to the requested number. *)
Theorem formatted_response_round_trip (items : list quiz_item) (n : Z) :
  Forall item_ok items -> items <> [] ->
  _parse_quiz_response (response_of_items items) n
  = py_take n (map item_record items).
Proof.
  intros H Hne. unfold _parse_quiz_response.
  rewrite (parsed_questions_of_items items H).
  destruct items as [|it items]; [contradiction | reflexivity].
Qed.

Lemma formatted_response_round_trip_witness :
  _parse_quiz_response (response_of_items [sample_item]) 5
  = [item_record sample_item].
Proof.
  assert (H : Forall item_ok [sample_item]).
  { constructor; [|constructor].
    unfold item_ok, line_text, single_line, trimmed.
    repeat split; try reflexivity. discriminate. }
  exact (formatted_response_round_trip [sample_item] 5 H ltac:(discriminate)).
Defined.

(** ** A response that repeats the prompt *)

Lemma string_append_assoc (a b c : string) :
  (a +:+ b) +:+ c = a +:+ (b +:+ c).
Proof.
  induction a as [|x a IH]; [reflexivity|].
  rewrite !append_cons. now rewrite IH.
Qed.

Lemma split_lines_text_app (lines : list string) (rest : string) :
  Forall single_line lines ->
  PyStr.split_lines (text_of_lines lines +:+ String PyStr.newline rest)
  = match lines with
    | [] => EmptyString :: PyStr.split_lines rest
    | _ => lines ++ PyStr.split_lines rest
    end.
Proof.
  intros H. induction H as [|x l Hx Hl IH].
  - exact (split_lines_app EmptyString rest eq_refl).
  - destruct l as [|y l].
    + exact (split_lines_app x rest Hx).
    + change (text_of_lines (x :: y :: l))
        with (x +:+ String PyStr.newline (text_of_lines (y :: l))).
      rewrite (string_append_assoc x). rewrite append_cons.
      rewrite split_lines_app by exact Hx. now rewrite IH.
Qed.

Lemma string_of_uint_single (d : Decimal.uint) :
  single_line (NilEmpty.string_of_uint d).
Proof.
  unfold single_line.
  induction d; cbn [NilEmpty.string_of_uint];
    [reflexivity | rewrite contains_char_cons; exact IHd ..].
Qed.

Lemma of_Z_single (z : Z) : single_line (PyStr.of_Z z).
Proof.
  unfold PyStr.of_Z, NilZero.string_of_int, NilZero.string_of_uint.
  assert (G : forall d, single_line match d with
                                    | Decimal.Nil => "0"
                                    | _ => NilEmpty.string_of_uint d
                                    end).
  { intros d. pose proof (string_of_uint_single d). now destruct d. }
  destruct (Z.to_int z) as [d|d]; [apply G|].
  unfold single_line. rewrite contains_char_cons. apply G.
Qed.

Lemma prompt_lines_single (topic difficulty : string) (n : Z) :
  single_line topic -> single_line difficulty ->
  Forall single_line (prompt_lines topic difficulty n).
Proof.
  intros Ht Hd. pose proof (of_Z_single n) as Hn. unfold prompt_lines.
  repeat (apply Forall_cons; split;
          [repeat (apply single_line_app; try assumption); reflexivity|]).
  apply Forall_nil_2.
Qed.

Lemma prompt_text (topic difficulty : string) (n : Z) :
  _create_quiz_prompt topic difficulty n
  = text_of_lines (prompt_lines topic difficulty n)
    +:+ String PyStr.newline EmptyString.
Proof.
  unfold _create_quiz_prompt, prompt_lines, text_of_lines.
  cbn [PyStr.join]. rewrite !string_append_assoc. reflexivity.
Qed.

(** The first two visible characters of a line survive [strip]. *)
Lemma strip_head (c1 c2 : ascii) (s : string) :
  PyStr.is_space c1 = false -> PyStr.is_space c2 = false ->
  exists r, PyStr.strip (String c1 (String c2 s)) = String c1 (String c2 r).
Proof.
  intros H1 H2. unfold PyStr.strip. cbn [PyStr.lstrip]. rewrite H1.
  cbn [PyStr.rstrip]. rewrite H2.
  destruct (PyStr.rstrip s); eauto.
Qed.

Lemma unrecognised_by_head (c1 c2 : ascii) (s : string) :
  PyStr.is_space c1 = false -> PyStr.is_space c2 = false ->
  (forall r,
      PyStr.startswith "Question:" (String c1 (String c2 r))
      || is_option_line (String c1 (String c2 r))
      || PyStr.startswith "Correct Answer:" (String c1 (String c2 r))
      || PyStr.startswith "Explanation:" (String c1 (String c2 r)) = false) ->
  recognised (String c1 (String c2 s)) = false.
Proof.
  intros H1 H2 H. unfold recognised. cbv zeta.
  destruct (strip_head c1 c2 s H1 H2) as [r ->]. apply H.
Qed.

Lemma prompt_lines_unrecognised (topic difficulty : string) (n : Z) :
  recognised ("Generate " +:+ PyStr.of_Z n
                +:+ " multiple choice questions about " +:+ topic +:+ " at "
                +:+ difficulty +:+ " difficulty level.") = false
  /\ recognised ("Topic: " +:+ topic) = false
  /\ recognised ("Difficulty: " +:+ difficulty) = false
  /\ recognised ("Number of questions: " +:+ PyStr.of_Z n) = false.
Proof.
  repeat split.
  - apply (unrecognised_by_head "G" "e"); reflexivity.
  - apply (unrecognised_by_head "T" "o"); reflexivity.
  - apply (unrecognised_by_head "D" "i"); reflexivity.
  - apply (unrecognised_by_head "N" "u"); reflexivity.
Qed.

(** The lines of the prompt leave the format template as the open
    record. *)
Lemma scan_prompt_lines (topic difficulty : string) (n : Z) :
  fold_left scan_line (prompt_lines topic difficulty n) scan_init
  = {| questions := []; current_question := template_record |}.
Proof.
  destruct (prompt_lines_unrecognised topic difficulty n) as (H1 & H2 & H3 & H4).
  assert (B : fold_left scan_line
                [ ""; "Format each question exactly as follows:";
                  "Question: [Question text]"; "A) [Option A]"; "B) [Option B]  ";
                  "C) [Option C]"; "D) [Option D]";
                  "Correct Answer: [A, B, C, or D]";
                  "Explanation: [Brief explanation of the correct answer]"; "" ]
                scan_init
              = {| questions := []; current_question := template_record |})
    by (vm_compute; reflexivity).
  unfold prompt_lines.
  match goal with
  | |- fold_left scan_line (?l1 :: _) _ = _ =>
      change (fold_left scan_line
                ([ ""; "Format each question exactly as follows:";
                   "Question: [Question text]"; "A) [Option A]"; "B) [Option B]  ";
                   "C) [Option C]"; "D) [Option D]";
                   "Correct Answer: [A, B, C, or D]";
                   "Explanation: [Brief explanation of the correct answer]"; "" ]
                 ++ [ "Topic: " +:+ topic; "Difficulty: " +:+ difficulty;
                      "Number of questions: " +:+ PyStr.of_Z n; ""; "Questions:" ])
                (scan_line scan_init l1)
              = {| questions := []; current_question := template_record |})
  end.
  rewrite (scan_line_unrecognised _ _ H1), fold_left_app, B.
  cbn [fold_left].
  rewrite (scan_line_unrecognised _ _ H2), (scan_line_unrecognised _ _ H3),
    (scan_line_unrecognised _ _ H4).
  vm_compute. reflexivity.
Qed.

Lemma scan_line_first_question (text : string) (st : scan_state) (raw : string) :
  first_question_is text st -> first_question_is text (scan_line st raw).
Proof.
  unfold first_question_is, scan_line. intros H.
  destruct (PyStr.startswith "Question:" (PyStr.strip raw)).
  { cbn [questions current_question].
    destruct (questions st) as [|q qs].
    - destruct (current_question st) as [|entry cur]; [discriminate|]. exact H.
    - now destruct (truthy (PDict (current_question st))). }
  destruct (is_option_line (PyStr.strip raw)).
  { destruct (dict_get "options" (current_question st)) as [[| | |opts]|];
      try exact H.
    cbn [questions current_question]. destruct (questions st); [|exact H].
    now rewrite dict_get_set_ne by discriminate. }
  destruct (PyStr.startswith "Correct Answer:" (PyStr.strip raw)).
  { cbn [questions current_question]. destruct (questions st); [|exact H].
    now rewrite dict_get_set_ne by discriminate. }
  destruct (PyStr.startswith "Explanation:" (PyStr.strip raw)); [|exact H].
  cbn [questions current_question]. destruct (questions st); [|exact H].
  now rewrite dict_get_set_ne by discriminate.
Qed.

Lemma flush_last_first_question (text : string) (st : scan_state) :
  text <> EmptyString -> first_question_is text st ->
  exists q rest,
    flush_last st = q :: rest /\ dict_get "question" q = Some (PStr text).
Proof.
  unfold first_question_is, flush_last, has_question. intros Hne H.
  destruct (questions st) as [|q qs].
  - rewrite H. destruct (current_question st) as [|entry cur]; [discriminate|].
    assert (truthy (PStr text) = true) as ->
      by (destruct text; [contradiction | reflexivity]).
    cbn [truthy andb app]. eauto.
  - destruct (_ && _); cbn [app]; eauto.
Qed.

(** X6.  Text-generation models return the prompt followed by their
    continuation.  On such a response the quiz starts with the format
    template of the prompt itself: whatever the continuation, the first
    question returned is ["[Question text]"]; with nothing after the prompt
    the quiz is the template record alone, not the fallback quiz. *)
Theorem echoed_prompt_gives_template_question
    (api : string -> option string) (topic difficulty : string) (n : Z)
    (continuation : string) :
  single_line topic -> single_line difficulty -> 1 <= n ->
  api (_create_quiz_prompt topic difficulty n)
  = Some (_create_quiz_prompt topic difficulty n +:+ continuation) ->
  (exists q rest,
      generate_quiz_questions api topic difficulty n = q :: rest
      /\ dict_get "question" q = Some (PStr "[Question text]"))
  /\ (continuation = EmptyString ->
      generate_quiz_questions api topic difficulty n = [template_record]).
Proof.
  intros Ht Hd Hn Hapi.
  assert (Hscan : scan_lines (PyStr.split_lines
                    (_create_quiz_prompt topic difficulty n +:+ continuation))
                  = fold_left scan_line (PyStr.split_lines continuation)
                      {| questions := []; current_question := template_record |}).
  { rewrite prompt_text, string_append_assoc, append_cons.
    change (EmptyString +:+ continuation) with continuation.
    rewrite split_lines_text_app by now apply prompt_lines_single.
    change (match prompt_lines topic difficulty n with
            | [] => EmptyString :: PyStr.split_lines continuation
            | _ => prompt_lines topic difficulty n ++ PyStr.split_lines continuation
            end)
      with (prompt_lines topic difficulty n ++ PyStr.split_lines continuation).
    unfold scan_lines. now rewrite fold_left_app, scan_prompt_lines. }
  assert (Htruthy : truthy (PStr (_create_quiz_prompt topic difficulty n
                                  +:+ continuation)) = true) by reflexivity.
  unfold generate_quiz_questions. rewrite Hapi, Htruthy.
  unfold _parse_quiz_response, parsed_questions. rewrite Hscan.
  split.
  - assert (F : forall lines st,
               first_question_is "[Question text]" st ->
               first_question_is "[Question text]" (fold_left scan_line lines st)).
    { induction lines as [|raw lines IH]; intros st H; [exact H|].
      apply IH, scan_line_first_question, H. }
    destruct (flush_last_first_question "[Question text]"
                (fold_left scan_line (PyStr.split_lines continuation)
                   {| questions := []; current_question := template_record |})
                ltac:(discriminate)
                (F (PyStr.split_lines continuation)
                   {| questions := []; current_question := template_record |}
                   eq_refl))
      as (q & rest & -> & Hq).
    cbn [length Nat.eqb]. rewrite py_take_nonneg by lia.
    destruct (Z.to_nat n) as [|k] eqn:Hk; [lia|].
    cbn [firstn]. eauto.
  - intros ->. cbn [PyStr.split_lines fold_left].
    change (flush_last (scan_line {| questions := [];
                                     current_question := template_record |} ""))
      with [template_record].
    cbn [length Nat.eqb]. rewrite py_take_nonneg by lia.
    destruct (Z.to_nat n) as [|k] eqn:Hk; [lia|]. now destruct k.
Qed.

Lemma echoed_prompt_witness :
  exists q rest,
    generate_quiz_questions echo_api "Algebra" "easy" 2 = q :: rest
    /\ dict_get "question" q = Some (PStr "[Question text]").
Proof.
  exact (proj1 (echoed_prompt_gives_template_question echo_api "Algebra" "easy" 2
                  "Question: What is 2+2?" eq_refl eq_refl ltac:(lia) eq_refl)).
Defined.

(** ** The grader, its breakdown and the answer map *)

Lemma score_loop_ext (user_answers user_answers' : gmap Z pyval)
    (rest : list pyval) :
  forall (j c : nat),
    (forall i, (j <= i < j + length rest)%nat ->
               user_answers !! Z.of_nat i = user_answers' !! Z.of_nat i) ->
    score_loop j rest user_answers c = score_loop j rest user_answers' c.
Proof.
  induction rest as [|q rest IH]; intros j c H; simpl; [reflexivity|].
  rewrite <- (H j) by (simpl; lia).
  destruct (py_get q "correct_answer" PNone) as [ca|]; simpl; [|reflexivity].
  destruct (answer_matches _ ca) as [hit|]; simpl; [|reflexivity].
  apply IH. intros i Hi. apply H. simpl. lia.
Qed.

Lemma breakdown_loop_ext (user_answers user_answers' : gmap Z pyval)
    (rest : list pyval) :
  forall (j : nat),
    (forall i, (j <= i < j + length rest)%nat ->
               user_answers !! Z.of_nat i = user_answers' !! Z.of_nat i) ->
    breakdown_loop j rest user_answers = breakdown_loop j rest user_answers'.
Proof.
  induction rest as [|q rest IH]; intros j H; simpl; [reflexivity|].
  unfold breakdown_entry_at. rewrite <- (H j) by (simpl; lia).
  rewrite (IH (S j)) by (intros i Hi; apply H; simpl; lia).
  reflexivity.
Qed.

(** X7.  The grader reads the answer map only at the indices of the questions:
    two maps that agree on [0, len(questions)) give the same result, so
    stale answers at other indices, or under negative keys, change
    nothing. *)
Theorem answers_outside_range_are_ignored
    (now : PyFloat.float) (questions : list pyval)
    (user_answers user_answers' : gmap Z pyval) (start_time : PyFloat.float) :
  (forall i, (i < length questions)%nat ->
             user_answers !! Z.of_nat i = user_answers' !! Z.of_nat i) ->
  calculate_quiz_results now questions user_answers start_time
  = calculate_quiz_results now questions user_answers' start_time.
Proof.
  intros H. unfold calculate_quiz_results, grade, _get_questions_breakdown.
  rewrite (score_loop_ext user_answers user_answers' questions 0 0)
    by (intros i Hi; apply H; lia).
  rewrite (breakdown_loop_ext user_answers user_answers' questions 0)
    by (intros i Hi; apply H; lia).
  reflexivity.
Qed.

Lemma answers_outside_range_are_ignored_witness :
  calculate_quiz_results (PyFloat.of_Z 10) [question_with_key "B"]
    {[ 0 := PStr "b" ]} (PyFloat.of_Z 3)
  = calculate_quiz_results (PyFloat.of_Z 10) [question_with_key "B"]
      (<[ 7 := PStr "a" ]> {[ 0 := PStr "b" ]}) (PyFloat.of_Z 3).
Proof.
  apply answers_outside_range_are_ignored.
  intros i Hi. simpl in Hi. rewrite lookup_insert_ne by lia. reflexivity.
Defined.

Lemma breakdown_entry_at_fields (i : nat) (q : pyval)
    (user_answers : gmap Z pyval) (e : breakdown_entry) :
  breakdown_entry_at i q user_answers = Ok e ->
  exists d,
    q = PDict d
    /\ question_number e = (i + 1)%nat
    /\ question e = default (PStr "") (dict_get "question" d)
    /\ options e = default (PDict []) (dict_get "options" d)
    /\ explanation e = default (PStr "") (dict_get "explanation" d)
    /\ correct_answer e = default (PStr "Unknown") (dict_get "correct_answer" d)
    /\ user_answer e = default (PStr not_answered) (user_answers !! Z.of_nat i).
Proof.
  unfold breakdown_entry_at. destruct q as [| | |d]; simpl; try discriminate.
  destruct (breakdown_is_correct _ _) as [b|]; simpl; [|discriminate].
  intros [= <-]. exists d. simpl.
  repeat split; now destruct (dict_get _ d).
Qed.

(** X8.  The breakdown is all or nothing: it is empty (the error branch, or no
    question) or it has one entry per question.  Entry [i] is numbered
    [i + 1] and repeats the fields of question [i], with [''], [{}] and
    ['Unknown'] for missing keys, and the answer at index [i] or
    "Not answered". *)
Theorem breakdown_mirrors_questions
    (now : PyFloat.float) (questions : list pyval)
    (user_answers : gmap Z pyval) (start_time : PyFloat.float) :
  let r := calculate_quiz_results now questions user_answers start_time in
  (questions_breakdown r = [] \/ length (questions_breakdown r) = length questions)
  /\ forall (i : nat) (e : breakdown_entry),
       questions_breakdown r !! i = Some e ->
       exists d,
         questions !! i = Some (PDict d)
         /\ question_number e = (i + 1)%nat
         /\ question e = default (PStr "") (dict_get "question" d)
         /\ options e = default (PDict []) (dict_get "options" d)
         /\ explanation e = default (PStr "") (dict_get "explanation" d)
         /\ correct_answer e = default (PStr "Unknown") (dict_get "correct_answer" d)
         /\ user_answer e = default (PStr not_answered) (user_answers !! Z.of_nat i).
Proof.
  intros r. subst r. unfold calculate_quiz_results.
  pose proof (grade_inv now questions user_answers start_time) as G.
  destruct (grade now questions user_answers start_time) as [r|err].
  - destruct G as (_ & _ & _ & _ & Gb).
    destruct (breakdown_loop_lookup user_answers questions 0 _ Gb) as [Hlen Hall].
    split; [now right|]. intros i e He.
    assert (Hi : (i < length questions)%nat).
    { rewrite <- Hlen. apply lookup_lt_Some in He. exact He. }
    destruct (lookup_lt_is_Some_2 questions i Hi) as [q Hq].
    destruct (Hall i q Hq) as (e' & He' & Hat).
    assert (e' = e) as -> by congruence.
    destruct (breakdown_entry_at_fields _ _ _ _ Hat) as (d & -> & F).
    exists d. split; [exact Hq | exact F].
  - simpl. split; [now left|]. intros i e He. discriminate.
Qed.

Lemma score_loop_unanswered (user_answers : gmap Z pyval) (rest : list pyval) :
  forall (j c c' : nat),
    (forall i, (j <= i < j + length rest)%nat ->
               user_answers !! Z.of_nat i = None) ->
    score_loop j rest user_answers c = Ok c' -> c' = c.
Proof.
  induction rest as [|q rest IH]; intros j c c' H Hs; simpl in Hs.
  - now injection Hs.
  - rewrite (H j) in Hs by (simpl; lia). simpl in Hs.
    destruct (py_get q "correct_answer" PNone) as [ca|]; simpl in Hs; [|discriminate].
    apply IH in Hs; [exact Hs|]. intros i Hi. apply H. simpl. lia.
Qed.

Lemma breakdown_loop_unanswered (user_answers : gmap Z pyval) (rest : list pyval) :
  forall (j : nat) (l : list breakdown_entry),
    (forall i, (j <= i < j + length rest)%nat ->
               user_answers !! Z.of_nat i = None) ->
    breakdown_loop j rest user_answers = Ok l ->
    Forall (fun e => user_answer e = PStr not_answered /\ is_correct e = false) l.
Proof.
  induction rest as [|q rest IH]; intros j l H Hb; simpl in Hb.
  - injection Hb as <-. constructor.
  - unfold breakdown_entry_at in Hb. rewrite (H j) in Hb by (simpl; lia).
    simpl in Hb.
    destruct (py_get q "correct_answer" (PStr "Unknown")) as [ca|]; simpl in Hb;
      [|discriminate].
    destruct (py_get q "question" (PStr "")) as [qq|]; simpl in Hb; [|discriminate].
    destruct (py_get q "options" (PDict [])) as [qo|]; simpl in Hb; [|discriminate].
    destruct (py_get q "explanation" (PStr "")) as [qe|]; simpl in Hb; [|discriminate].
    destruct (breakdown_loop (S j) rest user_answers) as [es|] eqn:Hes; simpl in Hb;
      [|discriminate].
    injection Hb as <-. constructor; [now split|].
    apply (IH (S j)); [|exact Hes]. intros i Hi. apply H. simpl. lia.
Qed.

Lemma loops_total_on_dicts (user_answers : gmap Z pyval) (rest : list pyval) :
  Forall (fun q => is_dict q = true) rest ->
  forall (j c : nat),
    (forall i, (j <= i < j + length rest)%nat ->
               user_answers !! Z.of_nat i = None) ->
    (exists c', score_loop j rest user_answers c = Ok c')
    /\ (exists l, breakdown_loop j rest user_answers = Ok l).
Proof.
  induction 1 as [|q rest Hq _ IH]; intros j c H; simpl.
  - eauto.
  - destruct q as [| | |d]; try discriminate.
    unfold breakdown_entry_at. rewrite (H j) by (simpl; lia). simpl.
    destruct (IH (S j) c ltac:(intros i Hi; apply H; simpl; lia))
      as [[c' ->] [l ->]].
    simpl. eauto.
Qed.

(** X9.  A quiz submitted without any answer (Scenario B, for any number of
    questions): the score is 0, the percentage is 0.0 and every entry of the
    breakdown reads "Not answered" and is incorrect; when the questions are
    dictionaries nothing raises and the breakdown has one such entry per
    question. *)
Theorem unanswered_quiz_scores_zero
    (now : PyFloat.float) (questions : list pyval)
    (user_answers : gmap Z pyval) (start_time : PyFloat.float) :
  (forall i, (i < length questions)%nat -> user_answers !! Z.of_nat i = None) ->
  let r := calculate_quiz_results now questions user_answers start_time in
  score r = 0%nat
  /\ total_questions r = length questions
  /\ percentage r = PyFloat.zero
  /\ Forall (fun e => user_answer e = PStr not_answered /\ is_correct e = false)
            (questions_breakdown r)
  /\ (Forall (fun q => is_dict q = true) questions ->
      raised (grade now questions user_answers start_time) = false
      /\ length (questions_breakdown r) = length questions).
Proof.
  intros H r. subst r. unfold calculate_quiz_results.
  assert (H' : forall i, (0 <= i < 0 + length questions)%nat ->
                         user_answers !! Z.of_nat i = None)
    by (intros i Hi; apply H; lia).
  pose proof (grade_inv now questions user_answers start_time) as G.
  destruct (grade now questions user_answers start_time) as [r|].
  - destruct G as (Gs & Gt & Gp & _ & Gb).
    apply (score_loop_unanswered user_answers questions 0 0 _ H') in Gs.
    split; [exact Gs|]. split; [exact Gt|]. split.
    { rewrite Gp, Gs. apply evaluated_percentage_zero. }
    split.
    { exact (breakdown_loop_unanswered user_answers questions 0 _ H' Gb). }
    intros _. split; [reflexivity|].
    now destruct (breakdown_loop_lookup user_answers questions 0 _ Gb).
  - simpl. split; [reflexivity|]. split; [apply default_results_total|].
    split; [reflexivity|]. split; [constructor|].
    intros Hd.
    destruct (loops_total_on_dicts user_answers questions Hd 0 0 H')
      as [[c Hc] [l Hl]].
    unfold _get_questions_breakdown in G. rewrite Hc, Hl in G.
    destruct G; discriminate.
Qed.

Lemma unanswered_quiz_scores_zero_witness :
  score (calculate_quiz_results (PyFloat.of_Z 10) three_questions ∅ (PyFloat.of_Z 3))
  = 0%nat
  /\ percentage (calculate_quiz_results (PyFloat.of_Z 10) three_questions ∅
                   (PyFloat.of_Z 3)) = PyFloat.zero
  /\ length (questions_breakdown
               (calculate_quiz_results (PyFloat.of_Z 10) three_questions ∅
                  (PyFloat.of_Z 3))) = 3%nat.
Proof.
  destruct (unanswered_quiz_scores_zero (PyFloat.of_Z 10) three_questions ∅
              (PyFloat.of_Z 3) ltac:(intros i _; apply lookup_empty))
    as (Hs & _ & Hp & _ & Hd).
  split; [exact Hs|]. split; [exact Hp|].
  apply Hd. repeat constructor.
Defined.

(** ** A perfect quiz *)

(** An integer divided by itself is exactly 1.0. *)
Lemma int_truediv_diag (n : nat) :
  (0 < n)%nat ->
  PyFloat.int_truediv (Z.of_nat n) (Z.of_nat n) = Ok (PyFloat.of_Z 1).
Proof.
  intros Hn. destruct n as [|n]; [lia|].
  change (Z.of_nat (S n)) with (Z.pos (Pos.of_succ_nat n)).
  set (p := Pos.of_succ_nat n).
  unfold PyFloat.int_truediv. f_equal.
  unfold PyFloat.div, SFdiv, SFdiv_core_binary.
  rewrite !Z.add_0_r, !Z.sub_diag.
  replace (fexp PyFloat.prec PyFloat.emax 0) with (-53) by reflexivity.
  replace (Z.min (-53) 0) with (-53) by reflexivity.
  replace (0 - -53) with 53 by reflexivity.
  cbv iota. rewrite Z.shiftl_mul_pow2 by lia.
  assert (E : Z.div_eucl (Z.pos p * 2 ^ 53) (Z.pos p) = (2 ^ 53, 0)).
  { transitivity ((Z.pos p * 2 ^ 53) / Z.pos p, (Z.pos p * 2 ^ 53) mod Z.pos p).
    - unfold Z.div, Z.modulo.
      now destruct (Z.div_eucl (Z.pos p * 2 ^ 53) (Z.pos p)).
    - rewrite (Z.mul_comm (Z.pos p)), Z.div_mul, Z.mod_mul by lia. reflexivity. }
  rewrite E.
  unfold new_location. destruct (Z.even (Z.pos p)); reflexivity.
Qed.

Lemma evaluated_percentage_full (n : nat) :
  (0 < n)%nat -> evaluated_percentage n n = PyFloat.of_Z 100.
Proof.
  intros Hn. unfold evaluated_percentage.
  rewrite (proj2 (Nat.ltb_lt 0 n) Hn), (int_truediv_diag n Hn).
  vm_compute. reflexivity.
Qed.

Lemma loops_total_when_counted (user_answers : gmap Z pyval) (rest : list pyval) :
  forall (pre : list pyval) (c : nat),
    (forall k, (k < length rest)%nat ->
               counted (pre ++ rest) user_answers (length pre + k) = true) ->
    (exists c', score_loop (length pre) rest user_answers c = Ok c')
    /\ (exists l, breakdown_loop (length pre) rest user_answers = Ok l).
Proof.
  induction rest as [|q rest IH]; intros pre c H; simpl; [eauto|].
  pose proof (H 0%nat ltac:(simpl; lia)) as H0.
  rewrite Nat.add_0_r, counted_middle in H0.
  destruct q as [| | |d]; try discriminate.
  destruct (user_answers !! Z.of_nat (length pre)) as [[|a| |]|] eqn:Ha;
    try discriminate.
  destruct (dict_get "correct_answer" d) as [[|k| |]|] eqn:Hk; try discriminate.
  assert (IH' : forall c0,
             (exists c', score_loop (S (length pre)) rest user_answers c0 = Ok c')
             /\ (exists l, breakdown_loop (S (length pre)) rest user_answers = Ok l)).
  { intros c0. specialize (IH (pre ++ [PDict d]) c0).
    rewrite length_app, Nat.add_1_r, <- app_assoc in IH. apply IH.
    intros k0 Hk0. specialize (H (S k0) ltac:(simpl; lia)).
    now rewrite Nat.add_succ_r in H. }
  unfold breakdown_entry_at. simpl. rewrite Ha, Hk. simpl.
  unfold answer_matches, breakdown_is_correct. simpl.
  split.
  - destruct (negb (String.eqb a "")); [destruct (negb (String.eqb k ""))|];
      simpl; apply IH'.
  - destruct (IH' c) as [_ [l ->]].
    destruct (negb (String.eqb a not_answered)); simpl; eauto.
Qed.

Lemma filter_all (A : Type) (f : A -> bool) (l : list A) :
  (forall x, In x l -> f x = true) -> List.filter f l = l.
Proof.
  induction l as [|x l IH]; intros H; simpl; [reflexivity|].
  rewrite (H x) by now left. f_equal. apply IH. intros y Hy. apply H. now right.
Qed.

(** X10.  A quiz in which every question is counted as correct: nothing raises,
    the score is the number of questions and, when there is at least one
    question, the percentage is exactly 100.0 whatever that number is
    ([n / n] is 1.0 in floating point, and rounding leaves 100.0). *)
Theorem fully_correct_quiz_scores_100
    (now : PyFloat.float) (questions : list pyval)
    (user_answers : gmap Z pyval) (start_time : PyFloat.float) :
  (0 < length questions)%nat ->
  (forall i, (i < length questions)%nat ->
             counted questions user_answers i = true) ->
  let r := calculate_quiz_results now questions user_answers start_time in
  raised (grade now questions user_answers start_time) = false
  /\ score r = length questions
  /\ total_questions r = length questions
  /\ percentage r = PyFloat.of_Z 100
  /\ length (questions_breakdown r) = length questions.
Proof.
  intros Hlen H r. subst r. unfold calculate_quiz_results.
  destruct (loops_total_when_counted user_answers questions [] 0%nat H)
    as [[c Hc] [l Hl]].
  pose proof (grade_inv now questions user_answers start_time) as G.
  destruct (grade now questions user_answers start_time) as [r|err].
  - destruct G as (Gs & Gt & Gp & _ & Gb).
    pose proof (score_loop_counts user_answers questions [] 0%nat _ Gs) as Hs.
    simpl in Hs. rewrite filter_all, length_seq in Hs
      by (intros x Hx; apply in_seq in Hx; apply H; lia).
    split; [reflexivity|]. split; [exact Hs|]. split; [exact Gt|].
    split; [rewrite Gp, Hs; now apply evaluated_percentage_full|].
    now destruct (breakdown_loop_lookup user_answers questions 0 _ Gb).
  - unfold _get_questions_breakdown in G. simpl in Hc, Hl.
    rewrite Hc, Hl in G. destruct G; discriminate.
Qed.

Lemma fully_correct_quiz_scores_100_witness :
  score (calculate_quiz_results (PyFloat.of_Z 10) three_questions
           three_right_answers (PyFloat.of_Z 3)) = 3%nat
  /\ percentage (calculate_quiz_results (PyFloat.of_Z 10) three_questions
                   three_right_answers (PyFloat.of_Z 3)) = PyFloat.of_Z 100.
Proof.
  destruct (fully_correct_quiz_scores_100 (PyFloat.of_Z 10) three_questions
              three_right_answers (PyFloat.of_Z 3))
    as (_ & Hs & _ & Hp & _).
  - simpl. lia.
  - intros i Hi. simpl in Hi.
    destruct i as [|[|[|i]]]; [reflexivity | reflexivity | reflexivity | lia].
  - split; [exact Hs | exact Hp].
Defined.

(** ** Answer evaluation *)

(** X11.  [evaluate_answer] raises exactly when the question is no dictionary:
    the catch-all handler reads the question again.  On a dictionary it
    always returns; the answer is correct only when the answer and the key
    are strings equal up to case, and the score is 1 exactly when it is;
    a missing key or a value that is no string gives an incorrect
    evaluation with score 0 and [''] for a missing key. *)
Theorem evaluate_answer_outcome (question user_answer : pyval) :
  raised (evaluate_answer question user_answer) = negb (is_dict question)
  /\ forall d, question = PDict d ->
       exists r,
         evaluate_answer question user_answer = Ok r
         /\ ev_is_correct r =
              match user_answer, dict_get "correct_answer" d with
              | PStr a, Some (PStr c) => same_letter a c
              | _, _ => false
              end
         /\ ev_score r = (if ev_is_correct r then 1 else 0)%nat
         /\ ev_correct_answer r = default (PStr "") (dict_get "correct_answer" d)
         /\ ev_explanation r = default (PStr "") (dict_get "explanation" d)
         /\ ev_user_answer r = user_answer.
Proof.
  split.
  - unfold evaluate_answer, evaluate_try.
    destruct user_answer as [|a| |]; destruct question as [| | |d]; try reflexivity;
      destruct (dict_get "correct_answer" d) as [[| | |]|]; reflexivity.
  - intros d ->. unfold evaluate_answer, evaluate_try, same_letter.
    destruct user_answer as [|a| |];
      destruct (dict_get "correct_answer" d) as [[|c| |]|];
      eexists; (split; [reflexivity|]); simpl; repeat split; reflexivity.
Qed.

Lemma breakdown_entry_at_is_correct (i : nat) (d : pydict)
    (user_answers : gmap Z pyval) (e : breakdown_entry) (a c : string) :
  breakdown_entry_at i (PDict d) user_answers = Ok e ->
  dict_get "correct_answer" d = Some (PStr c) ->
  user_answers !! Z.of_nat i = Some (PStr a) ->
  a <> not_answered ->
  is_correct e = same_letter a c /\ correct_answer e = PStr c.
Proof.
  unfold breakdown_entry_at, breakdown_is_correct. intros He Hc Ha Hn.
  simpl in He. rewrite Hc, Ha in He. simpl in He.
  assert (E : String.eqb a not_answered = false) by (now apply String.eqb_neq).
  rewrite E in He. simpl in He. injection He as <-. now split.
Qed.

(** X12.  On a quiz of keyed questions with submitted answers, the entry of the
    breakdown for an answered question carries the verdict of
    [evaluate_answer] on that question and answer, and the question counts
    for the score exactly when [evaluate_answer] scores it 1. *)
Theorem evaluate_answer_agrees_with_grader
    (now : PyFloat.float) (questions : list pyval)
    (user_answers : gmap Z pyval) (start_time : PyFloat.float) :
  Forall keyed_question questions ->
  (forall i v, user_answers !! i = Some v -> submitted_answer v) ->
  forall (i : nat) (q v : pyval),
    questions !! i = Some q ->
    user_answers !! Z.of_nat i = Some v ->
    exists e r,
      questions_breakdown
        (calculate_quiz_results now questions user_answers start_time) !! i = Some e
      /\ evaluate_answer q v = Ok r
      /\ is_correct e = ev_is_correct r
      /\ correct_answer e = ev_correct_answer r
      /\ counted questions user_answers i = ev_is_correct r
      /\ ev_score r = (if counted questions user_answers i then 1 else 0)%nat.
Proof.
  intros Hq Ha i q v Hi Hv.
  assert (Ha' : forall i v, user_answers !! i = Some v -> exists a, v = PStr a).
  { intros j w Hw. destruct (Ha j w Hw) as (a & -> & _). eauto. }
  destruct (score_loop_total user_answers questions Hq Ha' 0%nat 0%nat) as [c Hc].
  destruct (breakdown_loop_total user_answers questions Hq Ha' 0%nat) as [l Hl].
  pose proof (grade_inv now questions user_answers start_time) as G.
  unfold calculate_quiz_results.
  destruct (grade now questions user_answers start_time) as [r|err].
  2:{ unfold _get_questions_breakdown in G. rewrite Hc, Hl in G.
      destruct G; discriminate. }
  destruct G as (_ & _ & _ & _ & Gb).
  destruct (breakdown_loop_lookup user_answers questions 0%nat _ Gb) as [_ Hall].
  destruct (Hall i q Hi) as (e & He & Hat). simpl in Hat.
  rewrite Forall_forall in Hq.
  destruct (Hq q) as (d & k & -> & Hk).
  { apply list_elem_of_lookup. eauto. }
  destruct (Ha _ _ Hv) as (a & -> & Hne & Hns).
  destruct (breakdown_entry_at_is_correct i d user_answers e a k Hat Hk Hv Hns)
    as [Hic Hca].
  exists e. eexists. split; [exact He|].
  unfold evaluate_answer, evaluate_try. rewrite Hk. split; [reflexivity|].
  cbn [ev_is_correct ev_correct_answer ev_score].
  assert (Hcount : counted questions user_answers i = same_letter a k).
  { unfold counted. rewrite Hi, Hv, Hk.
    assert (E2 : String.eqb a "" = false) by (now apply String.eqb_neq).
    rewrite E2. simpl. unfold same_letter.
    destruct (String.eqb k "") eqn:Ek; simpl; [|reflexivity].
    apply String.eqb_eq in Ek. subst k. symmetry. apply String.eqb_neq.
    intros Hu. apply upper_empty in Hu. contradiction. }
  rewrite Hcount. unfold same_letter in *. repeat split; assumption || reflexivity.
Qed.

Lemma evaluate_answer_agrees_with_grader_witness :
  exists e r,
    questions_breakdown
      (calculate_quiz_results (PyFloat.of_Z 10) [question_with_key "B"]
         {[ 0 := PStr "b" ]} (PyFloat.of_Z 3)) !! 0%nat = Some e
    /\ evaluate_answer (question_with_key "B") (PStr "b") = Ok r
    /\ is_correct e = ev_is_correct r
    /\ correct_answer e = ev_correct_answer r
    /\ counted [question_with_key "B"] {[ 0 := PStr "b" ]} 0 = ev_is_correct r
    /\ ev_score r
       = if counted [question_with_key "B"] {[ 0 := PStr "b" ]} 0
         then 1%nat else 0%nat.
Proof.
  apply (evaluate_answer_agrees_with_grader (PyFloat.of_Z 10)
           [question_with_key "B"] {[ 0 := PStr "b" ]} (PyFloat.of_Z 3)).
  - repeat constructor. do 2 eexists. split; reflexivity.
  - intros i v Hv. apply lookup_singleton_Some in Hv as [_ <-].
    exists "b". repeat split; discriminate.
  - reflexivity.
  - reflexivity.
Defined.

(** ** Grades and feedback *)

(** On floats other than NaN, [<=] is "not greater" in the order of the
    ranks. *)
Lemma leb_rank (x y : PyFloat.float) :
  is_nan x = false -> is_nan y = false ->
  (SFleb x y = true <-> ~ rank_lt (float_rank y) (float_rank x)).
Proof.
  unfold SFleb, rank_lt.
  destruct x as [s|s| |s m e], y as [t|t| |t n f]; simpl; try discriminate;
    intros _ _;
    repeat match goal with b : bool |- _ => destruct b end; simpl;
    try (split; [intros _; lia | reflexivity]);
    try (split; [discriminate | intros H; exfalso; apply H; lia]).
  - destruct (Z.compare_spec e f) as [->|H|H];
      [change (Pos.compare_cont Eq m n) with (Pos.compare m n);
       destruct (Pos.compare_spec m n) as [->|Hm|Hm]; simpl | | ];
      try (split; [intros _; lia | reflexivity]);
      try (split; [discriminate | intros H'; exfalso; apply H'; lia]).
  - destruct (Z.compare_spec e f) as [->|H|H];
      [change (Pos.compare_cont Eq m n) with (Pos.compare m n);
       destruct (Pos.compare_spec m n) as [->|Hm|Hm]; simpl | | ];
      try (split; [intros _; lia | reflexivity]);
      try (split; [discriminate | intros H'; exfalso; apply H'; lia]).
Qed.

Lemma leb_not_nan (x y : PyFloat.float) :
  SFleb x y = true -> is_nan x = false /\ is_nan y = false.
Proof. destruct x, y; try discriminate; now split. Qed.

Lemma leb_trans (x y z : PyFloat.float) :
  SFleb x y = true -> SFleb y z = true -> SFleb x z = true.
Proof.
  intros Hxy Hyz.
  destruct (leb_not_nan _ _ Hxy) as [Nx Ny], (leb_not_nan _ _ Hyz) as [_ Nz].
  apply (leb_rank x y Nx Ny) in Hxy. apply (leb_rank y z Ny Nz) in Hyz.
  apply (leb_rank x z Nx Nz). unfold rank_lt in *.
  destruct (float_rank x) as [[a b] c], (float_rank y) as [[a' b'] c'],
           (float_rank z) as [[a'' b''] c'']. lia.
Qed.

(** A threshold passed by [p] is passed by every [q >= p]. *)
Lemma threshold_mono (t : Z) (p q : PyFloat.float) :
  SFleb p q = true ->
  SFleb (PyFloat.of_Z t) p = true -> SFleb (PyFloat.of_Z t) q = true.
Proof. intros Hpq Ht. exact (leb_trans _ _ _ Ht Hpq). Qed.

Ltac threshold_clash Hpq :=
  match goal with
  | Hp : SFleb (PyFloat.of_Z ?t) ?p = true,
    Hq : SFleb (PyFloat.of_Z ?t) ?q = false |- _ =>
      rewrite (threshold_mono t p q Hpq Hp) in Hq; discriminate Hq
  end.

(** X13.  [get_performance_grade] is monotone: a higher percentage never gets a
    lower grade on the scale F, D, D+, C-, ..., A, A+. *)
Theorem get_performance_grade_monotone (p q : PyFloat.float) :
  SFleb p q = true ->
  (grade_rank (get_performance_grade p) <= grade_rank (get_performance_grade q))%nat.
Proof.
  intros Hpq. unfold get_performance_grade.
  repeat match goal with
         | |- context [if SFleb (PyFloat.of_Z ?t) p then _ else _] =>
             destruct (SFleb (PyFloat.of_Z t) p) eqn:?
         end;
    repeat match goal with
           | |- context [if SFleb (PyFloat.of_Z ?t) q then _ else _] =>
               destruct (SFleb (PyFloat.of_Z t) q) eqn:?
           end;
    try threshold_clash Hpq;
    vm_compute; repeat constructor.
Qed.

Lemma get_performance_grade_monotone_witness :
  get_performance_grade (PyFloat.of_Z 85) = "B"
  /\ get_performance_grade (PyFloat.of_Z 91) = "A-"
  /\ (grade_rank (get_performance_grade (PyFloat.of_Z 85))
      <= grade_rank (get_performance_grade (PyFloat.of_Z 91)))%nat.
Proof.
  split; [reflexivity|]. split; [reflexivity|].
  apply get_performance_grade_monotone. reflexivity.
Defined.

Ltac threshold_order p :=
  match goal with
  | Hp : SFleb (PyFloat.of_Z ?a) p = true,
    Hq : SFleb (PyFloat.of_Z ?b) p = false |- _ =>
      rewrite (leb_trans (PyFloat.of_Z b) (PyFloat.of_Z a) p
                 ltac:(vm_compute; reflexivity) Hp) in Hq;
      discriminate Hq
  end.

(** X14.  The level of [get_performance_feedback] goes with the letter of
    [get_performance_grade]: Excellent with the A grades, Good with the B
    grades, Satisfactory with the C grades; the D grades are "Needs
    Improvement", and "Needs Significant Improvement" is always an F.  (An F
    from 60 up to 65 is still "Needs Improvement".)  The colour is
    "success" exactly for the A and B grades. *)
Theorem feedback_level_follows_grade_letter (p : PyFloat.float) :
  let letter := grade_letter (get_performance_grade p) in
  let fb := get_performance_feedback p in
  (level fb = "Excellent" <-> letter = "A")
  /\ (level fb = "Good" <-> letter = "B")
  /\ (level fb = "Satisfactory" <-> letter = "C")
  /\ (letter = "D" -> level fb = "Needs Improvement")
  /\ (level fb = "Needs Significant Improvement" -> letter = "F")
  /\ (color fb = "success" <-> letter = "A" \/ letter = "B").
Proof.
  unfold get_performance_grade, get_performance_feedback, grade_letter.
  repeat match goal with
         | |- context [if SFleb (PyFloat.of_Z ?t) p then _ else _] =>
             destruct (SFleb (PyFloat.of_Z t) p) eqn:?
         end;
    try threshold_order p;
    cbv zeta; cbn [level color PyStr.first_char];
    repeat split; intros; try reflexivity; try discriminate;
    try (left; reflexivity); try (right; reflexivity);
    try match goal with H : _ \/ _ |- _ => destruct H; discriminate end.
Qed.

(** NaN passes no threshold: it is graded F, with the lowest feedback. *)
Lemma nan_is_graded_F :
  get_performance_grade S754_nan = "F"
  /\ level (get_performance_feedback S754_nan) = "Needs Significant Improvement".
Proof. split; reflexivity. Qed.

(** X15.  The results page does not call [get_performance_grade]; its own scale
    is never stricter: the grade it shows is at least the grade of
    [get_performance_grade], it shows A+ for every A grade and an A for
    every B grade, and an F on the page is an F on both scales. *)
Theorem page_grade_not_below_performance_grade (p : PyFloat.float) :
  (grade_rank (get_performance_grade p)
   <= grade_rank (TakeQuizPage.page_grade p))%nat
  /\ (grade_letter (get_performance_grade p) = "A" ->
      TakeQuizPage.page_grade p = "A+")
  /\ (grade_letter (get_performance_grade p) = "B" ->
      TakeQuizPage.page_grade p = "A")
  /\ (TakeQuizPage.page_grade p = "F" -> get_performance_grade p = "F").
Proof.
  unfold get_performance_grade, TakeQuizPage.page_grade, grade_letter.
  repeat match goal with
         | |- context [if SFleb (PyFloat.of_Z ?t) p then _ else _] =>
             destruct (SFleb (PyFloat.of_Z t) p) eqn:?
         end;
    try threshold_order p;
    cbn [PyStr.first_char];
    repeat split; intros; try reflexivity; try discriminate;
    vm_compute; repeat constructor.
Qed.

(** ** Analytics: grouping by topic and by difficulty *)

Lemma topic_acc_of_snoc (scores : list PyFloat.float) (p : PyFloat.float) :
  topic_acc_of (scores ++ [p]) =
    {| acc_total_quizzes := acc_total_quizzes (topic_acc_of scores) + 1;
       acc_total_score := PyFloat.add (acc_total_score (topic_acc_of scores)) p;
       acc_best_score := PyFloat.max (acc_best_score (topic_acc_of scores)) p;
       acc_worst_score := PyFloat.min (acc_worst_score (topic_acc_of scores)) p;
       acc_scores := acc_scores (topic_acc_of scores) ++ [p] |}.
Proof.
  unfold topic_acc_of, PyFloat.sum. cbn [acc_total_quizzes acc_total_score
    acc_best_score acc_worst_score acc_scores].
  rewrite !fold_left_app, length_app. reflexivity.
Qed.

(** After the first loop, the entry of a topic is a function of the scores
    of that topic, and a topic without record has no entry. *)
Lemma fold_topic_add_determined (rest : list history_record) :
  forall (stats : list (string * topic_acc)) (history : list history_record),
    (forall topic,
        dict_get topic stats =
          match topic_scores topic history with
          | [] => None
          | l => Some (topic_acc_of l)
          end) ->
    forall topic,
      dict_get topic (fold_left topic_add rest stats) =
        match topic_scores topic (history ++ rest) with
        | [] => None
        | l => Some (topic_acc_of l)
        end.
Proof.
  induction rest as [|quiz rest IH]; intros stats history Inv topic; simpl.
  - rewrite app_nil_r. apply Inv.
  - replace (history ++ quiz :: rest) with ((history ++ [quiz]) ++ rest)
      by now rewrite <- app_assoc.
    apply IH. clear topic. intros topic.
    rewrite topic_scores_snoc.
    unfold topic_add. fold (topic_of quiz). fold (percentage_of quiz).
    set (t := topic_of quiz). set (p := percentage_of quiz).
    pose proof (Inv t) as It. pose proof (Inv topic) as Itopic.
    unfold dict_mem.
    destruct (dict_get t stats) as [a|] eqn:Ht.
    + rewrite Ht.
      destruct (String.eqb t topic) eqn:E.
      * apply String.eqb_eq in E. subst topic. rewrite dict_get_set_eq.
        destruct (topic_scores t history) as [|s l] eqn:Hs; [discriminate|].
        injection It as ->. cbn [app].
        change (s :: l ++ [p]) with ((s :: l) ++ [p]).
        now rewrite topic_acc_of_snoc.
      * apply String.eqb_neq in E.
        rewrite dict_get_set_ne by congruence. now rewrite app_nil_r.
    + rewrite dict_get_set_eq.
      destruct (String.eqb t topic) eqn:E.
      * apply String.eqb_eq in E. subst topic. rewrite dict_get_set_eq.
        destruct (topic_scores t history) as [|s l] eqn:Hs; [|discriminate].
        reflexivity.
      * apply String.eqb_neq in E.
        rewrite !dict_get_set_ne by congruence. now rewrite app_nil_r.
Qed.

Lemma analyze_topic_performance_lookup (history : list history_record)
    (topic : string) :
  dict_get topic (analyze_topic_performance history) =
    match topic_scores topic history with
    | [] => None
    | l => Some (topic_finish (topic_acc_of l))
    end.
Proof.
  unfold analyze_topic_performance. destruct history as [|quiz rest]; [reflexivity|].
  rewrite dict_get_map.
  rewrite (fold_topic_add_determined (quiz :: rest) [] [] (fun _ => eq_refl) topic).
  simpl app. now destruct (topic_scores topic (quiz :: rest)).
Qed.

Lemma topic_scores_own (topic : string) (history : list history_record) :
  topic_scores topic
    (List.filter (fun quiz => String.eqb (topic_of quiz) topic) history)
  = topic_scores topic history.
Proof.
  unfold topic_scores. f_equal.
  induction history as [|quiz rest IH]; simpl; [reflexivity|].
  destruct (String.eqb (topic_of quiz) topic) eqn:E; simpl; [|exact IH].
  rewrite E. now f_equal.
Qed.

(** X16.  The statistics of a topic depend on the records of that topic alone:
    dropping every other record from the history leaves them unchanged.
    They are the count, the sum, the running maximum from 0, the running
    minimum from 100 and the mean of the scores of the topic, taken in
    history order; a topic has an entry exactly when it has a record. *)
Theorem topic_statistics_depend_on_own_records
    (history : list history_record) (topic : string) :
  dict_get topic (analyze_topic_performance history)
  = dict_get topic
      (analyze_topic_performance
         (List.filter (fun quiz => String.eqb (topic_of quiz) topic) history))
  /\ (dict_get topic (analyze_topic_performance history) = None
      <-> topic_scores topic history = [])
  /\ forall st,
       dict_get topic (analyze_topic_performance history) = Some st ->
       scores st = topic_scores topic history
       /\ total_quizzes st = length (scores st)
       /\ total_score st = PyFloat.sum (scores st)
       /\ best_score st = fold_left PyFloat.max (scores st) PyFloat.zero
       /\ worst_score st = fold_left PyFloat.min (scores st) (PyFloat.of_Z 100)
       /\ average_score st = mean (scores st).
Proof.
  rewrite !analyze_topic_performance_lookup, topic_scores_own.
  split; [reflexivity|]. split.
  - destruct (topic_scores topic history); split; congruence.
  - intros st H. destruct (topic_scores topic history) as [|s l] eqn:Hs;
      [discriminate|].
    injection H as <-. repeat split; reflexivity.
Qed.

Lemma existsb_dict_keys {V : Type} (k : string) (d : list (string * V)) :
  existsb (String.eqb k) (dict_keys d) = dict_mem k d.
Proof.
  unfold dict_mem, dict_keys. induction d as [|[k' v] d IH]; simpl; [reflexivity|].
  destruct (String.eqb k k'); [reflexivity | exact IH].
Qed.

Lemma dict_set_set {V : Type} (k : string) (v v' : V) (d : list (string * V)) :
  dict_set k v' (dict_set k v d) = dict_set k v' d.
Proof.
  induction d as [|[k0 v0] d IH]; simpl.
  - now rewrite String.eqb_refl.
  - destruct (String.eqb k k0) eqn:E; simpl.
    + now rewrite String.eqb_refl.
    + now rewrite E, IH.
Qed.

Lemma dict_keys_map {V W : Type} (f : V -> W) (d : list (string * V)) :
  dict_keys (map (fun entry => (fst entry, f (snd entry))) d) = dict_keys d.
Proof. unfold dict_keys. rewrite map_map. reflexivity. Qed.

(** A step of the first loop appends the topic when it is new and keeps
    the keys otherwise. *)
Lemma topic_add_keys (stats : list (string * topic_acc)) (quiz : history_record) :
  dict_keys (topic_add stats quiz) =
    if existsb (String.eqb (topic_of quiz)) (dict_keys stats)
    then dict_keys stats else dict_keys stats ++ [topic_of quiz].
Proof.
  unfold topic_add. fold (topic_of quiz). set (t := topic_of quiz).
  rewrite existsb_dict_keys. unfold dict_mem.
  destruct (dict_get t stats) as [a|] eqn:Ht.
  - rewrite Ht. rewrite dict_keys_set. unfold dict_mem. now rewrite Ht.
  - rewrite dict_get_set_eq, dict_set_set, dict_keys_set.
    unfold dict_mem. now rewrite Ht.
Qed.

Lemma acc_count_sum_set (k : string) (a' : topic_acc)
    (d : list (string * topic_acc)) :
  (list_sum (map (fun entry => acc_total_quizzes (snd entry)) (dict_set k a' d))
   + match dict_get k d with Some a => acc_total_quizzes a | None => 0 end)%nat
  = (list_sum (map (fun entry => acc_total_quizzes (snd entry)) d)
     + acc_total_quizzes a')%nat.
Proof.
  induction d as [|[k0 a0] d IH]; simpl.
  - lia.
  - destruct (String.eqb k k0); simpl; lia.
Qed.

Lemma topic_add_count (stats : list (string * topic_acc)) (quiz : history_record) :
  list_sum (map (fun entry => acc_total_quizzes (snd entry)) (topic_add stats quiz))
  = S (list_sum (map (fun entry => acc_total_quizzes (snd entry)) stats)).
Proof.
  unfold topic_add. set (t := default "Unknown" (h_topic quiz)).
  unfold dict_mem. destruct (dict_get t stats) as [a|] eqn:Ht.
  - rewrite Ht.
    pose proof (acc_count_sum_set t
      {| acc_total_quizzes := acc_total_quizzes a + 1;
         acc_total_score := PyFloat.add (acc_total_score a)
                              (default PyFloat.zero (h_percentage quiz));
         acc_best_score := PyFloat.max (acc_best_score a)
                             (default PyFloat.zero (h_percentage quiz));
         acc_worst_score := PyFloat.min (acc_worst_score a)
                              (default PyFloat.zero (h_percentage quiz));
         acc_scores := acc_scores a ++ [default PyFloat.zero (h_percentage quiz)] |}
      stats) as H.
    rewrite Ht in H. cbn [acc_total_quizzes] in H. lia.
  - rewrite dict_get_set_eq, dict_set_set.
    match goal with |- context [dict_set t ?v stats] =>
      pose proof (acc_count_sum_set t v stats) as H end.
    rewrite Ht, Nat.add_0_r in H. rewrite H.
    cbn [acc_total_quizzes topic_acc_init]. lia.
Qed.

Lemma first_occurrences_NoDup (keys : list string) :
  List.NoDup (first_occurrences keys).
Proof.
  unfold first_occurrences.
  assert (G : forall seen, List.NoDup seen ->
             List.NoDup (fold_left
               (fun seen k => if existsb (String.eqb k) seen then seen else seen ++ [k])
               keys seen)).
  { induction keys as [|k keys IH]; intros seen H; simpl; [exact H|].
    apply IH. destruct (existsb (String.eqb k) seen) eqn:E; [exact H|].
    apply NoDup_snoc; [exact H|]. intros Hin.
    assert (existsb (String.eqb k) seen = true).
    { apply existsb_exists. exists k. split; [exact Hin | apply String.eqb_refl]. }
    congruence. }
  apply G. constructor.
Qed.

Lemma analyze_topic_performance_keys (history : list history_record) :
  dict_keys (analyze_topic_performance history)
  = first_occurrences (map topic_of history).
Proof.
  assert (K : forall rest stats,
             dict_keys (fold_left topic_add rest stats)
             = fold_left
                 (fun seen k => if existsb (String.eqb k) seen then seen else seen ++ [k])
                 (map topic_of rest) (dict_keys stats)).
  { induction rest as [|quiz rest IH]; intros stats; simpl; [reflexivity|].
    rewrite IH, topic_add_keys. reflexivity. }
  unfold analyze_topic_performance. destruct history as [|quiz rest]; [reflexivity|].
  rewrite dict_keys_map. apply (K (quiz :: rest) []).
Qed.

(** X17.  The mapping of [analyze_topic_performance] lists every topic once, in
    the order in which the topics first occur in the history (a record
    without topic counting as "Unknown"), and the quiz counts of its entries
    add up to the length of the history. *)
Theorem topics_listed_once_in_order_of_first_occurrence
    (history : list history_record) :
  dict_keys (analyze_topic_performance history)
    = first_occurrences (map topic_of history)
  /\ List.NoDup (dict_keys (analyze_topic_performance history))
  /\ quizzes_counted (analyze_topic_performance history) = length history.
Proof.
  assert (C : forall rest stats,
             list_sum (map (fun entry => acc_total_quizzes (snd entry))
                           (fold_left topic_add rest stats))
             = (list_sum (map (fun entry => acc_total_quizzes (snd entry)) stats)
                + length rest)%nat).
  { induction rest as [|quiz rest IH]; intros stats; simpl; [lia|].
    rewrite IH, topic_add_count. lia. }
  split; [apply analyze_topic_performance_keys|]. split.
  - rewrite analyze_topic_performance_keys. apply first_occurrences_NoDup.
  - unfold quizzes_counted, analyze_topic_performance.
    destruct history as [|quiz rest]; [reflexivity|].
    rewrite map_map. cbn [snd total_quizzes topic_finish].
    rewrite (C (quiz :: rest) []). reflexivity.
Qed.

Lemma difficulty_scores_snoc (difficulty : string) (history : list history_record)
    (quiz : history_record) :
  difficulty_scores difficulty (history ++ [quiz]) =
    difficulty_scores difficulty history
      ++ (if String.eqb (difficulty_of quiz) difficulty
          then [percentage_of quiz] else []).
Proof.
  unfold difficulty_scores. rewrite List.filter_app, map_app. simpl.
  now destruct (String.eqb (difficulty_of quiz) difficulty).
Qed.

(** A step of the first loop of [get_difficulty_analysis] is one
    assignment to the entry of the difficulty. *)
Lemma difficulty_add_set (stats : list (string * difficulty_acc))
    (quiz : history_record) :
  difficulty_add stats quiz =
    let a := default {| dacc_total_quizzes := 0; dacc_total_score := PyFloat.zero;
                        dacc_scores := [] |}
                     (dict_get (difficulty_of quiz) stats) in
    dict_set (difficulty_of quiz)
      {| dacc_total_quizzes := dacc_total_quizzes a + 1;
         dacc_total_score := PyFloat.add (dacc_total_score a) (percentage_of quiz);
         dacc_scores := dacc_scores a ++ [percentage_of quiz] |}
      stats.
Proof.
  unfold difficulty_add. fold (difficulty_of quiz). fold (percentage_of quiz).
  unfold dict_mem. destruct (dict_get (difficulty_of quiz) stats) as [a|] eqn:E.
  - now rewrite E.
  - now rewrite dict_get_set_eq, dict_set_set.
Qed.

Lemma fold_difficulty_add_determined (rest : list history_record) :
  forall (stats : list (string * difficulty_acc)) (history : list history_record),
    (forall difficulty,
        dict_get difficulty stats =
          match difficulty_scores difficulty history with
          | [] => None
          | l => Some (difficulty_acc_of l)
          end) ->
    Forall (fun entry => dacc_scores (snd entry) <> []) stats ->
    (forall difficulty,
        dict_get difficulty (fold_left difficulty_add rest stats) =
          match difficulty_scores difficulty (history ++ rest) with
          | [] => None
          | l => Some (difficulty_acc_of l)
          end)
    /\ Forall (fun entry => dacc_scores (snd entry) <> [])
              (fold_left difficulty_add rest stats).
Proof.
  induction rest as [|quiz rest IH]; intros stats history Inv Hne; simpl.
  - rewrite app_nil_r. now split.
  - replace (history ++ quiz :: rest) with ((history ++ [quiz]) ++ rest)
      by now rewrite <- app_assoc.
    apply IH.
    + intros difficulty. rewrite difficulty_scores_snoc, difficulty_add_set.
      cbv zeta. set (t := difficulty_of quiz). set (p := percentage_of quiz).
      pose proof (Inv t) as It. pose proof (Inv difficulty) as Id.
      destruct (String.eqb t difficulty) eqn:E.
      * apply String.eqb_eq in E. subst difficulty. rewrite dict_get_set_eq.
        rewrite It. destruct (difficulty_scores t history) as [|s l]; simpl.
        -- reflexivity.
        -- unfold difficulty_acc_of, PyFloat.sum. simpl.
           rewrite !fold_left_app, length_app. simpl. reflexivity.
      * apply String.eqb_neq in E.
        rewrite dict_get_set_ne by congruence. now rewrite app_nil_r.
    + rewrite difficulty_add_set. cbv zeta.
      apply (dict_set_values (fun a => dacc_scores a <> [])); [|exact Hne].
      simpl. now destruct (dacc_scores _).
Qed.

Lemma difficulty_finish_ok (a : difficulty_acc) :
  dacc_scores a <> [] ->
  exists rate,
    PyFloat.int_truediv
      (Z.of_nat (length (List.filter passed (dacc_scores a))))
      (Z.of_nat (length (dacc_scores a))) = Ok rate
    /\ difficulty_finish a =
         Ok {| d_total_quizzes := dacc_total_quizzes a;
               d_total_score := dacc_total_score a;
               d_scores := dacc_scores a;
               d_average_score :=
                 PyFloat.div (dacc_total_score a)
                             (PyFloat.of_Z (Z.of_nat (dacc_total_quizzes a)));
               success_rate := PyFloat.mul rate (PyFloat.of_Z 100) |}.
Proof.
  intros Hne. unfold difficulty_finish.
  destruct (int_truediv_ok (length (List.filter passed (dacc_scores a)))
              (length (dacc_scores a))) as [rate Hr].
  { destruct (dacc_scores a); [contradiction | simpl; lia]. }
  exists rate. split; [exact Hr|]. now rewrite Hr.
Qed.

Lemma difficulty_finish_all_lookup (l : list (string * difficulty_acc)) :
  Forall (fun entry => dacc_scores (snd entry) <> []) l ->
  exists stats,
    difficulty_finish_all l = Ok stats
    /\ forall k,
         match dict_get k l with
         | Some a => exists s, dict_get k stats = Some s /\ difficulty_finish a = Ok s
         | None => dict_get k stats = None
         end.
Proof.
  induction 1 as [|[k0 a0] l Ha Hl (stats & Hs & Hlook)]; simpl.
  - exists []. split; [reflexivity|]. intros k. reflexivity.
  - destruct (difficulty_finish_ok a0 Ha) as (rate & _ & Hf).
    rewrite Hf, Hs. simpl. eexists. split; [reflexivity|].
    intros k. simpl. destruct (String.eqb k k0).
    + eexists. split; [reflexivity | exact Hf].
    + apply Hlook.
Qed.

(** X18.  [get_difficulty_analysis] never raises: every entry has at least one
    score, so the division for the success rate has a divisor.  A
    difficulty has an entry exactly when it has a record (a record without
    difficulty counting as "medium"); the entry holds the scores of these
    records in history order, their count, sum and mean, and the share of
    the scores that are at least 70, times 100. *)
Theorem get_difficulty_analysis_groups (history : list history_record) :
  exists stats,
    get_difficulty_analysis history = Ok stats
    /\ forall difficulty,
         match difficulty_scores difficulty history with
         | [] => dict_get difficulty stats = None
         | l =>
             exists s rate,
               dict_get difficulty stats = Some s
               /\ d_scores s = l
               /\ d_total_quizzes s = length l
               /\ d_total_score s = PyFloat.sum l
               /\ d_average_score s = mean l
               /\ PyFloat.int_truediv
                    (Z.of_nat (length (List.filter passed l)))
                    (Z.of_nat (length l)) = Ok rate
               /\ success_rate s = PyFloat.mul rate (PyFloat.of_Z 100)
         end.
Proof.
  unfold get_difficulty_analysis. destruct history as [|quiz rest].
  - exists []. split; [reflexivity|]. intros difficulty. reflexivity.
  - destruct (fold_difficulty_add_determined (quiz :: rest) [] []
                (fun _ => eq_refl) (List.Forall_nil _)) as [Hdet Hne].
    destruct (difficulty_finish_all_lookup _ Hne) as (stats & Hs & Hlook).
    exists stats. split; [exact Hs|]. intros difficulty.
    specialize (Hdet difficulty). specialize (Hlook difficulty).
    simpl app in Hdet. rewrite Hdet in Hlook.
    destruct (difficulty_scores difficulty (quiz :: rest)) as [|p l] eqn:El;
      [exact Hlook|].
    destruct Hlook as (s & Hget & Hfin).
    destruct (difficulty_finish_ok (difficulty_acc_of (p :: l))
                ltac:(discriminate)) as (rate & Hr & Hf).
    exists s, rate. split; [exact Hget|].
    rewrite Hf in Hfin. injection Hfin as <-.
    repeat split. exact Hr.
Qed.

Lemma max_cases (a x : PyFloat.float) :
  (PyFloat.max a x = a \/ PyFloat.max a x = x)
  /\ PyFloat.ltb (PyFloat.max a x) a = false
  /\ PyFloat.ltb (PyFloat.max a x) x = false.
Proof.
  unfold PyFloat.max. destruct (PyFloat.ltb a x) eqn:E.
  - split; [now right|]. split; [now apply ltb_asym | apply ltb_irrefl].
  - split; [now left|]. split; [apply ltb_irrefl | exact E].
Qed.

Lemma min_cases (a x : PyFloat.float) :
  (PyFloat.min a x = a \/ PyFloat.min a x = x)
  /\ PyFloat.ltb a (PyFloat.min a x) = false
  /\ PyFloat.ltb x (PyFloat.min a x) = false.
Proof.
  unfold PyFloat.min. destruct (PyFloat.ltb x a) eqn:E.
  - split; [now right|]. split; [now apply ltb_asym | apply ltb_irrefl].
  - split; [now left|]. split; [apply ltb_irrefl | exact E].
Qed.

(** The running maximum from a seed: the seed or an element, below
    neither the seed nor any element. *)
Lemma fold_max_bounds (l : list PyFloat.float) :
  forall a,
    is_nan a = false -> Forall (fun s => is_nan s = false) l ->
    let r := fold_left PyFloat.max l a in
    is_nan r = false
    /\ (r = a \/ In r l)
    /\ PyFloat.ltb r a = false
    /\ forall s, In s l -> PyFloat.ltb r s = false.
Proof.
  induction l as [|x l IH]; intros a Na Hl; simpl.
  - split; [exact Na|]. split; [now left|]. split; [apply ltb_irrefl | intros s []].
  - apply Forall_cons in Hl as [Nx Hl].
    destruct (max_cases a x) as (Hc & Ha & Hx).
    assert (Nm : is_nan (PyFloat.max a x) = false) by (destruct Hc as [->| ->]; assumption).
    destruct (IH (PyFloat.max a x) Nm Hl) as (Nr & Hr & Hra & Hrl).
    split; [exact Nr|]. split; [|split].
    + destruct Hr as [Hr|Hr]; [|now right; right].
      rewrite Hr. destruct Hc as [->| ->]; [now left | now right; left].
    + now apply (ltb_false_trans _ (PyFloat.max a x)).
    + intros s [<-|Hs]; [|now apply Hrl].
      now apply (ltb_false_trans _ (PyFloat.max a x)).
Qed.

Lemma fold_min_bounds (l : list PyFloat.float) :
  forall a,
    is_nan a = false -> Forall (fun s => is_nan s = false) l ->
    let r := fold_left PyFloat.min l a in
    is_nan r = false
    /\ (r = a \/ In r l)
    /\ PyFloat.ltb a r = false
    /\ forall s, In s l -> PyFloat.ltb s r = false.
Proof.
  induction l as [|x l IH]; intros a Na Hl; simpl.
  - split; [exact Na|]. split; [now left|]. split; [apply ltb_irrefl | intros s []].
  - apply Forall_cons in Hl as [Nx Hl].
    destruct (min_cases a x) as (Hc & Ha & Hx).
    assert (Nm : is_nan (PyFloat.min a x) = false) by (destruct Hc as [->| ->]; assumption).
    destruct (IH (PyFloat.min a x) Nm Hl) as (Nr & Hr & Hra & Hrl).
    split; [exact Nr|]. split; [|split].
    + destruct Hr as [Hr|Hr]; [|now right; right].
      rewrite Hr. destruct Hc as [->| ->]; [now left | now right; left].
    + now apply (ltb_false_trans _ (PyFloat.min a x)).
    + intros s [<-|Hs]; [|now apply Hrl].
      now apply (ltb_false_trans _ (PyFloat.min a x)).
Qed.

(** X19.  [best_score] and [worst_score] start from 0 and 100: for scores that
    are numbers, the best score is 0 or one of the scores, is not below 0
    and not below any score; the worst score is 100 or one of the scores,
    is not above 100 and not above any score. *)
Theorem best_and_worst_score_bounds
    (history : list history_record) (topic : string) (st : topic_stats) :
  dict_get topic (analyze_topic_performance history) = Some st ->
  Forall (fun s => is_nan s = false) (scores st) ->
  (best_score st = PyFloat.zero \/ In (best_score st) (scores st))
  /\ PyFloat.ltb (best_score st) PyFloat.zero = false
  /\ (worst_score st = PyFloat.of_Z 100 \/ In (worst_score st) (scores st))
  /\ PyFloat.ltb (PyFloat.of_Z 100) (worst_score st) = false
  /\ forall s, In s (scores st) ->
               PyFloat.ltb (best_score st) s = false
               /\ PyFloat.ltb s (worst_score st) = false.
Proof.
  intros H Hn. rewrite analyze_topic_performance_lookup in H.
  destruct (topic_scores topic history) as [|s0 l] eqn:Hs; [discriminate|].
  injection H as <-. cbn [scores best_score worst_score topic_finish topic_acc_of
    acc_scores acc_best_score acc_worst_score] in *.
  destruct (fold_max_bounds (s0 :: l) PyFloat.zero eq_refl Hn)
    as (_ & Hb1 & Hb2 & Hb3).
  destruct (fold_min_bounds (s0 :: l) (PyFloat.of_Z 100) eq_refl Hn)
    as (_ & Hw1 & Hw2 & Hw3).
  split; [exact Hb1|]. split; [exact Hb2|]. split; [exact Hw1|].
  split; [exact Hw2|]. intros s Hin. split; [now apply Hb3 | now apply Hw3].
Qed.

Lemma best_and_worst_score_bounds_witness :
  exists st,
    dict_get "Algebra" (analyze_topic_performance algebra_history) = Some st
    /\ PyFloat.ltb (best_score st) PyFloat.zero = false
    /\ PyFloat.ltb (PyFloat.of_Z 100) (worst_score st) = false
    /\ (forall s, In s (scores st) ->
                  PyFloat.ltb (best_score st) s = false
                  /\ PyFloat.ltb s (worst_score st) = false).
Proof.
  assert (T : { st | dict_get "Algebra" (analyze_topic_performance algebra_history)
                     = Some st
                     /\ forallb (fun s => negb (is_nan s)) (scores st) = true }).
  { eexists. split; vm_compute; reflexivity. }
  destruct T as (st & Hst & Hn).
  exists st. split; [exact Hst|].
  destruct (best_and_worst_score_bounds algebra_history "Algebra" st Hst)
    as (_ & Hb & _ & Hw & Hall).
  - rewrite forallb_forall in Hn. apply Forall_forall. intros s Hs.
    apply list_elem_of_In in Hs. specialize (Hn s Hs).
    now destruct (is_nan s).
  - split; [exact Hb|]. split; [exact Hw | exact Hall].
Defined.

(** ** Decline and the number of quizzes *)

Lemma sub_diag_not_below (x : PyFloat.float) :
  PyFloat.ltb (PyFloat.sub x x) (PyFloat.of_Z (-10)) = false.
Proof.
  destruct x as [s|s| |s m e].
  - now destruct s.
  - now destruct s.
  - reflexivity.
  - now rewrite sub_diag_finite.
Qed.

Lemma trend_of_short (l : list PyFloat.float) :
  (length l <= 3)%nat ->
  PyFloat.ltb (trend_of l) (PyFloat.of_Z (-10)) = false.
Proof.
  intros H. unfold trend_of. destruct (1 <? length l)%nat; [|reflexivity].
  cbv zeta. unfold py_last.
  replace (length l - 3)%nat with 0%nat by lia.
  rewrite firstn_all2 by lia. cbn [skipn]. apply sub_diag_not_below.
Qed.

Lemma dict_get_In {V : Type} (k : string) (v : V) (d : list (string * V)) :
  List.NoDup (dict_keys d) -> In (k, v) d -> dict_get k d = Some v.
Proof.
  induction d as [|[k' v'] d IH]; intros Hnd Hin; [contradiction|].
  cbn [dict_keys map fst] in Hnd. apply List.NoDup_cons_iff in Hnd as [Hk Hnd].
  cbn [dict_get]. destruct Hin as [[= -> ->]|Hin].
  - now rewrite String.eqb_refl.
  - destruct (String.eqb k k') eqn:E; [|now apply IH].
    apply String.eqb_eq in E. subst k'. exfalso. apply Hk.
    unfold dict_keys. apply in_map_iff. now exists (k, v).
Qed.

(** X23.  A decline needs four quizzes: for a topic with at most three
    records both windows of the trend are the whole list of scores, so the
    trend is never below -10 (it is 0, or NaN when the mean is not a finite
    number) and the topic is not among the declining topics of
    [generate_study_recommendations], however its scores fall. *)
Theorem no_decline_before_fourth_quiz
    (history : list history_record) (topic : string) (st : topic_stats) :
  dict_get topic (analyze_topic_performance history) = Some st ->
  (length (scores st) <= 3)%nat ->
  PyFloat.ltb (trend st) (PyFloat.of_Z (-10)) = false
  /\ ~ In topic (declining_topics (analyze_topic_performance history)).
Proof.
  intros H Hlen.
  assert (T : PyFloat.ltb (trend st) (PyFloat.of_Z (-10)) = false).
  { rewrite analyze_topic_performance_lookup in H.
    destruct (topic_scores topic history) as [|s l]; [discriminate|].
    injection H as <-. cbn [scores trend topic_finish topic_acc_of acc_scores] in *.
    now apply trend_of_short. }
  split; [exact T|].
  unfold declining_topics. intros Hin. apply in_map_iff in Hin.
  destruct Hin as ([t st'] & Ht & Hin). cbn [fst] in Ht. subst t.
  apply filter_In in Hin as [Hin Hf]. cbn [snd] in Hf.
  assert (Hst : dict_get topic (analyze_topic_performance history) = Some st').
  { apply dict_get_In; [|exact Hin].
    rewrite analyze_topic_performance_keys. apply first_occurrences_NoDup. }
  rewrite H in Hst. injection Hst as <-. congruence.
Qed.

Lemma no_decline_before_fourth_quiz_witness :
  exists st,
    analyze_topic_performance falling_history = [("Algebra", st)]
    /\ scores st = map PyFloat.of_Z [90; 50; 10]
    /\ PyFloat.ltb (trend st) (PyFloat.of_Z (-10)) = false
    /\ generate_study_recommendations (analyze_topic_performance falling_history) []
       = [ "Focus on improving your understanding of Algebra - your average score is 50.0%" ].
Proof.
  assert (T : { st | analyze_topic_performance falling_history = [("Algebra", st)]
                     /\ scores st = map PyFloat.of_Z [90; 50; 10]
                     /\ generate_study_recommendations [("Algebra", st)] []
                        = [ "Focus on improving your understanding of Algebra - your average score is 50.0%" ] }).
  { eexists. repeat split; vm_compute; reflexivity. }
  destruct T as (st & Ha & Hs & Hr).
  exists st. split; [exact Ha|]. split; [exact Hs|]. split.
  - apply (no_decline_before_fourth_quiz falling_history "Algebra" st).
    + rewrite Ha. reflexivity.
    + rewrite Hs. simpl. lia.
  - rewrite Ha. exact Hr.
Defined.

(** ** The answers stored by the quiz page *)

Lemma answer_key_label (key text : string) :
  PyStr.contains ")" key = false ->
  TakeQuizPage.answer_key (TakeQuizPage.option_label key text) = key.
Proof.
  unfold TakeQuizPage.answer_key, TakeQuizPage.option_label.
  induction key as [|c key IH]; intros H; [reflexivity|].
  rewrite contains_char_cons in H. apply orb_false_iff in H as [Hc Hk].
  rewrite append_cons. cbn [TakeQuizPage.before_paren].
  now rewrite Hc, (IH Hk).
Qed.

Lemma option_letter_no_paren (k : string) :
  In k option_letters ->
  PyStr.contains ")" k = false /\ String.length k = 1%nat.
Proof.
  unfold option_letters. simpl.
  intros [<-|[<-|[<-|[<-|[]]]]]; split; reflexivity.
Qed.

(** The label of an option of a generated question is read back as the
    key of that option, whatever its text. *)
Lemma generated_label_key
    (api : string -> option string) (topic difficulty : string) (n : Z)
    (format : pyval -> string) (q opts : pydict) (selected : string) :
  In q (generate_quiz_questions api topic difficulty n) ->
  dict_get "options" q = Some (PDict opts) ->
  In selected (TakeQuizPage.option_list format opts) ->
  In (TakeQuizPage.answer_key selected) (dict_keys opts)
  /\ In (TakeQuizPage.answer_key selected) option_letters.
Proof.
  intros Hq Hopts Hsel.
  pose proof (generate_quiz_questions_lettered api topic difficulty n q Hq) as L.
  unfold options_lettered in L. rewrite Hopts in L. destruct L as (_ & Hin & _).
  unfold TakeQuizPage.option_list in Hsel. apply in_map_iff in Hsel.
  destruct Hsel as (entry & <- & Hentry).
  assert (Hk : In (fst entry) (dict_keys opts)).
  { unfold dict_keys. apply in_map_iff. now exists entry. }
  assert (Hl : In (fst entry) option_letters).
  { rewrite Forall_forall in Hin. apply Hin, list_elem_of_In, Hk. }
  rewrite answer_key_label by (apply option_letter_no_paren, Hl).
  now split.
Qed.

(** X20.  Round trip of the option labels of the quiz page: for every question
    that [generate_quiz_questions] returns, the answer key that the page
    reads back from the label of an option is the key of that option, one
    of the letters A to D. *)
Theorem page_reads_back_option_key
    (api : string -> option string) (topic difficulty : string) (n : Z)
    (format : pyval -> string) (q opts : pydict) (key : string) (value : pyval) :
  In q (generate_quiz_questions api topic difficulty n) ->
  dict_get "options" q = Some (PDict opts) ->
  In (key, value) opts ->
  In (TakeQuizPage.option_label key (format value))
     (TakeQuizPage.option_list format opts)
  /\ TakeQuizPage.answer_key (TakeQuizPage.option_label key (format value)) = key
  /\ In key option_letters.
Proof.
  intros Hq Hopts Hentry.
  pose proof (generate_quiz_questions_lettered api topic difficulty n q Hq) as L.
  unfold options_lettered in L. rewrite Hopts in L. destruct L as (_ & Hin & _).
  assert (Hl : In key option_letters).
  { rewrite Forall_forall in Hin. apply Hin, list_elem_of_In.
    unfold dict_keys. apply in_map_iff. now exists (key, value). }
  split; [|split; [|exact Hl]].
  - unfold TakeQuizPage.option_list. apply in_map_iff. now exists (key, value).
  - apply answer_key_label, option_letter_no_paren, Hl.
Qed.

Lemma page_reads_back_option_key_witness :
  TakeQuizPage.answer_key
    (TakeQuizPage.option_label "A" (format_text (PStr "Basic principle of Algebra")))
  = "A".
Proof.
  exact (proj1 (proj2
    (page_reads_back_option_key (fun _ => None) "Algebra" "easy" 1 format_text
       _ _ "A" (PStr "Basic principle of Algebra")
       (or_introl eq_refl) eq_refl (or_introl eq_refl)))).
Defined.

Lemma page_answers_letters
    (api : string -> option string) (topic difficulty : string) (n : Z)
    (format : pyval -> string) (user_answers : gmap Z pyval) :
  page_answers format (generate_quiz_questions api topic difficulty n)
               user_answers ->
  forall k v, user_answers !! k = Some v -> option_letter v.
Proof.
  intros H k v Hv.
  destruct (H k v Hv) as (i & q & opts & selected & _ & Hq & Hopts & Hsel & ->).
  apply list_elem_of_lookup_2, list_elem_of_In in Hq.
  destruct (generated_label_key api topic difficulty n format q opts selected
              Hq Hopts Hsel) as [_ Hl].
  exists (TakeQuizPage.answer_key selected). split; [reflexivity|].
  apply option_letter_no_paren, Hl.
Qed.

(** X21.  The answers of the page are kept by its assignment: nothing is stored
    at first, and recording the label chosen for a question keeps every
    stored answer the key of an option of its question. *)
Theorem page_answers_invariant
    (format : pyval -> string) (questions : list pydict) :
  page_answers format questions ∅
  /\ forall (user_answers : gmap Z pyval) (current_q : nat) (q opts : pydict)
            (selected_option : option string),
       page_answers format questions user_answers ->
       questions !! current_q = Some q ->
       dict_get "options" q = Some (PDict opts) ->
       match selected_option with
       | Some s => In s (TakeQuizPage.option_list format opts)
       | None => True
       end ->
       page_answers format questions
         (TakeQuizPage.record_answer current_q selected_option user_answers).
Proof.
  split.
  - intros k v Hv. rewrite lookup_empty in Hv. discriminate.
  - intros user_answers current_q q opts selected_option H Hq Hopts Hsel.
    unfold TakeQuizPage.record_answer.
    destruct selected_option as [s|]; [|exact H].
    destruct (truthy (PStr s)); [|exact H].
    intros k v Hv. destruct (decide (k = Z.of_nat current_q)) as [->|Hne].
    + rewrite lookup_insert_eq in Hv. injection Hv as <-.
      now exists current_q, q, opts, s.
    + rewrite lookup_insert_ne in Hv by congruence. exact (H k v Hv).
Qed.

(** X22.  A quiz taken through the page: when the questions come from
    [generate_quiz_questions] and the answers are those the page stores,
    the score is the number of breakdown entries marked correct. *)
Theorem page_quiz_score_matches_breakdown
    (api : string -> option string) (topic difficulty : string) (n : Z)
    (format : pyval -> string) (now : PyFloat.float)
    (user_answers : gmap Z pyval) (start_time : PyFloat.float) :
  let questions := generate_quiz_questions api topic difficulty n in
  page_answers format questions user_answers ->
  let r := calculate_quiz_results now (map PDict questions) user_answers
                                  start_time in
  score r = length (List.filter is_correct (questions_breakdown r)).
Proof.
  intros questions H r. subst r questions.
  apply score_agrees_with_breakdown_on_letters.
  exact (page_answers_letters api topic difficulty n format user_answers H).
Qed.

Lemma page_quiz_score_matches_breakdown_witness :
  score (calculate_quiz_results (PyFloat.of_Z 10)
           (map PDict (generate_quiz_questions (fun _ => None) "Algebra" "easy" 2))
           {[ 0 := PStr "A" ]} (PyFloat.of_Z 3))
  = length (List.filter is_correct
              (questions_breakdown
                 (calculate_quiz_results (PyFloat.of_Z 10)
                    (map PDict
                       (generate_quiz_questions (fun _ => None) "Algebra" "easy" 2))
                    {[ 0 := PStr "A" ]} (PyFloat.of_Z 3)))).
Proof.
  apply (page_quiz_score_matches_breakdown (fun _ => None) "Algebra" "easy" 2
           format_text).
  intros k v Hv. apply lookup_singleton_Some in Hv as [<- <-].
  exists 0%nat. do 2 eexists. exists "A) Basic principle of Algebra".
  split; [reflexivity|]. split; [reflexivity|]. split; [reflexivity|].
  split; [left; reflexivity | reflexivity].
Defined.
